(** * I Bond tracker: the workbook formulas of [create_ibond_tracker.py]

    The script writes spreadsheet formulas into three sheets (Rates,
    Inventory, BondSchedule).  What the workbook computes is what those
    formulas denote, so each formula string is transcribed here as a
    function over spreadsheet values, built from the worksheet functions
    it calls.

    Numbers are idealised as real numbers (binary floating point is not
    modelled); dates are day serials of the 1900 date system. *)

From Stdlib Require Import Reals Lra Lia ZArith List String Ascii Bool.
Import ListNotations.
Local Open Scope R_scope.

(* ================================================================== *)
(** ** Spreadsheet values *)

Module Excel.

Inductive error := ErrNA | ErrNUM | ErrVALUE | ErrREF | ErrDIV0 | ErrCALC.

(** What a cell or a formula can hold.  [Blank] is an empty cell; the
    empty text is [Str EmptyString]. *)
Inductive value :=
| Blank
| Num (x : R)
| Str (s : string)
| Bool (b : bool)
| Err (e : error).

(** A formula yields one value or a spilled one-column array. *)
Inductive result :=
| Scalar (v : value)
| Array (l : list value).

Coercion Scalar : value >-> result.

Definition empty_text : value := Str EmptyString.

(** The two ways a cell shows nothing. *)
Definition is_blank (v : value) : bool :=
  match v with
  | Blank => true
  | Str EmptyString => true
  | _ => false
  end.

Definition is_error (v : value) : bool :=
  match v with Err _ => true | _ => false end.

(** Numeric coercion of an operand.  An empty cell counts as 0, TRUE as 1.
    Text is taken to be non-numeric (headers, the empty text), which an
    arithmetic operator rejects with #VALUE!. *)
Definition as_number (v : value) : error + R :=
  match v with
  | Blank => inr 0
  | Num x => inr x
  | Bool b => inr (if b then 1 else 0)
  | Str _ => inl ErrVALUE
  | Err e => inl e
  end.

(** Integer coercion truncates toward zero (dates, counts, positions). *)
Definition Ztrunc (x : R) : Z :=
  if Rle_dec 0 x then Zfloor x else Zceil x.

Definition as_integer (v : value) : error + Z :=
  match as_number v with
  | inl e => inl e
  | inr x => inr (Ztrunc x)
  end.

Definition num1 (op : R -> value) (a : value) : value :=
  match as_number a with
  | inl e => Err e
  | inr x => op x
  end.

(** A binary operator reports the left operand's error first. *)
Definition num2 (op : R -> R -> value) (a b : value) : value :=
  match as_number a with
  | inl e => Err e
  | inr x =>
      match as_number b with
      | inl e => Err e
      | inr y => op x y
      end
  end.

Definition add : value -> value -> value := num2 (fun x y => Num (x + y)).
Definition sub : value -> value -> value := num2 (fun x y => Num (x - y)).
Definition mul : value -> value -> value := num2 (fun x y => Num (x * y)).
Definition div : value -> value -> value :=
  num2 (fun x y => if Req_dec_T y 0 then Err ErrDIV0 else Num (x / y)).

(** *** Text comparison (case-insensitive, ASCII) *)

Definition upper (c : ascii) : ascii :=
  let n := nat_of_ascii c in
  if (97 <=? n)%nat && (n <=? 122)%nat then ascii_of_nat (n - 32) else c.

Fixpoint upper_string (s : string) : string :=
  match s with
  | EmptyString => EmptyString
  | String c t => String (upper c) (upper_string t)
  end.

Fixpoint string_leb (s t : string) : bool :=
  match s, t with
  | EmptyString, _ => true
  | String _ _, EmptyString => false
  | String a s', String b t' =>
      let x := nat_of_ascii a in
      let y := nat_of_ascii b in
      if (x <? y)%nat then true
      else if (y <? x)%nat then false
      else string_leb s' t'
  end.

Definition text_eqb (s t : string) : bool :=
  String.eqb (upper_string s) (upper_string t).

Definition text_leb (s t : string) : bool :=
  string_leb (upper_string s) (upper_string t).

Definition Rleb (x y : R) : bool := if Rle_dec x y then true else false.
Definition Reqb (x y : R) : bool := if Req_dec_T x y then true else false.

(** *** The [=] operator

    An empty cell equals both 0 and the empty text; values of different
    kinds are unequal; an error operand is the result. *)
Definition eq_op (a b : value) : value :=
  match a, b with
  | Err e, _ => Err e
  | _, Err e => Err e
  | Blank, Blank => Bool true
  | Blank, Num y => Bool (Reqb 0 y)
  | Num x, Blank => Bool (Reqb x 0)
  | Blank, Str t => Bool (text_eqb EmptyString t)
  | Str s, Blank => Bool (text_eqb s EmptyString)
  | Blank, Bool c => Bool (Bool.eqb false c)
  | Bool c, Blank => Bool (Bool.eqb c false)
  | Num x, Num y => Bool (Reqb x y)
  | Str s, Str t => Bool (text_eqb s t)
  | Bool c, Bool d => Bool (Bool.eqb c d)
  | _, _ => Bool false
  end.

(** *** Logical functions *)

(** Truth value of a condition. *)
Definition as_bool (c : value) : error + bool :=
  match c with
  | Bool b => inr b
  | Num x => inr (negb (Reqb x 0))
  | Blank => inr false
  | Str _ => inl ErrVALUE
  | Err e => inl e
  end.

Fixpoint OR_from (seen : bool) (args : list value) : value :=
  match args with
  | [] => Bool seen
  | a :: rest =>
      match as_bool a with
      | inl e => Err e
      | inr b => OR_from (seen || b) rest
      end
  end.

Definition OR (args : list value) : value := OR_from false args.

(** [IF(cond, a, b)] with a single condition, between two values and
    between two results that may be arrays. *)
Definition IF (c : value) (a b : value) : value :=
  match as_bool c with
  | inl e => Err e
  | inr true => a
  | inr false => b
  end.

Definition IF_arr (c : value) (a b : result) : result :=
  match as_bool c with
  | inl e => Scalar (Err e)
  | inr true => a
  | inr false => b
  end.

Definition IFERROR (v alt : value) : value :=
  match v with
  | Err _ => alt
  | _ => v
  end.

(** *** Elementwise lifting and broadcasting *)

Definition lift1 (f : value -> value) (a : result) : result :=
  match a with
  | Scalar v => Scalar (f v)
  | Array l => Array (map f l)
  end.

(** Two columns of different heights pair up to the longer one; the
    unmatched positions are #N/A. *)
Fixpoint zip_pad (f : value -> value -> value) (l1 l2 : list value)
  : list value :=
  match l1 with
  | [] => map (fun _ => Err ErrNA) l2
  | x :: t1 =>
      match l2 with
      | [] => Err ErrNA :: map (fun _ => Err ErrNA) t1
      | y :: t2 => f x y :: zip_pad f t1 t2
      end
  end.

(** A scalar, and likewise a one-cell array, is broadcast over an array. *)
Definition lift2 (f : value -> value -> value) (a b : result) : result :=
  match a, b with
  | Scalar x, Scalar y => Scalar (f x y)
  | Scalar x, Array l => Array (map (f x) l)
  | Array l, Scalar y => Array (map (fun x => f x y) l)
  | Array l1, Array l2 =>
      match l1, l2 with
      | [x], _ => Array (map (f x) l2)
      | _, [y] => Array (map (fun x => f x y) l1)
      | _, _ => Array (zip_pad f l1 l2)
      end
  end.

Declare Scope xl_scope.
Delimit Scope xl_scope with xl.
Notation "a + b" := (add a b) : xl_scope.
Notation "a - b" := (sub a b) : xl_scope.
Notation "a * b" := (mul a b) : xl_scope.
Notation "a / b" := (div a b) : xl_scope.

Declare Scope arr_scope.
Delimit Scope arr_scope with arr.
Notation "a + b" := (lift2 add a b) : arr_scope.
Notation "a - b" := (lift2 sub a b) : arr_scope.
Notation "a * b" := (lift2 mul a b) : arr_scope.
Notation "a / b" := (lift2 div a b) : arr_scope.

(** *** Numeric functions *)

Definition INT : value -> value := num1 (fun x => Num (IZR (Zfloor x))).

(** [MOD(n, d) = n - d * INT(n / d)]. *)
Definition MOD : value -> value -> value :=
  num2 (fun x y =>
          if Req_dec_T y 0 then Err ErrDIV0
          else Num (x - y * IZR (Zfloor (x / y)))).

(** [POWER(x, y)]: a positive base takes any exponent; base 0 takes
    positive exponents only; a negative base takes whole exponents only. *)
Definition POWER : value -> value -> value :=
  num2 (fun x y =>
          if Rlt_dec 0 x then Num (Rpower x y)
          else if Req_dec_T x 0 then
            if Rlt_dec 0 y then Num 0
            else if Req_dec_T y 0 then Err ErrNUM
            else Err ErrDIV0
          else if Req_dec_T y (IZR (Zfloor y)) then Num (powerRZ x (Zfloor y))
          else Err ErrNUM).

(** Rounding to [digits] decimals, halves away from zero. *)
Definition round_half_away (x : R) (digits : Z) : R :=
  let p := powerRZ 10 digits in
  if Rle_dec 0 x then IZR (Zfloor (x * p + / 2)) / p
  else - (IZR (Zfloor (- x * p + / 2)) / p).

Definition ROUND (v : value) (digits : Z) : value :=
  num1 (fun x => Num (round_half_away x digits)) v.

Definition EXP : value -> value := num1 (fun x => Num (exp x)).

Definition LN : value -> value :=
  num1 (fun x => if Rlt_dec 0 x then Num (ln x) else Err ErrNUM).

(** [SUM] over an array adds its numbers, passes over text, logicals and
    empty cells, and stops at the first error. *)
Fixpoint sum_from (acc : R) (l : list value) : value :=
  match l with
  | [] => Num acc
  | Err e :: _ => Err e
  | Num x :: t => sum_from (acc + x) t
  | _ :: t => sum_from acc t
  end.

Definition SUM (a : result) : value :=
  match a with
  | Scalar v => num1 Num v
  | Array l => sum_from 0 l
  end.

(** *** Arrays *)

(** [SEQUENCE(rows, 1, start, step)]: every call in the workbook asks for
    one column. *)
Definition SEQUENCE (rows start step : value) : result :=
  match as_integer rows with
  | inl e => Scalar (Err e)
  | inr n =>
      if (n <? 0)%Z then Scalar (Err ErrVALUE)
      else if (n =? 0)%Z then Scalar (Err ErrCALC)
      else
        match as_number start with
        | inl e => Scalar (Err e)
        | inr s =>
            match as_number step with
            | inl e => Scalar (Err e)
            | inr d =>
                Array (map (fun i => Num (s + IZR (Z.of_nat i) * d))
                           (seq 0 (Z.to_nat n)))
            end
        end
  end.

(** [SCAN(init, array, LAMBDA(a, x, f a x))]: the running accumulations,
    the current element included. *)
Fixpoint scan_from (f : value -> value -> value) (acc : value)
  (l : list value) : list value :=
  match l with
  | [] => []
  | x :: t => let acc' := f acc x in acc' :: scan_from f acc' t
  end.

Definition SCAN (init : value) (a : result)
  (f : value -> value -> value) : result :=
  match a with
  | Scalar v => Scalar (f init v)
  | Array l => Array (scan_from f init l)
  end.

(** A whole-column reference such as [Rates!A:A] is the list of its cells
    from row 1 down; every row below the list is empty.  (The sheet's row
    limit is not modelled.) *)
Definition column := list value.

Definition cell (col : column) (row : Z) : value :=
  nth (Z.to_nat (row - 1)) col Blank.

(** [INDEX(column, row)].  Row 0 would select the column as a whole; no
    formula of the workbook asks for it, the positions it passes start
    at 1. *)
Definition INDEX_ref (col : column) (row : value) : value :=
  match as_integer row with
  | inl e => Err e
  | inr r => if (r <? 1)%Z then Err ErrVALUE else cell col r
  end.

(** [INDEX(array, row)] into a computed array. *)
Definition INDEX_arr (a : result) (row : value) : value :=
  match as_integer row with
  | inl e => Err e
  | inr r =>
      if (r <? 1)%Z then Err ErrVALUE
      else
        match a with
        | Scalar v => if (r =? 1)%Z then v else Err ErrREF
        | Array l => nth (Z.to_nat (r - 1)) l (Err ErrREF)
        end
  end.

(** *** Lookups *)

(** Order between values of one kind; values of different kinds are not
    compared by a lookup. *)
Definition le_same_kind (c x : value) : bool :=
  match c, x with
  | Num a, Num b => Rleb a b
  | Str s, Str t => text_leb s t
  | Bool a, Bool b => implb a b
  | _, _ => false
  end.

Fixpoint match_last (x : value) (col : list value) (pos : Z)
  (best : option Z) : option Z :=
  match col with
  | [] => best
  | c :: rest =>
      match_last x rest (pos + 1)
                 (if le_same_kind c x then Some pos else best)
  end.

(** [MATCH(x, column, 1)]: the position of the largest value not above [x],
    for a column in ascending order: the last cell of [x]'s kind that is
    not above [x]. *)
Definition MATCH (x : value) (col : column) : value :=
  match x with
  | Err e => Err e
  | _ =>
      match match_last x col 1 None with
      | Some p => Num (IZR p)
      | None => Err ErrNA
      end
  end.

(** Exact match of a lookup key. *)
Definition same_key (k c : value) : bool :=
  match k, c with
  | Blank, Blank => true
  | Num a, Num b => Reqb a b
  | Str s, Str t => text_eqb s t
  | Bool a, Bool b => Bool.eqb a b
  | _, _ => false
  end.

Fixpoint xlookup_first (k : value) (keys vals : list value) : option value :=
  match keys, vals with
  | c :: keys', v :: vals' =>
      if same_key k c then Some v else xlookup_first k keys' vals'
  | _, _ => None
  end.

(** [XLOOKUP(key, keys, values)]: the value beside the first exact match. *)
Definition XLOOKUP (k : value) (keys vals : list value) : value :=
  match k with
  | Err e => Err e
  | _ =>
      match xlookup_first k keys vals with
      | Some v => v
      | None => Err ErrNA
      end
  end.

(** What a formula cell holds once evaluated: a formula that comes down
    to an empty cell shows 0. *)
Definition formula_value (v : value) : value :=
  match v with
  | Blank => Num 0
  | _ => v
  end.

End Excel.

(* ================================================================== *)
(** ** Dates: day serials of the 1900 date system *)

Module Calendar.

Import Excel.
Local Open Scope Z_scope.

(** The 1900 date system counts a 29 February 1900. *)
Definition leap_year (y : Z) : bool :=
  (y =? 1900) || ((y mod 4 =? 0) && (negb (y mod 100 =? 0) || (y mod 400 =? 0))).

(** Months are numbered from January 1900 = 0. *)
Definition days_in_month (n : Z) : Z :=
  let y := 1900 + n / 12 in
  match n mod 12 with
  | 1 => if leap_year y then 29 else 28
  | 3 | 5 | 8 | 10 => 30
  | _ => 31
  end.

(** Serial of the first day of month [n]; 1 January 1900 is serial 1. *)
Fixpoint month_start (n : nat) : Z :=
  match n with
  | O => 1
  | S k => month_start k + days_in_month (Z.of_nat k)
  end.

(** Month and day of month of serial [s], searching forward from month [n]
    whose first day is [start]. *)
Fixpoint locate (fuel : nat) (n : nat) (start s : Z) : nat * Z :=
  match fuel with
  | O => (n, s - start + 1)
  | S fuel' =>
      let next := start + days_in_month (Z.of_nat n) in
      if s <? next then (n, s - start + 1)
      else locate fuel' (S n) next s
  end.

Definition month_day (s : Z) : nat * Z := locate (Z.to_nat s) 0 1 s.

(** 31 December 9999. *)
Definition max_serial : Z := 2958465.

Definition valid_serial (s : Z) : bool := (0 <=? s) && (s <=? max_serial).

(** The serial openpyxl stores for [datetime.date(y, m, d)]. *)
Definition date (y m d : Z) : Z :=
  month_start (Z.to_nat ((y - 1900) * 12 + (m - 1))) + d - 1.

Definition edate (s k : Z) : error + Z :=
  if negb (valid_serial s) then inl ErrNUM
  else
    let (n, d) := month_day s in
    let n' := Z.of_nat n + k in
    if n' <? 0 then inl ErrNUM
    else
      let r := month_start (Z.to_nat n') + Z.min d (days_in_month n') - 1 in
      if valid_serial r then inr r else inl ErrNUM.

(** [EDATE(start, months)]: the same day of the month [months] later, or
    that month's last day. *)
Definition EDATE (start months : value) : value :=
  match as_integer start with
  | inl e => Err e
  | inr s =>
      match as_integer months with
      | inl e => Err e
      | inr k =>
          match edate s k with
          | inl e => Err e
          | inr r => Num (IZR r)
          end
      end
  end.

Definition datedif_m (s e : Z) : error + Z :=
  if negb (valid_serial s && valid_serial e) then inl ErrNUM
  else if e <? s then inl ErrNUM
  else
    let (n1, d1) := month_day s in
    let (n2, d2) := month_day e in
    inr (Z.of_nat n2 - Z.of_nat n1 - (if d2 <? d1 then 1 else 0)).

(** [DATEDIF(start, end, "m")]: the complete months from [start] to [end]. *)
Definition DATEDIF_m (start finish : value) : value :=
  match as_integer start with
  | inl e => Err e
  | inr s =>
      match as_integer finish with
      | inl e => Err e
      | inr f =>
          match datedif_m s f with
          | inl e => Err e
          | inr m => Num (IZR m)
          end
      end
  end.

End Calendar.

(* ================================================================== *)
(** ** The workbook *)

Import Excel Calendar.

(** [TODAY()]: the evaluation day, a parameter of every formula that
    reads the clock. *)
Definition TODAY (today : Z) : value := Num (IZR today).

(** *** Sheet Rates ([build_rates]) *)

Module Rates.

(** Columns A (EffDate) and B (VariableRate), header row included. *)
Record sheet := { A : column; B : column }.

Definition example_rows : list (Z * R) :=
  [ (date 2024 5 1, 0); (date 2024 11 1, 0); (date 2025 5 1, 0) ].

Definition build_rates : sheet :=
  {| A := Str "EffDate" :: map (fun r => Num (IZR (fst r))) example_rows;
     B := Str "VariableRate" :: map (fun r => Num (snd r)) example_rows |}.

End Rates.

(** *** Sheet Inventory ([build_inventory]) *)

Module Inventory.

(** The six input cells A..F of a table row. *)
Record row := {
  BondID : value;
  Owner : value;
  IssueDate : value;
  PurchaseAmount : value;
  FixedRate : value;
  MonthsToProject : value
}.

Definition empty_row : row :=
  {| BondID := Blank; Owner := Blank; IssueDate := Blank;
     PurchaseAmount := Blank; FixedRate := Blank; MonthsToProject := Blank |}.

Definition example_row : row :=
  {| BondID := Str "EX-0001"; Owner := Str "Sample Owner";
     IssueDate := Num (IZR (date 2024 1 15));
     PurchaseAmount := Num 1000; FixedRate := Num (9 / 1000);
     MonthsToProject := Num 120 |}.

(** The table's data rows, sheet rows 2 to 101. *)
Definition sheet := list row.

Definition build_inventory : sheet := [example_row].

(** A range [$X$2:$X$101] of one input column: 100 cells. *)
Definition range (f : row -> value) (inv : sheet) : list value :=
  map f (firstn 100 inv) ++ repeat Blank (100 - List.length inv).

(** Column G:
    [=IFERROR(DATEDIF(C{r}, TODAY(), "m"), "")] *)
Definition MonthsHeld (today : Z) (r : row) : value :=
  formula_value
    (IFERROR (DATEDIF_m (IssueDate r) (TODAY today)) empty_text).

(** Column H, the [LET] formula of lines 135-144. *)
Definition CurrentValue (rates : Rates.sheet) (today : Z) (r : row) : value :=
  let C := IssueDate r in
  let D := PurchaseAmount r in
  let E := FixedRate r in
  formula_value
    (IF (OR [eq_op C empty_text; eq_op D empty_text; eq_op E empty_text])
        empty_text
        (let issue := C in
         let principal := D in
         let fixed := E in
         let months := IFERROR (DATEDIF_m issue (TODAY today)) (Num 0) in
         let startIdx := MATCH issue (Rates.A rates) in
         let fullPeriods := INT (months / Num 6)%xl in
         let monthsInPeriod := MOD months (Num 6) in
         let varVec :=
           IF_arr (eq_op fullPeriods (Num 0)) empty_text
                  (lift1 (INDEX_ref (Rates.B rates))
                         (SEQUENCE fullPeriods startIdx (Num 1))) in
         let fullProd :=
           IF (eq_op fullPeriods (Num 0)) (Num 1)
              (EXP (SUM (lift1 LN
                 (Num 1 + ((fixed + varVec + fixed * varVec) / Num 2))%arr))) in
         let lastVar := INDEX_ref (Rates.B rates) (startIdx + fullPeriods)%xl in
         let partial :=
           POWER (Num 1 + ((fixed + lastVar + fixed * lastVar) / Num 2))%xl
                 (monthsInPeriod / Num 6)%xl in
         IFERROR (ROUND (principal * fullProd * partial)%xl 2) empty_text)).

End Inventory.

(** *** Sheet BondSchedule ([build_bond_schedule]) *)

Module BondSchedule.

Import Inventory.

(** Cells B3..B6 look the selected bond (cell B1) up in the Inventory. *)
Definition B3 (inv : Inventory.sheet) (B1 : value) : value :=
  formula_value
    (IFERROR (XLOOKUP B1 (range BondID inv) (range IssueDate inv)) empty_text).

Definition B4 (inv : Inventory.sheet) (B1 : value) : value :=
  formula_value
    (IFERROR (XLOOKUP B1 (range BondID inv) (range PurchaseAmount inv))
             empty_text).

Definition B5 (inv : Inventory.sheet) (B1 : value) : value :=
  formula_value
    (IFERROR (XLOOKUP B1 (range BondID inv) (range FixedRate inv)) empty_text).

Definition B6 (inv : Inventory.sheet) (B1 : value) : value :=
  formula_value
    (IFERROR (XLOOKUP B1 (range BondID inv) (range MonthsToProject inv))
             (Num 0)).

(** What a spilled formula shows. *)
Definition spill (a : result) : result := lift1 formula_value a.

(** A9, column Month:
    [=IF($B$3="", "", EDATE($B$3, SEQUENCE($B$6+1, 1, 0, 1)))] *)
Definition A9 (b3 b6 : value) : result :=
  spill (IF_arr (eq_op b3 empty_text) empty_text
           (lift2 EDATE b3 (SEQUENCE (b6 + Num 1)%xl (Num 0) (Num 1)))).

(** B9, column MonthIndex:
    [=IF($B$3="", "", SEQUENCE($B$6+1, 1, 0, 1))] *)
Definition B9 (b3 b6 : value) : result :=
  spill (IF_arr (eq_op b3 empty_text) empty_text
           (SEQUENCE (b6 + Num 1)%xl (Num 0) (Num 1))).

(** C9, column VariableRate. *)
Definition C9 (rates : Rates.sheet) (b3 b6 : value) : result :=
  spill (IF_arr (eq_op b3 empty_text) empty_text
           (let m := B9 b3 b6 in
            let issue := b3 in
            let startIdx := MATCH issue (Rates.A rates) in
            let periodIdx := lift1 INT (m / Num 6)%arr in
            let annIdx := (startIdx + periodIdx)%arr in
            lift1 (INDEX_ref (Rates.B rates)) annIdx)).

(** D9, column CompositeRate. *)
Definition D9 (rates : Rates.sheet) (b3 b5 b6 : value) : result :=
  spill (IF_arr (eq_op b3 empty_text) empty_text
           (let m := B9 b3 b6 in
            let fixed := b5 in
            let var := C9 rates b3 b6 in
            (fixed + var + fixed * var)%arr)).

(** E9, column Value: the [SCAN] formula of lines 211-221. *)
Definition E9 (rates : Rates.sheet) (b3 b4 b5 b6 : value) : result :=
  spill (IF_arr (eq_op b3 empty_text) empty_text
           (let m := B9 b3 b6 in
            let principal := b4 in
            let fixed := b5 in
            let maxM := b6 in
            let issue := b3 in
            let startIdx := MATCH issue (Rates.A rates) in
            let numPeriods := (INT (maxM / Num 6) + Num 1)%xl in
            let periodIdxVec := SEQUENCE numPeriods (Num 0) (Num 1) in
            let annIdxVec := (startIdx + periodIdxVec)%arr in
            let varVec := lift1 (INDEX_ref (Rates.B rates)) annIdxVec in
            let halfFacVec :=
              (Num 1 + (fixed + varVec + fixed * varVec) / Num 2)%arr in
            let cumProdVec := SCAN (Num 1) halfFacVec (fun a x => (a * x)%xl) in
            let k := lift1 INT (m / Num 6)%arr in
            let r := lift2 MOD m (Num 6) in
            let fullProd := lift1 (INDEX_arr cumProdVec) (k + Num 1)%arr in
            let partial :=
              lift2 POWER (lift1 (INDEX_arr halfFacVec) (k + Num 1)%arr)
                    (r / Num 6)%arr in
            lift1 (fun v => ROUND v 2) (principal * fullProd * partial)%arr)).

(** The sheet for a selection [B1]: the four lookup cells feed the five
    spilled columns. *)
Record view := {
  IssueDate_cell : value;
  PurchaseAmount_cell : value;
  FixedRate_cell : value;
  MonthsToProject_cell : value;
  Month : result;
  MonthIndex : result;
  VariableRate : result;
  CompositeRate : result;
  Value : result
}.

Definition build_bond_schedule (rates : Rates.sheet) (inv : Inventory.sheet)
  (B1 : value) : view :=
  let b3 := B3 inv B1 in
  let b4 := B4 inv B1 in
  let b5 := B5 inv B1 in
  let b6 := B6 inv B1 in
  {| IssueDate_cell := b3;
     PurchaseAmount_cell := b4;
     FixedRate_cell := b5;
     MonthsToProject_cell := b6;
     Month := A9 b3 b6;
     MonthIndex := B9 b3 b6;
     VariableRate := C9 rates b3 b6;
     CompositeRate := D9 rates b3 b5 b6;
     Value := E9 rates b3 b4 b5 b6 |}.

(** The rows a column shows: those of its spill, none for the empty text. *)
Definition rows (a : result) : list value :=
  match a with
  | Array l => l
  | Scalar v => if is_blank v then [] else [v]
  end.

End BondSchedule.

(* ================================================================== *)
(** ** Vocabulary of the accrual model *)

Module AccrualModel.

Definition compositeRate (fixed variable : R) : R :=
  fixed + variable + fixed * variable.

(** Growth factor of one full six-month period. *)
Definition periodGrowth (fixed variable : R) : R :=
  1 + compositeRate fixed variable / 2.

Definition prod_list (l : list R) : R := fold_right Rmult 1 l.

(** Product of the growth factors of periods [0 .. k-1], the variable
    rate of period [i] being [v i]. *)
Definition fullPeriodProduct (fixed : R) (v : nat -> R) (k : nat) : R :=
  prod_list (map (fun i => periodGrowth fixed (v i)) (seq 0 k)).

End AccrualModel.

Import AccrualModel.

(* ================================================================== *)
(** ** Notions the statements use *)

(** The value the last line of the formula hands to [IFERROR], for numbers
    [p], [f], a month count [m], and growth factors taken from [v]. *)
Definition accrued (p f : R) (v : nat -> R) (m : Z) : value :=
  let k := Z.to_nat (m / 6) in
  let fullProd :=
    if (m / 6 =? 0)%Z then Num 1
    else EXP (SUM (lift1 LN
           (Array (map Num (map (fun i => periodGrowth f (v i)) (seq 0 k)))))) in
  let partial :=
    POWER (Num (periodGrowth f (v k))) (Num (IZR (m mod 6)) / Num 6)%xl in
  ROUND (Num p * fullProd * partial)%xl 2.

(** What row [m] of column E computes before rounding is handed over:
    the running product through period [m div 6] inclusive, times the
    partial factor. *)
Definition scheduled (p f : R) (v : nat -> R) (m : Z) : value :=
  let k := Z.to_nat (m / 6) in
  ROUND (Num p * Num (fullPeriodProduct f v (S k))
         * POWER (Num (periodGrowth f (v k))) (Num (IZR (m mod 6)) / Num 6))%xl
        2.

(** Month offsets [0 .. n]. *)
Definition offsets (n : Z) : list nat := seq 0 (Z.to_nat (n + 1)).

(** Accumulated growth factor after [m] months. *)
Definition growth_at (f : R) (v : nat -> R) (m : Z) : R :=
  fullPeriodProduct f v (Z.to_nat (m / 6))
  * Rpower (periodGrowth f (v (Z.to_nat (m / 6)))) (IZR (m mod 6) / 6).

(** The numbers of a column never decrease downwards. *)
Definition ascending (col : column) : Prop :=
  forall (p q : Z) (y z : R),
    (1 <= p < q)%Z -> cell col p = Num y -> cell col q = Num z -> y <= z.

(** The serial [k] months after [d]: the same day of the month, or the
    last day of a shorter month. *)
Definition months_on (d : Z) (k : nat) : Z :=
  let n := (fst (month_day d) + k)%nat in
  (month_start n + Z.min (snd (month_day d)) (days_in_month (Z.of_nat n)) - 1)%Z.

(* ================================================================== *)
(** ** Scenarios *)

Module Scenarios.

(** Two announcements six months apart, with rates [v0] and [v1]. *)
Definition two_rates (v0 v1 : R) : Rates.sheet :=
  {| Rates.A := [Str "EffDate"; Num (IZR (date 2024 5 1));
                 Num (IZR (date 2024 11 1))];
     Rates.B := [Str "VariableRate"; Num v0; Num v1] |}.

(** Announcements every three months, in ascending order. *)
Definition quarterly_rates : Rates.sheet :=
  {| Rates.A := [Str "EffDate"; Num (IZR (date 2024 1 1));
                 Num (IZR (date 2024 4 1)); Num (IZR (date 2024 7 1))];
     Rates.B := [Str "VariableRate"; Num (1 / 100); Num (2 / 100);
                 Num (3 / 100)] |}.

(** An Inventory row for a bond issued on serial [issue]. *)
Definition bond (issue : Z) (p f : value) (n : Z) : Inventory.row :=
  {| Inventory.BondID := Str "B-0001"; Inventory.Owner := Str "Owner";
     Inventory.IssueDate := Num (IZR issue);
     Inventory.PurchaseAmount := p; Inventory.FixedRate := f;
     Inventory.MonthsToProject := Num (IZR n) |}.

End Scenarios.

Import Scenarios.

(* ================================================================== *)
(** ** Sheet cells as openpyxl holds them ([set_header], [autosize]) *)

Module Sheet.

(** The four style attributes [set_header] assigns. *)
Record style := {
  bold : bool;
  centered : bool;
  filled : bool;
  bordered : bool
}.

Definition plain : style :=
  {| bold := false; centered := false; filled := false; bordered := false |}.

Definition header_style : style :=
  {| bold := true; centered := true; filled := true; bordered := true |}.

(** A cell: its value, [None] for a cell never written, and its style. *)
Record pcell (V : Type) := { content : option V; look : style }.

Arguments content {V} _.
Arguments look {V} _.

(** A worksheet, by row and column, both counted from 1. *)
Definition worksheet (V : Type) := nat -> nat -> pcell V.

Definition write {V} (ws : worksheet V) (row col : nat) (c : pcell V)
  : worksheet V :=
  fun r k => if ((r =? row) && (k =? col))%nat then c else ws r k.

(** [for col_idx, title in enumerate(headers, start=1)]: the loop, from
    column [col] on. *)
Fixpoint set_header_from {V} (ws : worksheet V) (row col : nat)
  (headers : list V) : worksheet V :=
  match headers with
  | [] => ws
  | title :: rest =>
      set_header_from
        (write ws row col {| content := Some title; look := header_style |})
        row (S col) rest
  end.

Definition set_header {V} (ws : worksheet V) (row : nat) (headers : list V)
  : worksheet V :=
  set_header_from ws row 1 headers.

(** [autosize], for one column.  [str] is Python's [str] on a cell value,
    [None] where it raises. *)
Definition cell_text {V} (str : V -> option string) (c : option V) : string :=
  match c with
  | None => EmptyString
  | Some v =>
      match str v with
      | Some s => s
      | None => EmptyString
      end
  end.

Definition longest {V} (str : V -> option string) (cells : list (option V))
  : nat :=
  fold_left
    (fun length c =>
       let val := cell_text str c in
       if (length <? String.length val)%nat then String.length val else length)
    cells 0%nat.

Definition column_width {V} (str : V -> option string)
  (cells : list (option V)) : nat :=
  Nat.min (Nat.max (longest str cells + 2) 10) 60.

(** [autosize]: one width per column of the sheet. *)
Definition autosize {V} (str : V -> option string)
  (columns : list (list (option V))) : list nat :=
  map (column_width str) columns.

End Sheet.

(** A result is a spilled column of [n] rows. *)
Definition height (a : result) (n : nat) : Prop :=
  exists l : list value, a = Array l /\ List.length l = n.

(* ================================================================== *)
(** ** The Rates sheet as [build_rates] writes it *)

Module RatesSheet.

Import Sheet.

(** [ws.cell(row, column, value=v)]: the value is set, the style kept. *)
Definition set_value (ws : worksheet value) (row col : nat) (v : value)
  : worksheet value :=
  write ws row col {| content := Some v; look := look (ws row col) |}.

(** [for idx, (eff, var) in enumerate(example_rows, start=2)], from row
    [idx] on. *)
Fixpoint write_rows (ws : worksheet value) (idx : nat)
  (rows : list (Z * R)) : worksheet value :=
  match rows with
  | [] => ws
  | (eff, var) :: rest =>
      write_rows
        (set_value (set_value ws idx 1 (Num (IZR eff))) idx 2 (Num var))
        (S idx) rest
  end.

(** What [build_rates] leaves: the cells and the table [A1:B{last_row}]. *)
Record built := { cells : worksheet value; last_row : nat }.

(** [build_rates], with its list of example rows as a parameter. *)
Definition build_rates_with (example_rows : list (Z * R))
  (ws : worksheet value) : built :=
  let ws1 := set_header ws 1 [Str "EffDate"; Str "VariableRate"] in
  let ws2 := write_rows ws1 2 example_rows in
  {| cells := ws2;
     last_row := Nat.max 100 (List.length example_rows + 20) |}.

Definition build_rates (ws : worksheet value) : built :=
  build_rates_with Rates.example_rows ws.

(** A sheet nothing was written to. *)
Definition new_sheet : worksheet value :=
  fun _ _ => {| content := None; look := plain |}.

(** What a formula reads in a cell. *)
Definition cell_value (c : pcell value) : value :=
  match content c with
  | Some v => v
  | None => Blank
  end.

(** Rows 1 to [n] of a column, as a whole-column reference sees them. *)
Definition column_of (ws : worksheet value) (col n : nat) : column :=
  map (fun r => cell_value (ws r col)) (seq 1 n).

End RatesSheet.

(* ================================================================== *)
(** ** Coercions and integer arithmetic on numbers *)

Lemma Ztrunc_IZR (z : Z) : Ztrunc (IZR z) = z.
Proof.
  unfold Ztrunc. destruct (Rle_dec 0 (IZR z)).
  - apply ZfloorZ.
  - unfold Zceil. rewrite <- opp_IZR, ZfloorZ. lia.
Qed.

Lemma as_integer_IZR (z : Z) : as_integer (Num (IZR z)) = inr z.
Proof. unfold as_integer; simpl. now rewrite Ztrunc_IZR. Qed.

Lemma Zfloor_div6 (m : Z) : Zfloor (IZR m / 6) = (m / 6)%Z.
Proof.
  apply Zfloor_eq.
  pose proof (Z.div_mod m 6 ltac:(lia)) as Hdm.
  pose proof (Z.mod_pos_bound m 6 ltac:(lia)) as [Hlo Hhi].
  assert (Hm : IZR m = 6 * IZR (m / 6) + IZR (m mod 6)).
  { rewrite Hdm at 1. now rewrite plus_IZR, mult_IZR. }
  apply IZR_le in Hlo. apply IZR_lt in Hhi. lra.
Qed.

Lemma INT_div6 (m : Z) : INT (Num (IZR m) / Num 6)%xl = Num (IZR (m / 6)).
Proof.
  unfold INT, div, num1, num2; simpl.
  destruct (Req_dec_T 6 0) as [H|_]; [lra|]. simpl.
  now rewrite Zfloor_div6.
Qed.

Lemma MOD_6 (m : Z) : MOD (Num (IZR m)) (Num 6) = Num (IZR (m mod 6)).
Proof.
  unfold MOD, num2; simpl.
  destruct (Req_dec_T 6 0) as [H|_]; [lra|].
  rewrite Zfloor_div6. f_equal.
  pose proof (Z.div_mod m 6 ltac:(lia)) as Hdm.
  assert (Hm : IZR m = 6 * IZR (m / 6) + IZR (m mod 6)).
  { rewrite Hdm at 1. now rewrite plus_IZR, mult_IZR. }
  lra.
Qed.

Lemma Reqb_IZR (a b : Z) : Reqb (IZR a) (IZR b) = (a =? b)%Z.
Proof.
  unfold Reqb. destruct (Req_dec_T (IZR a) (IZR b)) as [H|H].
  - apply eq_IZR in H. symmetry. now apply Z.eqb_eq.
  - symmetry. apply Z.eqb_neq. intros ->. now apply H.
Qed.

Lemma eq_op_zero (k : Z) : eq_op (Num (IZR k)) (Num 0) = Bool (k =? 0)%Z.
Proof. simpl. now rewrite Reqb_IZR. Qed.

Lemma eq_op_Num_empty (x : R) : eq_op (Num x) empty_text = Bool false.
Proof. reflexivity. Qed.

(* ================================================================== *)
(** ** Arrays *)

Lemma zip_pad_map {T} (f : value -> value -> value) (g h : T -> value)
  (l : list T) :
  zip_pad f (map g l) (map h l) = map (fun x => f (g x) (h x)) l.
Proof. induction l as [|x l IH]; simpl; [reflexivity | now rewrite IH]. Qed.

Lemma lift2_map_map {T} (f : value -> value -> value) (g h : T -> value)
  (l : list T) :
  lift2 f (Array (map g l)) (Array (map h l))
  = Array (map (fun x => f (g x) (h x)) l).
Proof.
  destruct l as [|x [|y l]]; try reflexivity.
  cbn [lift2 map]. f_equal. cbn [zip_pad]. do 2 f_equal.
  apply (zip_pad_map f g h l).
Qed.

Lemma lift2_scalar_map {T} (f : value -> value -> value) (a : value)
  (h : T -> value) (l : list T) :
  lift2 f (Scalar a) (Array (map h l)) = Array (map (fun x => f a (h x)) l).
Proof. simpl. now rewrite map_map. Qed.

Lemma lift2_map_scalar {T} (f : value -> value -> value) (g : T -> value)
  (b : value) (l : list T) :
  lift2 f (Array (map g l)) (Scalar b) = Array (map (fun x => f (g x) b) l).
Proof. simpl. now rewrite map_map. Qed.

Lemma lift1_map {T} (f : value -> value) (g : T -> value) (l : list T) :
  lift1 f (Array (map g l)) = Array (map (fun x => f (g x)) l).
Proof. simpl. now rewrite map_map. Qed.

(** [SEQUENCE(k, 1, s, 1)] on whole numbers. *)
Lemma SEQUENCE_IZR (k s : Z) :
  (0 < k)%Z ->
  SEQUENCE (Num (IZR k)) (Num (IZR s)) (Num 1)
  = Array (map (fun i => Num (IZR (s + Z.of_nat i))) (seq 0 (Z.to_nat k))).
Proof.
  intros Hk. unfold SEQUENCE. rewrite as_integer_IZR.
  destruct (Z.ltb_spec k 0); [lia|].
  destruct (Z.eqb_spec k 0); [lia|].
  simpl. f_equal. apply map_ext. intros i.
  now rewrite plus_IZR, Rmult_1_r.
Qed.

Lemma INDEX_ref_IZR (col : column) (r : Z) :
  (1 <= r)%Z -> INDEX_ref col (Num (IZR r)) = cell col r.
Proof.
  intros Hr. unfold INDEX_ref. rewrite as_integer_IZR.
  destruct (Z.ltb_spec r 1); [lia | reflexivity].
Qed.

(** A successful [MATCH] returns a position of the sheet, from 1 up. *)
Lemma match_last_pos (x : value) (col : list value) :
  forall pos best p,
    (1 <= pos)%Z ->
    (forall b, best = Some b -> (1 <= b)%Z) ->
    match_last x col pos best = Some p -> (1 <= p)%Z.
Proof.
  induction col as [|c col IH]; simpl; intros pos best p Hpos Hbest Hm.
  - now apply Hbest.
  - apply IH in Hm; [assumption | lia |].
    intros b. destruct (le_same_kind c x); [|apply Hbest].
    intros [= <-]. exact Hpos.
Qed.

Lemma MATCH_pos (x : value) (col : column) (s : Z) :
  MATCH x col = Num (IZR s) -> (1 <= s)%Z.
Proof.
  unfold MATCH. intros H.
  assert (Hs : match_last x col 1 None = Some s).
  { destruct x; try discriminate;
      destruct (match_last _ col 1 None) as [p|]; try discriminate;
      injection H as H; apply eq_IZR in H; now subst. }
  apply match_last_pos in Hs; [assumption | lia | discriminate].
Qed.

(* ================================================================== *)
(** ** The growth factor as the formulas write it *)

Lemma half_factor_number (f v : R) (c : value) :
  as_number c = inr v ->
  (Num 1 + (Num f + c + Num f * c) / Num 2)%xl = Num (periodGrowth f v).
Proof.
  intros Hc. unfold add, mul, div, num2. simpl. rewrite Hc. simpl.
  destruct (Req_dec_T 2 0); [lra | reflexivity].
Qed.

Lemma sum_from_numbers (l : list R) :
  forall acc, sum_from acc (map Num l) = Num (acc + fold_right Rplus 0 l).
Proof.
  induction l as [|x l IH]; intros acc; simpl.
  - f_equal. lra.
  - rewrite IH. f_equal. lra.
Qed.

Lemma exp_sum_ln (l : list R) :
  Forall (fun g => 0 < g) l ->
  exp (fold_right Rplus 0 (map ln l)) = prod_list l.
Proof.
  induction 1 as [|g l Hg _ IH]; simpl.
  - apply exp_0.
  - now rewrite exp_plus, exp_ln, IH.
Qed.

(** [EXP(SUM(LN(factors)))] is the product when every factor is positive. *)
Lemma EXP_SUM_LN_positive (l : list R) :
  Forall (fun g => 0 < g) l ->
  EXP (SUM (lift1 LN (Array (map Num l)))) = Num (prod_list l).
Proof.
  intros Hpos. simpl. rewrite map_map.
  assert (Hln : map (fun x => LN (Num x)) l = map Num (map ln l)).
  { rewrite map_map. apply map_ext_in. intros g Hg.
    rewrite Forall_forall in Hpos. specialize (Hpos g Hg).
    unfold LN, num1. simpl. destruct (Rlt_dec 0 g); [reflexivity | lra]. }
  rewrite Hln, sum_from_numbers. unfold EXP, num1. simpl.
  now rewrite Rplus_0_l, exp_sum_ln.
Qed.

Lemma sum_from_error (l : list R) :
  Exists (fun g => g <= 0) l ->
  forall acc, sum_from acc (map (fun x => LN (Num x)) l) = Err ErrNUM.
Proof.
  induction 1 as [g l Hg | g l _ IH]; intros acc; simpl.
  - unfold LN, num1. simpl. destruct (Rlt_dec 0 g); [lra | reflexivity].
  - unfold LN at 1, num1. simpl. destruct (Rlt_dec 0 g); [apply IH | reflexivity].
Qed.

(** ... and faults with #NUM! as soon as one factor is not. *)
Lemma EXP_SUM_LN_fault (l : list R) :
  Exists (fun g => g <= 0) l ->
  EXP (SUM (lift1 LN (Array (map Num l)))) = Err ErrNUM.
Proof.
  intros Hex. simpl. rewrite map_map. now rewrite sum_from_error.
Qed.

(* ================================================================== *)
(** ** Inventory: what column H computes *)


Lemma CurrentValue_numeric rates today r issue p f m s v :
  Inventory.IssueDate r = Num issue ->
  Inventory.PurchaseAmount r = Num p ->
  Inventory.FixedRate r = Num f ->
  DATEDIF_m (Num issue) (TODAY today) = Num (IZR m) ->
  (0 <= m)%Z ->
  MATCH (Num issue) (Rates.A rates) = Num (IZR s) ->
  (forall i : nat, (Z.of_nat i <= m / 6)%Z ->
     as_number (cell (Rates.B rates) (s + Z.of_nat i)) = inr (v i)) ->
  Inventory.CurrentValue rates today r
  = formula_value (IFERROR (accrued p f v m) empty_text).
Proof.
  intros HC HD HE Hm Hm0 Hs Hv.
  pose proof (MATCH_pos _ _ _ Hs) as Hs1.
  assert (Hk0 : (0 <= m / 6)%Z) by (apply Z.div_pos; lia).
  unfold Inventory.CurrentValue. rewrite HC, HD, HE.
  change (OR [eq_op (Num issue) empty_text; eq_op (Num p) empty_text;
              eq_op (Num f) empty_text]) with (Bool false).
  cbv beta iota delta [IF as_bool]. cbv zeta.
  rewrite Hm, Hs. change (IFERROR (Num (IZR m)) (Num 0)) with (Num (IZR m)).
  rewrite INT_div6, MOD_6, eq_op_zero.
  do 2 f_equal. unfold accrued. cbv zeta.
  f_equal. f_equal; [f_equal|].
  - (* fullProd *)
    destruct (Z.eqb_spec (m / 6) 0) as [Hz|Hz]; [reflexivity|].
    cbv beta iota delta [IF_arr as_bool].
    rewrite SEQUENCE_IZR by lia.
    rewrite lift1_map.
    rewrite lift2_scalar_map, lift2_scalar_map, lift2_map_map,
      lift2_map_scalar, lift2_scalar_map.
    rewrite map_map.
    erewrite map_ext_in; [reflexivity|]. intros i Hi. cbv beta.
    apply in_seq in Hi.
    rewrite INDEX_ref_IZR by lia.
    apply half_factor_number. apply Hv. lia.
  - (* partial *)
    f_equal.
    assert (Hadd : (Num (IZR s) + Num (IZR (m / 6)))%xl
                   = Num (IZR (s + Z.of_nat (Z.to_nat (m / 6))))).
    { unfold add, num2; simpl. now rewrite Z2Nat.id, plus_IZR by lia. }
    rewrite Hadd, INDEX_ref_IZR by lia.
    apply half_factor_number. apply Hv. lia.
Qed.

Lemma formula_value_IFERROR_ROUND (v : value) :
  formula_value (IFERROR (ROUND v 2) empty_text) = IFERROR (ROUND v 2) empty_text.
Proof.
  unfold ROUND, num1. destruct (as_number v); reflexivity.
Qed.

Lemma div_IZR_6 (r : Z) : (Num (IZR r) / Num 6)%xl = Num (IZR r / 6).
Proof.
  unfold div, num2; simpl. destruct (Req_dec_T 6 0); [lra | reflexivity].
Qed.

Lemma POWER_positive (g y : R) : 0 < g -> POWER (Num g) (Num y) = Num (Rpower g y).
Proof.
  intros Hg. unfold POWER, num2; simpl.
  destruct (Rlt_dec 0 g); [reflexivity | lra].
Qed.

(** A zero exponent gives 1 for every base but 0. *)
Lemma POWER_zero_exponent (g : R) : g <> 0 -> POWER (Num g) (Num (0 / 6)) = Num 1.
Proof.
  intros Hg. unfold POWER, num2; simpl.
  replace (0 / 6) with 0 by lra.
  destruct (Rlt_dec 0 g).
  - now rewrite Rpower_O.
  - destruct (Req_dec_T g 0); [contradiction|].
    change 0 with (IZR 0). rewrite ZfloorZ.
    destruct (Req_dec_T (IZR 0) (IZR 0)); [reflexivity | contradiction].
Qed.

Lemma POWER_zero_zero : POWER (Num 0) (Num (0 / 6)) = Err ErrNUM.
Proof.
  unfold POWER, num2; simpl. replace (0 / 6) with 0 by lra.
  destruct (Rlt_dec 0 0); [lra|].
  destruct (Req_dec_T 0 0); [|contradiction].
  destruct (Rlt_dec 0 0); [lra|]. reflexivity.
Qed.

Lemma accrued_positive (p f : R) (v : nat -> R) (m : Z) :
  (0 <= m)%Z ->
  (forall i : nat, (Z.of_nat i <= m / 6)%Z -> 0 < periodGrowth f (v i)) ->
  accrued p f v m
  = Num (round_half_away
           (p * fullPeriodProduct f v (Z.to_nat (m / 6))
            * Rpower (periodGrowth f (v (Z.to_nat (m / 6)))) (IZR (m mod 6) / 6))
           2).
Proof.
  intros Hm Hpos.
  assert (Hk0 : (0 <= m / 6)%Z) by (apply Z.div_pos; lia).
  unfold accrued. cbv zeta.
  rewrite div_IZR_6, POWER_positive by (apply Hpos; lia).
  assert (Hfull :
    (if (m / 6 =? 0)%Z then Num 1
     else EXP (SUM (lift1 LN (Array (map Num
            (map (fun i => periodGrowth f (v i)) (seq 0 (Z.to_nat (m / 6)))))))))
    = Num (fullPeriodProduct f v (Z.to_nat (m / 6)))).
  { destruct (Z.eqb_spec (m / 6) 0) as [Hz|Hz].
    - rewrite Hz. reflexivity.
    - apply EXP_SUM_LN_positive. apply Forall_forall. intros g Hg.
      apply in_map_iff in Hg as (i & <- & Hi). apply in_seq in Hi.
      apply Hpos. lia. }
  rewrite Hfull. reflexivity.
Qed.

(** The accrual formula of column H on well-formed numeric inputs with
    positive growth factors. *)
Lemma CurrentValue_accrual rates today r issue p f m s v :
  Inventory.IssueDate r = Num issue ->
  Inventory.PurchaseAmount r = Num p ->
  Inventory.FixedRate r = Num f ->
  DATEDIF_m (Num issue) (TODAY today) = Num (IZR m) ->
  (0 <= m)%Z ->
  MATCH (Num issue) (Rates.A rates) = Num (IZR s) ->
  (forall i : nat, (Z.of_nat i <= m / 6)%Z ->
     as_number (cell (Rates.B rates) (s + Z.of_nat i)) = inr (v i)) ->
  (forall i : nat, (Z.of_nat i <= m / 6)%Z -> 0 < periodGrowth f (v i)) ->
  Inventory.CurrentValue rates today r
  = Num (round_half_away
           (p * fullPeriodProduct f v (Z.to_nat (m / 6))
            * Rpower (periodGrowth f (v (Z.to_nat (m / 6)))) (IZR (m mod 6) / 6))
           2).
Proof.
  intros HC HD HE Hm Hm0 Hs Hv Hpos.
  rewrite (CurrentValue_numeric rates today r issue p f m s v) by assumption.
  now rewrite accrued_positive.
Qed.

(** Rounding to cents. *)
Lemma powerRZ_10_2 : powerRZ 10 2 = 100.
Proof. simpl. lra. Qed.

Lemma round_half_away_cents (c : Z) : round_half_away (IZR c / 100) 2 = IZR c / 100.
Proof.
  unfold round_half_away. rewrite powerRZ_10_2.
  destruct (Rle_dec 0 (IZR c / 100)) as [H|H].
  - replace (IZR c / 100 * 100 + / 2) with (/ 2 + IZR c) by lra.
    rewrite Zfloor_addz.
    replace (Zfloor (/ 2)) with 0%Z by (symmetry; apply Zfloor_eq; simpl; lra).
    reflexivity.
  - replace (- (IZR c / 100) * 100 + / 2) with (/ 2 + IZR (- c))
      by (rewrite opp_IZR; lra).
    rewrite Zfloor_addz.
    replace (Zfloor (/ 2)) with 0%Z by (symmetry; apply Zfloor_eq; simpl; lra).
    simpl (0 + - c)%Z. rewrite opp_IZR. lra.
Qed.

Lemma round_half_away_mono (x y : R) :
  x <= y -> round_half_away x 2 <= round_half_away y 2.
Proof.
  intros Hxy. unfold round_half_away. rewrite powerRZ_10_2.
  assert (Hfl : forall a b, a <= b -> IZR (Zfloor a) <= IZR (Zfloor b)).
  { intros a b Hab. apply IZR_le. now apply Zfloor_le. }
  assert (H0 : forall a, 0 <= a -> 0 <= IZR (Zfloor (a * 100 + / 2))).
  { intros a Ha. apply IZR_le. apply Zfloor_lub. simpl. lra. }
  destruct (Rle_dec 0 x) as [Hx|Hx], (Rle_dec 0 y) as [Hy|Hy].
  - specialize (Hfl (x * 100 + / 2) (y * 100 + / 2) ltac:(lra)). lra.
  - lra.
  - pose proof (H0 y Hy). pose proof (H0 (- x) ltac:(lra)).
    replace (- x * 100) with (- x * 100) in * by lra. lra.
  - specialize (Hfl (- y * 100 + / 2) (- x * 100 + / 2) ltac:(lra)). lra.
Qed.

(* ================================================================== *)
(** ** Lookup misses *)

Lemma match_last_none (x : value) (col : list value) :
  Forall (fun c => le_same_kind c x = false) col ->
  forall pos, match_last x col pos None = None.
Proof.
  induction 1 as [|c col Hc _ IH]; intros pos; simpl.
  - reflexivity.
  - rewrite Hc. apply IH.
Qed.

(** A date below every effective date finds no row. *)
Lemma MATCH_miss (d : R) (col : column) :
  Forall (fun c => le_same_kind c (Num d) = false) col ->
  MATCH (Num d) col = Err ErrNA.
Proof.
  intros H. unfold MATCH. now rewrite match_last_none.
Qed.

Lemma num2_error_right (op : R -> R -> value) (a : value) (e : error) :
  is_error (num2 op a (Err e)) = true.
Proof. unfold num2. destruct (as_number a); reflexivity. Qed.

Lemma DATEDIF_m_kind (a b : value) :
  (exists x, DATEDIF_m a b = Num x) \/ (exists e, DATEDIF_m a b = Err e).
Proof.
  unfold DATEDIF_m.
  destruct (as_integer a); [right; eauto|].
  destruct (as_integer b); [right; eauto|].
  destruct (datedif_m _ _); [right | left]; eauto.
Qed.

(** Column H absorbs a failed rate lookup into the empty text. *)
Lemma CurrentValue_lookup_miss rates today r issue p f e :
  Inventory.IssueDate r = Num issue ->
  Inventory.PurchaseAmount r = Num p ->
  Inventory.FixedRate r = Num f ->
  MATCH (Num issue) (Rates.A rates) = Err e ->
  Inventory.CurrentValue rates today r = empty_text.
Proof.
  intros HC HD HE Hs.
  unfold Inventory.CurrentValue. rewrite HC, HD, HE.
  change (OR [eq_op (Num issue) empty_text; eq_op (Num p) empty_text;
              eq_op (Num f) empty_text]) with (Bool false).
  cbv beta iota delta [IF as_bool]. cbv zeta.
  rewrite Hs.
  match goal with
  | |- formula_value (IFERROR (ROUND (?w * POWER ?b ?y)%xl 2) _) = _ =>
      assert (Hb : b = Err e); [| rewrite Hb; generalize w; intros w']
  end.
  { unfold add at 1, num2. simpl. reflexivity. }
  change (POWER (Err e) ?y) with (Err e).
  pose proof (num2_error_right (fun x y => Num (x * y)) w' e) as Herr.
  fold mul in Herr. destruct (w' * Err e)%xl; try discriminate. reflexivity.
Qed.

(* ================================================================== *)
(** ** Blank inputs *)

Lemma eq_op_empty (v : value) :
  is_error v = false -> eq_op v empty_text = Bool (is_blank v).
Proof.
  destruct v as [|x|s|b|e]; simpl; try reflexivity; try discriminate.
  now destruct s.
Qed.

Lemma CurrentValue_blank_input rates today r :
  is_error (Inventory.IssueDate r) = false ->
  is_error (Inventory.PurchaseAmount r) = false ->
  is_error (Inventory.FixedRate r) = false ->
  is_blank (Inventory.IssueDate r) || is_blank (Inventory.PurchaseAmount r)
    || is_blank (Inventory.FixedRate r) = true ->
  Inventory.CurrentValue rates today r = empty_text.
Proof.
  intros HC HD HE Hb. unfold Inventory.CurrentValue.
  rewrite !eq_op_empty by assumption. cbv zeta.
  unfold OR. cbn [OR_from as_bool]. cbn [orb].
  rewrite Hb. reflexivity.
Qed.

(* ================================================================== *)
(** ** BondSchedule: the spilled columns *)

Lemma add_IZR (a b : Z) : (Num (IZR a) + Num (IZR b))%xl = Num (IZR (a + b)).
Proof. unfold add, num2; simpl. now rewrite plus_IZR. Qed.

Lemma add_IZR_1 (a : Z) : (Num (IZR a) + Num 1)%xl = Num (IZR (a + 1)).
Proof. apply (add_IZR a 1). Qed.


Lemma SEQUENCE_offsets (n : Z) :
  (0 <= n)%Z ->
  SEQUENCE (Num (IZR n) + Num 1)%xl (Num 0) (Num 1)
  = Array (map (fun i => Num (IZR (Z.of_nat i))) (offsets n)).
Proof.
  intros Hn. rewrite add_IZR_1. rewrite (SEQUENCE_IZR (n + 1) 0) by lia.
  reflexivity.
Qed.

Lemma spill_numbers {T} (g : T -> R) (l : list T) :
  BondSchedule.spill (Array (map (fun i => Num (g i)) l))
  = Array (map (fun i => Num (g i)) l).
Proof. unfold BondSchedule.spill. rewrite lift1_map. reflexivity. Qed.

Lemma B9_offsets (b3 : value) (n : Z) :
  eq_op b3 empty_text = Bool false ->
  (0 <= n)%Z ->
  BondSchedule.B9 b3 (Num (IZR n))
  = Array (map (fun i => Num (IZR (Z.of_nat i))) (offsets n)).
Proof.
  intros Hb Hn. unfold BondSchedule.B9. rewrite Hb.
  cbv beta iota delta [IF_arr as_bool].
  rewrite SEQUENCE_offsets by assumption.
  apply (spill_numbers (fun i => IZR (Z.of_nat i))).
Qed.

Lemma EDATE_not_blank (a b : value) : formula_value (EDATE a b) = EDATE a b.
Proof.
  unfold EDATE. destruct (as_integer a); [reflexivity|].
  destruct (as_integer b); [reflexivity|]. now destruct (edate _ _).
Qed.

Lemma A9_offsets (b3 : value) (n : Z) :
  eq_op b3 empty_text = Bool false ->
  (0 <= n)%Z ->
  BondSchedule.A9 b3 (Num (IZR n))
  = Array (map (fun i => EDATE b3 (Num (IZR (Z.of_nat i)))) (offsets n)).
Proof.
  intros Hb Hn. unfold BondSchedule.A9. rewrite Hb.
  cbv beta iota delta [IF_arr as_bool].
  rewrite SEQUENCE_offsets by assumption.
  rewrite lift2_scalar_map. unfold BondSchedule.spill. rewrite lift1_map.
  f_equal. apply map_ext. intros i. apply EDATE_not_blank.
Qed.

(** Rows [m] of column C read the rate cell [m div 6] rows below the
    matched row. *)
Lemma C9_rows (rates : Rates.sheet) (issue : R) (n s : Z) :
  (0 <= n)%Z ->
  MATCH (Num issue) (Rates.A rates) = Num (IZR s) ->
  BondSchedule.C9 rates (Num issue) (Num (IZR n))
  = Array (map (fun i => formula_value
                           (cell (Rates.B rates) (s + Z.of_nat i / 6)))
               (offsets n)).
Proof.
  intros Hn Hs. pose proof (MATCH_pos _ _ _ Hs) as Hs1.
  unfold BondSchedule.C9. rewrite eq_op_Num_empty.
  cbv beta iota delta [IF_arr as_bool]. cbv zeta.
  rewrite B9_offsets, Hs by (reflexivity || assumption).
  rewrite lift2_map_scalar, lift1_map, lift2_scalar_map, lift1_map.
  unfold BondSchedule.spill. rewrite lift1_map.
  f_equal. apply map_ext. intros i.
  rewrite INT_div6, add_IZR, INDEX_ref_IZR; [reflexivity|].
  pose proof (Z.div_pos (Z.of_nat i) 6 ltac:(lia) ltac:(lia)). lia.
Qed.

(** A failed rate lookup shows in every row of column C. *)
Lemma C9_lookup_miss (rates : Rates.sheet) (issue : R) (n : Z) (e : error) :
  (0 <= n)%Z ->
  MATCH (Num issue) (Rates.A rates) = Err e ->
  BondSchedule.C9 rates (Num issue) (Num (IZR n))
  = Array (map (fun _ => Err e) (offsets n)).
Proof.
  intros Hn Hs.
  unfold BondSchedule.C9. rewrite eq_op_Num_empty.
  cbv beta iota delta [IF_arr as_bool]. cbv zeta.
  rewrite B9_offsets, Hs by (reflexivity || assumption).
  rewrite lift2_map_scalar, lift1_map, lift2_scalar_map, lift1_map.
  unfold BondSchedule.spill. rewrite lift1_map.
  reflexivity.
Qed.

(** The running products that [SCAN] returns. *)
Lemma scan_from_products (g : nat -> R) :
  forall len st a,
    scan_from (fun a x => (a * x)%xl) (Num a)
              (map (fun i => Num (g i)) (seq st len))
    = map (fun j => Num (a * prod_list (map g (seq st (S j - st)))))
          (seq st len).
Proof.
  induction len as [|len IH]; intros st a; [reflexivity|].
  cbn [seq map scan_from].
  assert (Hm : (Num a * Num (g st))%xl = Num (a * g st)) by reflexivity.
  rewrite Hm. f_equal.
  - replace (S st - st)%nat with 1%nat by lia. simpl. f_equal. lra.
  - rewrite IH. apply map_ext_in. intros j Hj. apply in_seq in Hj.
    replace (S j - st)%nat with (S (S j - S st)) by lia.
    cbn [seq map prod_list fold_right]. f_equal. unfold prod_list. lra.
Qed.

Lemma SCAN_products (fixed : R) (v : nat -> R) (K : nat) :
  SCAN (Num 1)
       (Array (map (fun i => Num (periodGrowth fixed (v i))) (seq 0 K)))
       (fun a x => (a * x)%xl)
  = Array (map (fun j => Num (fullPeriodProduct fixed v (S j))) (seq 0 K)).
Proof.
  unfold SCAN.
  rewrite (scan_from_products (fun i => periodGrowth fixed (v i)) K 0 1).
  f_equal. apply map_ext. intros j. unfold fullPeriodProduct.
  rewrite Nat.sub_0_r. f_equal. lra.
Qed.

Lemma nth_map_seq {T} (F : nat -> T) (K j : nat) (d : T) :
  (j < K)%nat -> nth j (map F (seq 0 K)) d = F j.
Proof.
  intros Hj. rewrite (nth_indep _ d (F 0%nat)) by now rewrite length_map, length_seq.
  rewrite (map_nth F (seq 0 K) 0%nat j). now rewrite seq_nth.
Qed.

Lemma INDEX_arr_map_seq (F : nat -> value) (K : nat) (q : Z) :
  (0 <= q)%Z -> (Z.to_nat q < K)%nat ->
  INDEX_arr (Array (map F (seq 0 K))) (Num (IZR (q + 1))) = F (Z.to_nat q).
Proof.
  intros Hq HK. unfold INDEX_arr. rewrite as_integer_IZR.
  destruct (Z.ltb_spec (q + 1) 1); [lia|].
  replace (q + 1 - 1)%Z with q by lia. now apply nth_map_seq.
Qed.


Lemma ROUND_not_blank (v : value) : formula_value (ROUND v 2) = ROUND v 2.
Proof. unfold ROUND, num1. now destruct (as_number v). Qed.

Lemma E9_rows (rates : Rates.sheet) (issue p f : R) (n s : Z) (v : nat -> R) :
  (0 <= n)%Z ->
  MATCH (Num issue) (Rates.A rates) = Num (IZR s) ->
  (forall i : nat, (Z.of_nat i <= n / 6)%Z ->
     as_number (cell (Rates.B rates) (s + Z.of_nat i)) = inr (v i)) ->
  BondSchedule.E9 rates (Num issue) (Num p) (Num f) (Num (IZR n))
  = Array (map (fun i => scheduled p f v (Z.of_nat i)) (offsets n)).
Proof.
  intros Hn Hs Hv. pose proof (MATCH_pos _ _ _ Hs) as Hs1.
  assert (Hq0 : (0 <= n / 6)%Z) by (apply Z.div_pos; lia).
  unfold BondSchedule.E9. rewrite eq_op_Num_empty.
  cbv beta iota delta [IF_arr as_bool]. cbv zeta.
  rewrite B9_offsets, Hs by (reflexivity || assumption).
  rewrite INT_div6, add_IZR_1.
  rewrite (SEQUENCE_IZR (n / 6 + 1) 0) by lia.
  (* halfFacVec *)
  assert (Hhalf :
    (Num 1 + (Num f
       + lift1 (INDEX_ref (Rates.B rates))
           (Num (IZR s)
            + Array (map (fun i => Num (IZR (0 + Z.of_nat i)))
                         (seq 0 (Z.to_nat (n / 6 + 1)))))
       + Num f
         * lift1 (INDEX_ref (Rates.B rates))
             (Num (IZR s)
              + Array (map (fun i => Num (IZR (0 + Z.of_nat i)))
                           (seq 0 (Z.to_nat (n / 6 + 1)))))) / Num 2)%arr
    = Array (map (fun i => Num (periodGrowth f (v i)))
                 (seq 0 (Z.to_nat (n / 6 + 1))))).
  { rewrite lift2_scalar_map, lift1_map.
    rewrite lift2_scalar_map, lift2_scalar_map, lift2_map_map,
      lift2_map_scalar, lift2_scalar_map.
    f_equal. apply map_ext_in. intros i Hi. apply in_seq in Hi.
    rewrite add_IZR, INDEX_ref_IZR by lia.
    apply half_factor_number. rewrite Z.add_0_l. apply Hv. lia. }
  rewrite Hhalf, SCAN_products.
  rewrite lift2_map_scalar, lift1_map, lift2_map_scalar, lift2_map_scalar.
  rewrite !lift1_map, lift2_map_scalar, lift2_map_map, lift2_scalar_map,
    lift2_map_map, lift1_map.
  unfold BondSchedule.spill. rewrite lift1_map.
  f_equal. apply map_ext_in. intros i Hi. apply in_seq in Hi.
  rewrite ROUND_not_blank, INT_div6, add_IZR_1, MOD_6.
  assert (Hi6 : (0 <= Z.of_nat i / 6 <= n / 6)%Z).
  { split; [apply Z.div_pos; lia | apply Z.div_le_mono; lia]. }
  rewrite !INDEX_arr_map_seq by lia.
  reflexivity.
Qed.

Lemma scan_from_errors {T} (e : error) (l : list T) :
  forall acc, acc = Num 1 \/ acc = Err e ->
    scan_from (fun a x => (a * x)%xl) acc (map (fun _ => Err e) l)
    = map (fun _ => Err e) l.
Proof.
  induction l as [|x l IH]; intros acc Hacc; [reflexivity|].
  cbn [map scan_from].
  assert (Hm : (acc * Err e)%xl = Err e) by (destruct Hacc; subst; reflexivity).
  rewrite Hm, IH by now right. reflexivity.
Qed.

(** A failed rate lookup shows in every row of column E: nothing in the
    formula absorbs it. *)
Lemma E9_lookup_miss (rates : Rates.sheet) (issue p f : R) (n : Z) (e : error) :
  (0 <= n)%Z ->
  MATCH (Num issue) (Rates.A rates) = Err e ->
  BondSchedule.E9 rates (Num issue) (Num p) (Num f) (Num (IZR n))
  = Array (map (fun _ => Err e) (offsets n)).
Proof.
  intros Hn Hs.
  assert (Hq0 : (0 <= n / 6)%Z) by (apply Z.div_pos; lia).
  unfold BondSchedule.E9. rewrite eq_op_Num_empty.
  cbv beta iota delta [IF_arr as_bool]. cbv zeta.
  rewrite B9_offsets, Hs by (reflexivity || assumption).
  rewrite INT_div6, add_IZR_1.
  rewrite (SEQUENCE_IZR (n / 6 + 1) 0) by lia.
  assert (Hhalf :
    (Num 1 + (Num f
       + lift1 (INDEX_ref (Rates.B rates))
           (Err e
            + Array (map (fun i => Num (IZR (0 + Z.of_nat i)))
                         (seq 0 (Z.to_nat (n / 6 + 1)))))
       + Num f
         * lift1 (INDEX_ref (Rates.B rates))
             (Err e
              + Array (map (fun i => Num (IZR (0 + Z.of_nat i)))
                           (seq 0 (Z.to_nat (n / 6 + 1)))))) / Num 2)%arr
    = Array (map (fun _ => Err e) (seq 0 (Z.to_nat (n / 6 + 1))))).
  { rewrite lift2_scalar_map, lift1_map.
    rewrite lift2_scalar_map, lift2_scalar_map, lift2_map_map,
      lift2_map_scalar, lift2_scalar_map.
    reflexivity. }
  rewrite Hhalf. unfold SCAN. rewrite scan_from_errors by now left.
  rewrite lift2_map_scalar, lift1_map, lift2_map_scalar, lift2_map_scalar.
  rewrite !lift1_map, lift2_map_scalar, lift2_map_map, lift2_scalar_map,
    lift2_map_map, lift1_map.
  unfold BondSchedule.spill. rewrite lift1_map.
  f_equal. apply map_ext_in. intros i Hi. apply in_seq in Hi.
  rewrite INT_div6, add_IZR_1.
  assert (Hi6 : (0 <= Z.of_nat i / 6 <= n / 6)%Z).
  { split; [apply Z.div_pos; lia | apply Z.div_le_mono; lia]. }
  rewrite (INDEX_arr_map_seq (fun _ => Err e)) by lia.
  reflexivity.
Qed.

(* ================================================================== *)
(** ** Growth over time *)


Lemma fullPeriodProduct_S (f : R) (v : nat -> R) (k : nat) :
  fullPeriodProduct f v (S k) = fullPeriodProduct f v k * periodGrowth f (v k).
Proof.
  unfold fullPeriodProduct. rewrite seq_S, map_app. simpl.
  generalize (map (fun i => periodGrowth f (v i)) (seq 0 k)) as l.
  induction l as [|x l IH]; simpl.
  - unfold prod_list; simpl. lra.
  - unfold prod_list in *. simpl. rewrite IH. lra.
Qed.

Lemma fullPeriodProduct_ge_1 (f : R) (v : nat -> R) (k : nat) :
  (forall i, (i < k)%nat -> 1 <= periodGrowth f (v i)) ->
  1 <= fullPeriodProduct f v k.
Proof.
  induction k as [|k IH]; intros Hg.
  - unfold fullPeriodProduct, prod_list. simpl. lra.
  - rewrite fullPeriodProduct_S.
    specialize (IH (fun i Hi => Hg i (Nat.lt_lt_succ_r _ _ Hi))).
    specialize (Hg k (Nat.lt_succ_diag_r k)). nra.
Qed.

Lemma growth_at_step (f : R) (v : nat -> R) (m : Z) :
  (0 <= m)%Z ->
  (forall i : nat, (Z.of_nat i <= (m + 1) / 6)%Z -> 1 <= periodGrowth f (v i)) ->
  growth_at f v m <= growth_at f v (m + 1).
Proof.
  intros Hm Hg. unfold growth_at.
  pose proof (Z.div_mod m 6 ltac:(lia)) as Hdm.
  pose proof (Z.mod_pos_bound m 6 ltac:(lia)) as Hr.
  assert (Hk0 : (0 <= m / 6)%Z) by (apply Z.div_pos; lia).
  destruct (Z.eq_dec (m mod 6) 5) as [H5|H5].
  - (* the month that completes the period *)
    assert (Hq : ((m + 1) / 6 = m / 6 + 1)%Z).
    { symmetry. apply (Z.div_unique (m + 1) 6 (m / 6 + 1) 0); lia. }
    assert (Hmod : ((m + 1) mod 6 = 0)%Z).
    { symmetry. apply (Z.mod_unique (m + 1) 6 (m / 6 + 1) 0); lia. }
    rewrite Hq, Hmod, H5.
    replace (Z.to_nat (m / 6 + 1)) with (S (Z.to_nat (m / 6))) by lia.
    rewrite fullPeriodProduct_S.
    set (k := Z.to_nat (m / 6)).
    assert (Hgk : 1 <= periodGrowth f (v k)) by (apply Hg; lia).
    assert (HgS : 1 <= periodGrowth f (v (S k))) by (apply Hg; lia).
    assert (HP : 1 <= fullPeriodProduct f v k).
    { apply fullPeriodProduct_ge_1. intros i Hi. apply Hg. lia. }
    replace (0 / 6) with 0 by lra. rewrite Rpower_O by lra.
    pose proof (Rle_Rpower (periodGrowth f (v k)) (5 / 6) 1 Hgk ltac:(lra)) as Hp.
    rewrite Rpower_1 in Hp by lra.
    assert (0 < Rpower (periodGrowth f (v k)) (5 / 6)) by apply exp_pos.
    nra.
  - (* a month inside the period *)
    assert (Hq : ((m + 1) / 6 = m / 6)%Z).
    { symmetry. apply (Z.div_unique (m + 1) 6 (m / 6) (m mod 6 + 1)); lia. }
    assert (Hmod : ((m + 1) mod 6 = m mod 6 + 1)%Z).
    { symmetry. apply (Z.mod_unique (m + 1) 6 (m / 6) (m mod 6 + 1)); lia. }
    rewrite Hq, Hmod. set (k := Z.to_nat (m / 6)).
    assert (Hgk : 1 <= periodGrowth f (v k)) by (apply Hg; lia).
    assert (HP : 1 <= fullPeriodProduct f v k).
    { apply fullPeriodProduct_ge_1. intros i Hi. apply Hg. lia. }
    apply Rmult_le_compat_l; [lra|].
    apply Rle_Rpower; [assumption|]. rewrite plus_IZR. lra.
Qed.

Lemma growth_at_mono (f : R) (v : nat -> R) (m1 m2 : Z) :
  (0 <= m1 <= m2)%Z ->
  (forall i : nat, (Z.of_nat i <= m2 / 6)%Z -> 1 <= periodGrowth f (v i)) ->
  growth_at f v m1 <= growth_at f v m2.
Proof.
  intros [H1 H12] Hg.
  replace m2 with (m1 + Z.of_nat (Z.to_nat (m2 - m1)))%Z in * by lia.
  induction (Z.to_nat (m2 - m1)) as [|d IH].
  - rewrite Z.add_0_r. apply Rle_refl.
  - assert (Hle : ((m1 + Z.of_nat d) / 6 <= (m1 + Z.of_nat (S d)) / 6)%Z)
      by (apply Z.div_le_mono; lia).
    eapply Rle_trans.
    + apply IH; [lia|]. intros i Hi. apply Hg. lia.
    + replace (m1 + Z.of_nat (S d))%Z with (m1 + Z.of_nat d + 1)%Z in * by lia.
      apply growth_at_step; [lia | assumption].
Qed.

(* ================================================================== *)
(** ** Evaluating on dated examples *)

Lemma Rleb_IZR (a b : Z) : Rleb (IZR a) (IZR b) = (a <=? b)%Z.
Proof.
  unfold Rleb. destruct (Rle_dec (IZR a) (IZR b)) as [H|H].
  - apply le_IZR in H. symmetry. now apply Z.leb_le.
  - symmetry. apply Z.leb_gt. apply Z.lt_nge. intros Hle. apply H.
    now apply IZR_le.
Qed.

Lemma DATEDIF_m_IZR (a b m : Z) :
  datedif_m a b = inr m -> DATEDIF_m (Num (IZR a)) (TODAY b) = Num (IZR m).
Proof.
  intros H. unfold DATEDIF_m, TODAY. now rewrite !as_integer_IZR, H.
Qed.

Lemma EDATE_IZR (a k r : Z) :
  edate a k = inr r -> EDATE (Num (IZR a)) (Num (IZR k)) = Num (IZR r).
Proof.
  intros H. unfold EDATE. now rewrite !as_integer_IZR, H.
Qed.

(** Decides the date comparisons of a lookup over a column of serials. *)
Ltac lookup_dates :=
  cbv beta iota delta [MATCH match_last le_same_kind];
  rewrite ?Rleb_IZR;
  repeat match goal with
         | |- context [(?a <=? ?b)%Z] =>
             let t := eval vm_compute in (a <=? b)%Z in
             change (a <=? b)%Z with t
         end;
  cbv beta iota.

Lemma shipped_rates_miss :
  MATCH (Num (IZR (date 2024 1 15))) (Rates.A Rates.build_rates) = Err ErrNA.
Proof.
  unfold Rates.build_rates, Rates.example_rows. cbn [Rates.A map fst].
  lookup_dates. reflexivity.
Qed.

(* ================================================================== *)
(** ** Calendar facts *)

Section CalendarFacts.
Local Open Scope Z_scope.

Lemma days_in_month_bounds (n : Z) : 28 <= days_in_month n <= 31.
Proof.
  unfold days_in_month.
  repeat match goal with
         | |- context [match ?x with _ => _ end] => destruct x
         end; lia.
Qed.

Lemma month_start_S (n : nat) :
  month_start (S n) = month_start n + days_in_month (Z.of_nat n).
Proof. reflexivity. Qed.

Lemma month_start_le (a b : nat) : (a <= b)%nat -> month_start a <= month_start b.
Proof.
  induction 1 as [|b _ IH]; [lia|].
  rewrite month_start_S. pose proof (days_in_month_bounds (Z.of_nat b)). lia.
Qed.

Lemma month_start_lt (a b : nat) : (a < b)%nat -> month_start (S a) <= month_start b.
Proof. intros H. now apply month_start_le. Qed.

Lemma month_start_pos (n : nat) : 1 <= month_start n.
Proof. apply (month_start_le 0 n). lia. Qed.

(** The month found for a serial is the one whose days contain it. *)
Lemma locate_spec (s : Z) :
  forall fuel n start,
    start = month_start n ->
    start <= s < start + 28 * Z.of_nat fuel ->
    month_start (fst (locate fuel n start s)) <= s
      < month_start (S (fst (locate fuel n start s)))
    /\ snd (locate fuel n start s)
       = s - month_start (fst (locate fuel n start s)) + 1.
Proof.
  induction fuel as [|fuel IH]; intros n start Hstart Hs; [lia|].
  cbn [locate]. cbv zeta.
  pose proof (days_in_month_bounds (Z.of_nat n)) as Hd.
  destruct (Z.ltb_spec s (start + days_in_month (Z.of_nat n))) as [Hlt|Hge].
  - cbn [fst snd]. rewrite month_start_S, <- Hstart. lia.
  - apply IH; [now rewrite month_start_S, Hstart | lia].
Qed.

Lemma month_day_spec (s : Z) :
  1 <= s ->
  month_start (fst (month_day s)) <= s < month_start (S (fst (month_day s)))
  /\ snd (month_day s) = s - month_start (fst (month_day s)) + 1.
Proof.
  intros Hs. unfold month_day. apply locate_spec; [reflexivity|].
  rewrite Z2Nat.id by lia. lia.
Qed.

(** A serial inside month [n] is found in month [n]. *)
Lemma month_day_unique (s : Z) (n : nat) :
  month_start n <= s < month_start (S n) ->
  month_day s = (n, s - month_start n + 1).
Proof.
  intros Hn. pose proof (month_start_pos n) as Hp.
  destruct (month_day_spec s ltac:(lia)) as [Hm Hd].
  set (n' := fst (month_day s)) in *.
  assert (Heq : n' = n).
  { destruct (Nat.lt_trichotomy n' n) as [H|[H|H]]; [|assumption|].
    - pose proof (month_start_lt n' n H). lia.
    - pose proof (month_start_lt n n' H). lia. }
  rewrite (surjective_pairing (month_day s)). fold n'. rewrite Hd. fold n'.
  now rewrite Heq.
Qed.

(** [edate] lands in the month [k] later, on the same day or that month's
    last one. *)
Lemma edate_spec (s k r : Z) :
  1 <= s -> 0 <= k ->
  edate s k = inr r ->
  let n := fst (month_day s) in
  let d := snd (month_day s) in
  let n' := (n + Z.to_nat k)%nat in
  r = month_start n' + Z.min d (days_in_month (Z.of_nat n')) - 1
  /\ month_day r = (n', Z.min d (days_in_month (Z.of_nat n'))).
Proof.
  intros Hs Hk He. cbv zeta.
  destruct (month_day_spec s Hs) as [Hm Hd].
  unfold edate in He.
  destruct (negb (valid_serial s)); [discriminate|].
  rewrite (surjective_pairing (month_day s)) in He.
  set (n := fst (month_day s)) in *. set (d := snd (month_day s)) in *.
  destruct (Z.ltb_spec (Z.of_nat n + k) 0) as [|_]; [lia|].
  replace (Z.to_nat (Z.of_nat n + k)) with (n + Z.to_nat k)%nat in He by lia.
  replace (Z.of_nat n + k) with (Z.of_nat (n + Z.to_nat k)) in He by lia.
  set (n' := (n + Z.to_nat k)%nat) in *.
  destruct (valid_serial _); [|discriminate].
  injection He as <-. split; [reflexivity|].
  pose proof (days_in_month_bounds (Z.of_nat n')) as Hb.
  rewrite (month_day_unique _ n').
  - f_equal. lia.
  - rewrite month_start_S. lia.
Qed.

End CalendarFacts.

Section MonthsBetween.
Local Open Scope Z_scope.

Lemma month_day_zero : month_day 0 = (0%nat, 0).
Proof. reflexivity. Qed.

(** The month of a serial does not decrease with the serial, nor the day
    inside one month. *)
Lemma month_day_mono (s e : Z) :
  1 <= s <= e ->
  (fst (month_day s) < fst (month_day e))%nat
  \/ (fst (month_day s) = fst (month_day e)
      /\ snd (month_day s) <= snd (month_day e)).
Proof.
  intros Hse.
  destruct (month_day_spec s ltac:(lia)) as [Hs Hds].
  destruct (month_day_spec e ltac:(lia)) as [He Hde].
  destruct (Nat.lt_trichotomy (fst (month_day s)) (fst (month_day e)))
    as [Hlt|[Heq|Hgt]].
  - now left.
  - right. split; [assumption|]. rewrite Hds, Hde, Heq. lia.
  - pose proof (month_start_lt _ _ Hgt). lia.
Qed.

Lemma datedif_m_nonneg (s e m : Z) : datedif_m s e = inr m -> 0 <= m.
Proof.
  unfold datedif_m.
  destruct (valid_serial s && valid_serial e) eqn:Hv; [|discriminate].
  cbn [negb].
  destruct (Z.ltb_spec e s) as [|Hse]; [discriminate|].
  apply andb_prop in Hv as [Hs He]. unfold valid_serial in Hs, He.
  apply andb_prop in Hs as [Hs0 _]. apply Z.leb_le in Hs0.
  rewrite (surjective_pairing (month_day s)), (surjective_pairing (month_day e)).
  intros [= <-].
  destruct (Z.eq_dec s 0) as [->|Hs1].
  - rewrite month_day_zero. cbn [fst snd].
    destruct (Z.eq_dec e 0) as [->|He1].
    + rewrite month_day_zero. cbn [fst snd]. change (0 <? 0) with false. lia.
    + destruct (month_day_spec e ltac:(lia)) as [[Hlo _] Hd].
      destruct (Z.ltb_spec (snd (month_day e)) 0); lia.
  - destruct (month_day_mono s e ltac:(lia)) as [Hlt|[Heq Hd]].
    + destruct (snd (month_day e) <? snd (month_day s)); lia.
    + destruct (Z.ltb_spec (snd (month_day e)) (snd (month_day s))); lia.
Qed.

End MonthsBetween.

(* ================================================================== *)
(** ** Where [MATCH] lands in an ascending column *)


Lemma match_last_keeps (x : value) (col : list value) :
  Forall (fun c => le_same_kind c x = false) col ->
  forall pos best, match_last x col pos best = best.
Proof.
  induction 1 as [|c col Hc _ IH]; intros pos best; simpl.
  - reflexivity.
  - rewrite Hc. apply IH.
Qed.

Lemma match_last_at (x : value) :
  forall (col : list value) (pos : Z) (best : option Z) (j : nat) (c : value),
    nth_error col j = Some c ->
    le_same_kind c x = true ->
    (forall j' c', (j < j')%nat -> nth_error col j' = Some c' ->
                   le_same_kind c' x = false) ->
    match_last x col pos best = Some (pos + Z.of_nat j)%Z.
Proof.
  induction col as [|c0 col IH]; intros pos best j c Hj Hc Hlater.
  - destruct j; discriminate.
  - destruct j as [|j]; cbn [match_last].
    + injection Hj as ->. rewrite Hc, match_last_keeps.
      * f_equal. lia.
      * apply Forall_forall. intros c' Hin.
        apply In_nth_error in Hin as [j' Hj'].
        apply (Hlater (S j') c'); [lia | exact Hj'].
    + rewrite (IH (pos + 1)%Z _ j c Hj Hc).
      * f_equal. lia.
      * intros j' c' Hlt Hj'. apply (Hlater (S j') c'); [lia | exact Hj'].
Qed.

Lemma cell_nth_error (col : column) (j : nat) (c : value) :
  nth_error col j = Some c -> cell col (Z.of_nat j + 1) = c.
Proof.
  intros H. unfold cell.
  replace (Z.to_nat (Z.of_nat j + 1 - 1)) with j by lia.
  now apply nth_error_nth.
Qed.

Lemma MATCH_at (col : column) (x y : R) (p : Z) :
  (1 <= p)%Z ->
  cell col p = Num y -> y <= x ->
  (forall q z, (p < q)%Z -> cell col q = Num z -> x < z) ->
  MATCH (Num x) col = Num (IZR p).
Proof.
  intros Hp Hcell Hle Hlater. unfold MATCH.
  assert (Hnth : nth_error col (Z.to_nat (p - 1)) = Some (Num y)).
  { unfold cell in Hcell.
    destruct (nth_error col (Z.to_nat (p - 1))) as [c|] eqn:E.
    - apply (nth_error_nth _ _ Blank) in E. congruence.
    - apply nth_error_None in E. rewrite nth_overflow in Hcell by assumption.
      discriminate. }
  rewrite (match_last_at (Num x) col 1 None _ _ Hnth).
  - do 2 f_equal. lia.
  - simpl. unfold Rleb. destruct (Rle_dec y x); [reflexivity | contradiction].
  - intros j' c' Hlt Hj'. apply cell_nth_error in Hj'.
    destruct c' as [|z|?|?|?]; try reflexivity.
    apply Hlater in Hj'; [|lia].
    simpl. unfold Rleb. destruct (Rle_dec z x); [lra | reflexivity].
Qed.

(** In a table whose announcements fall on the first of a month, six
    months apart, from the row matched for the issue date on, the row
    [i] below is the one a lookup by date finds for the issue date
    moved on by [6 i] months. *)
Lemma date_lookup_row (col : column) (d r s : Z) (n0 i : nat) :
  ascending col ->
  (1 <= s)%Z ->
  (forall j : nat, (j <= S i)%nat ->
     cell col (s + Z.of_nat j) = Num (IZR (month_start (n0 + 6 * j)))) ->
  (month_start n0 <= d < month_start (n0 + 6))%Z ->
  edate d (6 * Z.of_nat i) = inr r ->
  MATCH (Num (IZR r)) col = Num (IZR (s + Z.of_nat i)).
Proof.
  intros Hasc Hs Hrows Hd He.
  pose proof (month_start_pos n0) as Hp.
  destruct (month_day_spec d ltac:(lia)) as [Hm _].
  destruct (edate_spec d (6 * Z.of_nat i)%Z r ltac:(lia) ltac:(lia) He) as [Hr _].
  set (n := fst (month_day d)) in *. cbv zeta in Hr.
  replace (Z.to_nat (6 * Z.of_nat i)) with (6 * i)%nat in Hr by lia.
  assert (Hn : (n0 <= n < n0 + 6)%nat).
  { split.
    - destruct (Nat.le_gt_cases n0 n) as [|Hlt]; [assumption|].
      pose proof (month_start_lt n n0 Hlt). lia.
    - destruct (Nat.le_gt_cases (n0 + 6) n) as [Hge|]; [|assumption].
      pose proof (month_start_le (n0 + 6) n Hge). lia. }
  pose proof (days_in_month_bounds (Z.of_nat (n + 6 * i))) as Hb.
  pose proof (month_day_spec d ltac:(lia)) as [_ Hday].
  fold n in Hday.
  assert (Hlo : (month_start (n0 + 6 * i) <= r)%Z).
  { pose proof (month_start_le (n0 + 6 * i) (n + 6 * i) ltac:(lia)). lia. }
  assert (Hhi : (r < month_start (n0 + 6 * S i))%Z).
  { pose proof (month_start_le (S (n + 6 * i)) (n0 + 6 * S i) ltac:(lia)).
    rewrite month_start_S in *. lia. }
  apply (MATCH_at col _ (IZR (month_start (n0 + 6 * i)))).
  - lia.
  - apply Hrows. lia.
  - now apply IZR_le.
  - intros q z Hq Hz.
    pose proof (Hrows (S i) ltac:(lia)) as Hnext.
    destruct (Z.eq_dec q (s + Z.of_nat (S i))) as [->|Hne].
    + rewrite Hnext in Hz. injection Hz as <-. now apply IZR_lt.
    + apply IZR_lt in Hhi.
      pose proof (Hasc (s + Z.of_nat (S i))%Z q _ z ltac:(lia) Hnext Hz). lra.
Qed.


Lemma shipped_rates_row2 :
  MATCH (Num (IZR (date 2024 5 1))) (Rates.A Rates.build_rates) = Num (IZR 2).
Proof.
  unfold Rates.build_rates, Rates.example_rows. cbn [Rates.A map fst].
  lookup_dates. reflexivity.
Qed.

Lemma two_rates_row2 (v0 v1 : R) :
  MATCH (Num (IZR (date 2024 5 1))) (Rates.A (two_rates v0 v1)) = Num (IZR 2).
Proof. unfold two_rates. cbn [Rates.A]. lookup_dates. reflexivity. Qed.

(* ================================================================== *)
(** ** C1: the value at zero months held *)

(** Column H in the month of issue: no growth is applied. *)
Lemma CurrentValue_zero_months rates today r issue p f s v0 :
  Inventory.IssueDate r = Num issue ->
  Inventory.PurchaseAmount r = Num p ->
  Inventory.FixedRate r = Num f ->
  DATEDIF_m (Num issue) (TODAY today) = Num 0 ->
  MATCH (Num issue) (Rates.A rates) = Num (IZR s) ->
  as_number (cell (Rates.B rates) s) = inr v0 ->
  periodGrowth f v0 <> 0 ->
  Inventory.CurrentValue rates today r = Num (round_half_away p 2)
  /\ (forall c : Z, p = IZR c / 100 ->
        Inventory.CurrentValue rates today r = Num p).
Proof.
  intros HC HD HE Hm Hs Hv Hg.
  assert (Hval : Inventory.CurrentValue rates today r = Num (round_half_away p 2)).
  { rewrite (CurrentValue_numeric rates today r issue p f 0 s (fun _ => v0))
      by (try assumption; try lia;
          intros i Hi; change (0 / 6)%Z with 0%Z in Hi;
          replace (s + Z.of_nat i)%Z with s by lia; assumption).
    unfold accrued. cbv zeta. change (0 / 6)%Z with 0%Z.
    change (0 mod 6)%Z with 0%Z. cbn [Z.eqb Z.to_nat].
    rewrite div_IZR_6, POWER_zero_exponent by assumption.
    unfold ROUND, mul, num1, num2. simpl.
    do 2 f_equal. lra. }
  split; [exact Hval|].
  intros c ->. rewrite Hval. now rewrite round_half_away_cents.
Qed.

(** C1 (as the code has it, Inventory): for numeric issueDate,
    purchaseAmount and fixedRate, at monthsHeld = 0: when the rate lookup
    finds a row holding a numeric or empty rate with a growth factor
    other than 0, CurrentValue is purchaseAmount rounded to two decimals,
    hence purchaseAmount itself when that is a whole number of cents;
    when the lookup finds no row, CurrentValue is the empty text. *)
Theorem C1_value_at_zero_months rates today r issue p f :
  Inventory.IssueDate r = Num issue ->
  Inventory.PurchaseAmount r = Num p ->
  Inventory.FixedRate r = Num f ->
  DATEDIF_m (Num issue) (TODAY today) = Num 0 ->
  (forall (s : Z) (v0 : R),
      MATCH (Num issue) (Rates.A rates) = Num (IZR s) ->
      as_number (cell (Rates.B rates) s) = inr v0 ->
      periodGrowth f v0 <> 0 ->
      Inventory.CurrentValue rates today r = Num (round_half_away p 2)
      /\ (forall c : Z, p = IZR c / 100 ->
            Inventory.CurrentValue rates today r = Num p))
  /\ (forall e : error,
        MATCH (Num issue) (Rates.A rates) = Err e ->
        Inventory.CurrentValue rates today r = empty_text).
Proof.
  intros HC HD HE Hm. split.
  - intros s v0. now apply (CurrentValue_zero_months rates today r issue p f s v0).
  - intros e. now apply (CurrentValue_lookup_miss rates today r issue p f e).
Qed.

(** C1 witness: a 1000.00 bond issued 2024-05-01 and valued on
    2024-05-20 against the shipped rate rows shows 1000; the shipped
    example bond, issued before the first rate row and valued on its
    issue day, shows the empty text. *)
Lemma C1_value_at_zero_months_witness :
  Inventory.CurrentValue Rates.build_rates (date 2024 5 20)
    (bond (date 2024 5 1) (Num 1000) (Num (9 / 1000)) 12)
  = Num 1000
  /\ Inventory.CurrentValue Rates.build_rates (date 2024 1 15)
       Inventory.example_row
     = empty_text.
Proof.
  split.
  - destruct (C1_value_at_zero_months Rates.build_rates (date 2024 5 20)
                (bond (date 2024 5 1) (Num 1000) (Num (9 / 1000)) 12)
                (IZR (date 2024 5 1)) 1000 (9 / 1000)
                eq_refl eq_refl eq_refl
                (DATEDIF_m_IZR (date 2024 5 1) (date 2024 5 20) 0
                   ltac:(vm_compute; reflexivity)))
      as [Hhit _].
    destruct (Hhit 2%Z 0 shipped_rates_row2 eq_refl) as [_ Hcents].
    + unfold periodGrowth, compositeRate. lra.
    + apply (Hcents 100000%Z). lra.
  - destruct (C1_value_at_zero_months Rates.build_rates (date 2024 1 15)
                Inventory.example_row
                (IZR (date 2024 1 15)) 1000 (9 / 1000)
                eq_refl eq_refl eq_refl
                (DATEDIF_m_IZR (date 2024 1 15) (date 2024 1 15) 0
                   ltac:(vm_compute; reflexivity)))
      as [_ Hmiss].
    exact (Hmiss ErrNA shipped_rates_miss).
Defined.

(** C1 counterexample: the workbook as generated.  Its example bond is
    issued 2024-01-15, before the first rate row (2024-05-01); on its
    issue day monthsHeld is 0, no input is blank, and CurrentValue is the
    empty text, not the 1000 paid. *)
Lemma C1_counterexample :
  Inventory.MonthsHeld (date 2024 1 15) Inventory.example_row = Num 0
  /\ is_blank (Inventory.IssueDate Inventory.example_row) = false
  /\ is_blank (Inventory.PurchaseAmount Inventory.example_row) = false
  /\ is_blank (Inventory.FixedRate Inventory.example_row) = false
  /\ Inventory.PurchaseAmount Inventory.example_row = Num 1000
  /\ Inventory.CurrentValue Rates.build_rates (date 2024 1 15)
       Inventory.example_row = empty_text.
Proof.
  repeat split.
  - unfold Inventory.MonthsHeld. cbn [Inventory.IssueDate Inventory.example_row].
    rewrite (DATEDIF_m_IZR _ _ 0) by (vm_compute; reflexivity). reflexivity.
  - apply (CurrentValue_lookup_miss _ _ _ (IZR (date 2024 1 15)) 1000 (9 / 1000)
             ErrNA); try reflexivity.
    apply shipped_rates_miss.
Qed.

(* ================================================================== *)
(** ** C2: the schedule against the Inventory formula *)

(** Column E on numbers with positive growth factors: row [m] carries
    the product of the factors of periods [0 .. m div 6], the current one
    included, times the partial factor. *)
Lemma E9_rows_accrual (rates : Rates.sheet) (issue p f : R) (n s : Z)
  (v : nat -> R) :
  (0 <= n)%Z ->
  MATCH (Num issue) (Rates.A rates) = Num (IZR s) ->
  (forall i : nat, (Z.of_nat i <= n / 6)%Z ->
     as_number (cell (Rates.B rates) (s + Z.of_nat i)) = inr (v i)) ->
  (forall i : nat, (Z.of_nat i <= n / 6)%Z -> 0 < periodGrowth f (v i)) ->
  BondSchedule.E9 rates (Num issue) (Num p) (Num f) (Num (IZR n))
  = Array (map (fun i =>
             Num (round_half_away
                    (p * (fullPeriodProduct f v (Z.to_nat (Z.of_nat i / 6))
                          * periodGrowth f (v (Z.to_nat (Z.of_nat i / 6))))
                     * Rpower (periodGrowth f (v (Z.to_nat (Z.of_nat i / 6))))
                              (IZR (Z.of_nat i mod 6) / 6))
                    2))
            (offsets n)).
Proof.
  intros Hn Hs Hv Hpos.
  rewrite (E9_rows rates issue p f n s v) by assumption.
  f_equal. apply map_ext_in. intros i Hi. apply in_seq in Hi.
  unfold offsets in Hi.
  assert (Hi6 : (0 <= Z.of_nat i / 6 <= n / 6)%Z).
  { split; [apply Z.div_pos; lia | apply Z.div_le_mono; lia]. }
  unfold scheduled. cbv zeta.
  rewrite div_IZR_6, POWER_positive by (apply Hpos; lia).
  rewrite fullPeriodProduct_S. reflexivity.
Qed.

(** C2 (the code at the failing input): a 1000.00 bond at 0.90% fixed,
    issued 2024-05-01, against the shipped rate rows.  At month 0 the
    Inventory formula gives 1000.00; row 0 of the schedule's Value column
    gives 1004.50, one period's growth ahead. *)
Theorem C2_schedule_is_one_period_ahead :
  let b := bond (date 2024 5 1) (Num 1000) (Num (9 / 1000)) 12 in
  let view := BondSchedule.build_bond_schedule Rates.build_rates [b]
                (Str "B-0001") in
  Inventory.MonthsHeld (date 2024 5 1) b = Num 0
  /\ Inventory.CurrentValue Rates.build_rates (date 2024 5 1) b = Num 1000
  /\ nth 0 (BondSchedule.rows (BondSchedule.MonthIndex view)) Blank = Num 0
  /\ nth 0 (BondSchedule.rows (BondSchedule.Value view)) Blank
     = Num (2009 / 2).
Proof.
  cbv zeta.
  assert (Hrates : forall i : nat, (Z.of_nat i <= 12 / 6)%Z ->
            as_number (cell (Rates.B Rates.build_rates) (2 + Z.of_nat i))
            = inr ((fun _ => 0) i)).
  { intros i Hi. change (12 / 6)%Z with 2%Z in Hi.
    destruct i as [|[|[|i]]]; try reflexivity. lia. }
  assert (Hg : 0 < periodGrowth (9 / 1000) 0)
    by (unfold periodGrowth, compositeRate; lra).
  repeat split.
  - unfold Inventory.MonthsHeld, bond. cbn [Inventory.IssueDate].
    rewrite (DATEDIF_m_IZR _ _ 0) by (vm_compute; reflexivity). reflexivity.
  - apply (CurrentValue_zero_months Rates.build_rates (date 2024 5 1) _
             (IZR (date 2024 5 1)) 1000 (9 / 1000) 2 0) with (c := 100000%Z);
      try reflexivity.
    + apply (DATEDIF_m_IZR _ _ 0). vm_compute. reflexivity.
    + apply shipped_rates_row2.
    + lra.
    + lra.
  - unfold BondSchedule.build_bond_schedule. cbn [BondSchedule.MonthIndex].
    change (BondSchedule.B3 _ _) with (Num (IZR (date 2024 5 1))).
    change (BondSchedule.B6 _ _) with (Num (IZR 12)).
    rewrite B9_offsets by (reflexivity || lia).
    cbn [BondSchedule.rows]. unfold offsets.
    rewrite nth_map_seq by (vm_compute; lia). reflexivity.
  - unfold BondSchedule.build_bond_schedule. cbn [BondSchedule.Value].
    change (BondSchedule.B3 _ _) with (Num (IZR (date 2024 5 1))).
    change (BondSchedule.B4 _ _) with (Num 1000).
    change (BondSchedule.B5 _ _) with (Num (9 / 1000)).
    change (BondSchedule.B6 _ _) with (Num (IZR 12)).
    rewrite (E9_rows_accrual _ _ _ _ 12 2 (fun _ => 0));
      [| lia | apply shipped_rates_row2 | exact Hrates | intros; exact Hg].
    cbn [BondSchedule.rows]. unfold offsets.
    rewrite nth_map_seq by (vm_compute; lia).
    change (Z.of_nat 0 / 6)%Z with 0%Z. change (Z.of_nat 0 mod 6)%Z with 0%Z.
    cbn [Z.to_nat]. replace (0 / 6) with 0 by lra.
    rewrite Rpower_O by exact Hg.
    replace (1000 * (fullPeriodProduct (9 / 1000) (fun _ => 0) 0
                     * periodGrowth (9 / 1000) 0) * 1)
      with (IZR 100450 / 100)
      by (unfold fullPeriodProduct, prod_list, periodGrowth, compositeRate;
          simpl; lra).
    rewrite round_half_away_cents. f_equal. lra.
Qed.

(* ================================================================== *)
(** ** C3: which rate a period uses *)

(** A header above date serials in non-decreasing order is ascending. *)
Lemma ascending_serials (h : string) (zs : list Z) :
  (forall i j : nat, (i < j < List.length zs)%nat ->
     (nth i zs 0 <= nth j zs 0)%Z) ->
  ascending (Str h :: map (fun z => Num (IZR z)) zs).
Proof.
  intros Hsorted p q y z Hpq Hp Hq. unfold cell in Hp, Hq.
  assert (Hcell : forall (a : nat) (x : R),
            nth a (Str h :: map (fun z => Num (IZR z)) zs) Blank = Num x ->
            exists a', a = S a' /\ (a' < List.length zs)%nat
                       /\ x = IZR (nth a' zs 0%Z)).
  { intros a x Ha. destruct a as [|a']; [discriminate Ha|].
    exists a'. split; [reflexivity|]. cbn [nth] in Ha.
    destruct (Nat.lt_ge_cases a' (List.length zs)) as [Hlt|Hge].
    - split; [assumption|].
      rewrite (nth_indep _ Blank (Num (IZR 0))) in Ha by now rewrite length_map.
      rewrite (map_nth (fun z => Num (IZR z)) zs 0%Z a') in Ha.
      now injection Ha.
    - rewrite nth_overflow in Ha by now rewrite length_map.
      discriminate Ha. }
  apply Hcell in Hp as (a & Ea & Hla & ->).
  apply Hcell in Hq as (b & Eb & Hlb & ->).
  apply IZR_le. apply Hsorted. lia.
Qed.

Lemma quarterly_ascending : ascending (Rates.A quarterly_rates).
Proof.
  apply (ascending_serials "EffDate"
           [date 2024 1 1; date 2024 4 1; date 2024 7 1]).
  intros i j Hij. cbn [List.length] in Hij.
  destruct i as [|[|[|i]]]; destruct j as [|[|[|j]]]; try lia;
    cbn [nth]; vm_compute; discriminate.
Qed.

(** C3 counterexample: an ascending table with an announcement every
    three months and a bond issued 2024-01-15.  For the period that
    starts six months on, the schedule shows the rate one row below the
    issue date's row (2%), while the latest announcement not after
    2024-07-15 is two rows below (3%). *)
Lemma C3_counterexample :
  ascending (Rates.A quarterly_rates)
  /\ nth 6 (BondSchedule.rows
              (BondSchedule.C9 quarterly_rates (Num (IZR (date 2024 1 15)))
                 (Num (IZR 6)))) Blank
     = Num (2 / 100)
  /\ INDEX_ref (Rates.B quarterly_rates)
       (MATCH (EDATE (Num (IZR (date 2024 1 15))) (Num (IZR 6)))
              (Rates.A quarterly_rates))
     = Num (3 / 100).
Proof.
  split; [exact quarterly_ascending|]. split.
  - rewrite (C9_rows quarterly_rates _ 6 2).
    + cbn [BondSchedule.rows]. unfold offsets.
      rewrite nth_map_seq by (vm_compute; lia). reflexivity.
    + lia.
    + unfold quarterly_rates. cbn [Rates.A]. lookup_dates. reflexivity.
  - rewrite (EDATE_IZR _ _ (date 2024 7 15)) by (vm_compute; reflexivity).
    assert (Hrow : MATCH (Num (IZR (date 2024 7 15))) (Rates.A quarterly_rates)
                   = Num (IZR 4)).
    { unfold quarterly_rates. cbn [Rates.A]. lookup_dates. reflexivity. }
    rewrite Hrow, INDEX_ref_IZR by lia. reflexivity.
Qed.

(** C3 (as the code has it): the rate of period [i] is read from the
    Rates row [i] rows below the row matched for the issue date (the
    latest effective date not after it): so in the Inventory formula,
    whose value is fixed by those cells, and in the schedule's
    VariableRate column.  When the effective dates from the matched row
    on are firsts of months six months apart, in an ascending column,
    that row is the one whose effective date is the latest not after
    issueDate + 6 i months. *)
Theorem C3_rate_by_row_offset rates today r (d : Z) p f m s v :
  Inventory.IssueDate r = Num (IZR d) ->
  Inventory.PurchaseAmount r = Num p ->
  Inventory.FixedRate r = Num f ->
  DATEDIF_m (Num (IZR d)) (TODAY today) = Num (IZR m) ->
  (0 <= m)%Z ->
  MATCH (Num (IZR d)) (Rates.A rates) = Num (IZR s) ->
  (forall i : nat, (Z.of_nat i <= m / 6)%Z ->
     as_number (cell (Rates.B rates) (s + Z.of_nat i)) = inr (v i)) ->
  Inventory.CurrentValue rates today r
  = formula_value (IFERROR (accrued p f v m) empty_text)
  /\ (forall n : Z, (m <= n)%Z ->
        nth (Z.to_nat m)
            (BondSchedule.rows
               (BondSchedule.C9 rates (Num (IZR d)) (Num (IZR n)))) Blank
        = formula_value (cell (Rates.B rates) (s + m / 6)))
  /\ (forall (n0 i : nat) (t : Z),
        ascending (Rates.A rates) ->
        (forall j : nat, (j <= S i)%nat ->
           cell (Rates.A rates) (s + Z.of_nat j)
           = Num (IZR (month_start (n0 + 6 * j)))) ->
        (month_start n0 <= d < month_start (n0 + 6))%Z ->
        edate d (6 * Z.of_nat i) = inr t ->
        INDEX_ref (Rates.B rates)
          (MATCH (EDATE (Num (IZR d)) (Num (IZR (6 * Z.of_nat i))))
                 (Rates.A rates))
        = cell (Rates.B rates) (s + Z.of_nat i)).
Proof.
  intros HC HD HE Hm Hm0 Hs Hv.
  pose proof (MATCH_pos _ _ _ Hs) as Hs1.
  split; [|split].
  - now apply (CurrentValue_numeric rates today r (IZR d) p f m s v).
  - intros n Hn. rewrite (C9_rows rates (IZR d) n s) by (assumption || lia).
    cbn [BondSchedule.rows]. unfold offsets.
    rewrite nth_map_seq by lia. now rewrite Z2Nat.id by lia.
  - intros n0 i t Hasc Hrows Hd Ht.
    rewrite (EDATE_IZR _ _ t Ht).
    rewrite (date_lookup_row (Rates.A rates) d t s n0 i) by assumption.
    apply INDEX_ref_IZR. lia.
Qed.

Lemma shipped_rates_ascending : ascending (Rates.A Rates.build_rates).
Proof.
  change (Rates.A Rates.build_rates)
    with (Str "EffDate" :: map (fun z => Num (IZR z))
                               [date 2024 5 1; date 2024 11 1; date 2025 5 1]).
  apply ascending_serials.
  intros i j Hij. cbn [List.length] in Hij.
  destruct i as [|[|[|i]]]; destruct j as [|[|[|j]]]; try lia;
    cbn [nth]; vm_compute; discriminate.
Qed.

(** The shipped effective dates are the firsts of months 1492 (May
    2024), 1498 and 1504. *)
Lemma shipped_rates_six_months_apart (j : nat) :
  (j <= 2)%nat ->
  cell (Rates.A Rates.build_rates) (2 + Z.of_nat j)
  = Num (IZR (month_start (1492 + 6 * j))).
Proof.
  intros Hj.
  assert (H0 : date 2024 5 1 = month_start 1492) by (vm_compute; reflexivity).
  assert (H1 : date 2024 11 1 = month_start 1498) by (vm_compute; reflexivity).
  assert (H2 : date 2025 5 1 = month_start 1504) by (vm_compute; reflexivity).
  destruct j as [|[|[|j]]]; [| | |lia].
  - change (cell _ _) with (Num (IZR (date 2024 5 1))). now rewrite H0.
  - change (cell _ _) with (Num (IZR (date 2024 11 1))). now rewrite H1.
  - change (cell _ _) with (Num (IZR (date 2025 5 1))). now rewrite H2.
Qed.

(** C3 witness: a bond issued 2024-05-20, seven months held, against
    the shipped rate rows, whose dates are six months apart. *)
Lemma C3_rate_by_row_offset_witness :
  let rates := Rates.build_rates in
  let r := bond (date 2024 5 20) (Num 1000) (Num (9 / 1000)) 12 in
  Inventory.CurrentValue rates (date 2024 12 25) r
  = formula_value (IFERROR (accrued 1000 (9 / 1000) (fun _ => 0) 7) empty_text)
  /\ nth (Z.to_nat 7)
         (BondSchedule.rows
            (BondSchedule.C9 rates (Num (IZR (date 2024 5 20))) (Num (IZR 12))))
         Blank
     = formula_value (cell (Rates.B rates) (2 + 7 / 6))
  /\ INDEX_ref (Rates.B rates)
       (MATCH (EDATE (Num (IZR (date 2024 5 20))) (Num (IZR (6 * Z.of_nat 1))))
              (Rates.A rates))
     = cell (Rates.B rates) (2 + Z.of_nat 1).
Proof.
  cbv zeta.
  assert (Hrow : MATCH (Num (IZR (date 2024 5 20))) (Rates.A Rates.build_rates)
                 = Num (IZR 2)).
  { unfold Rates.build_rates, Rates.example_rows. cbn [Rates.A map fst].
    lookup_dates. reflexivity. }
  pose proof (C3_rate_by_row_offset Rates.build_rates (date 2024 12 25)
                (bond (date 2024 5 20) (Num 1000) (Num (9 / 1000)) 12)
                (date 2024 5 20) 1000 (9 / 1000) 7 2 (fun _ => 0)
                eq_refl eq_refl eq_refl) as H.
  destruct H as (H1 & H2 & H3).
  - apply (DATEDIF_m_IZR _ _ 7). vm_compute. reflexivity.
  - lia.
  - exact Hrow.
  - intros i Hi. change (7 / 6)%Z with 1%Z in Hi.
    destruct i as [|[|i]]; [reflexivity | reflexivity | lia].
  - split; [exact H1 | split; [apply H2; lia |]].
    apply (H3 1492%nat 1%nat (date 2024 11 20)).
    + exact shipped_rates_ascending.
    + intros j Hj. now apply shipped_rates_six_months_apart.
    + vm_compute. split; [discriminate | reflexivity].
    + vm_compute. reflexivity.
Defined.

(* ================================================================== *)
(** ** C4 and C10: whole periods, and the logarithm *)

Lemma Exists_nonpositive_factor (f : R) (v : nat -> R) (k : nat) :
  (exists i : nat, (i < k)%nat /\ periodGrowth f (v i) <= 0) ->
  Exists (fun g => g <= 0) (map (fun i => periodGrowth f (v i)) (seq 0 k)).
Proof.
  intros (i & Hi & Hg). apply Exists_exists.
  exists (periodGrowth f (v i)). split; [|assumption].
  apply in_map_iff. exists i. split; [reflexivity|]. apply in_seq. lia.
Qed.

(** A full period whose growth factor is not positive makes column H
    empty: the logarithm faults and [IFERROR] absorbs it. *)
Lemma CurrentValue_nonpositive_factor rates today r issue p f m s v :
  Inventory.IssueDate r = Num issue ->
  Inventory.PurchaseAmount r = Num p ->
  Inventory.FixedRate r = Num f ->
  DATEDIF_m (Num issue) (TODAY today) = Num (IZR m) ->
  (0 <= m)%Z ->
  MATCH (Num issue) (Rates.A rates) = Num (IZR s) ->
  (forall i : nat, (Z.of_nat i <= m / 6)%Z ->
     as_number (cell (Rates.B rates) (s + Z.of_nat i)) = inr (v i)) ->
  (exists i : nat, (Z.of_nat i < m / 6)%Z /\ periodGrowth f (v i) <= 0) ->
  Inventory.CurrentValue rates today r = empty_text.
Proof.
  intros HC HD HE Hm Hm0 Hs Hv (i & Hi & Hg).
  rewrite (CurrentValue_numeric rates today r issue p f m s v) by assumption.
  unfold accrued. cbv zeta.
  destruct (Z.eqb_spec (m / 6) 0) as [Hz|Hz]; [lia|].
  rewrite EXP_SUM_LN_fault.
  - reflexivity.
  - apply Exists_nonpositive_factor. exists i. split; [lia | assumption].
Qed.

Lemma prod_list_constant {T} (g : R) (l : list T) :
  prod_list (map (fun _ => g) l) = g ^ List.length l.
Proof.
  induction l as [|x l IH]; [reflexivity|].
  unfold prod_list in *. simpl. now rewrite IH.
Qed.

(** C4 (as the code has it): a bond held exactly 6k months whose
    looked-up variable rate is the same [v] in every period, with a
    positive growth factor 1 + (f + v + f v)/2, is valued at
    round(P * (1 + (f + v + f v)/2)^k, 2). *)
Theorem C4_constant_rate_whole_periods rates today r issue p f k s v :
  Inventory.IssueDate r = Num issue ->
  Inventory.PurchaseAmount r = Num p ->
  Inventory.FixedRate r = Num f ->
  (0 <= k)%Z ->
  DATEDIF_m (Num issue) (TODAY today) = Num (IZR (6 * k)) ->
  MATCH (Num issue) (Rates.A rates) = Num (IZR s) ->
  (forall i : nat, (Z.of_nat i <= k)%Z ->
     as_number (cell (Rates.B rates) (s + Z.of_nat i)) = inr v) ->
  0 < 1 + (f + v + f * v) / 2 ->
  Inventory.CurrentValue rates today r
  = Num (round_half_away (p * (1 + (f + v + f * v) / 2) ^ Z.to_nat k) 2).
Proof.
  intros HC HD HE Hk Hm Hs Hv Hg.
  assert (Hq : (6 * k / 6 = k)%Z)
    by (rewrite Z.mul_comm; apply Z.div_mul; lia).
  assert (Hr : ((6 * k) mod 6 = 0)%Z)
    by (rewrite Z.mul_comm; apply Z.mod_mul; lia).
  rewrite (CurrentValue_accrual rates today r issue p f (6 * k) s (fun _ => v));
    try assumption; try lia.
  - rewrite Hq, Hr. unfold fullPeriodProduct.
    rewrite (prod_list_constant (periodGrowth f v)), length_seq.
    replace (0 / 6) with 0 by lra. rewrite Rpower_O by exact Hg.
    unfold periodGrowth, compositeRate. do 2 f_equal. lra.
  - intros i Hi. apply Hv. lia.
  - intros i _. exact Hg.
Qed.

(** C4 witness: six months at a constant 4% against a 0.90% fixed rate. *)
Lemma C4_constant_rate_whole_periods_witness :
  Inventory.CurrentValue (two_rates (4 / 100) (4 / 100)) (date 2024 11 1)
    (bond (date 2024 5 1) (Num 1000) (Num (9 / 1000)) 12)
  = Num (round_half_away
           (1000 * (1 + (9 / 1000 + 4 / 100 + 9 / 1000 * (4 / 100)) / 2)
                   ^ Z.to_nat 1) 2).
Proof.
  apply (C4_constant_rate_whole_periods (two_rates (4 / 100) (4 / 100))
           (date 2024 11 1)
           (bond (date 2024 5 1) (Num 1000) (Num (9 / 1000)) 12)
           (IZR (date 2024 5 1)) 1000 (9 / 1000) 1 2 (4 / 100)).
  - reflexivity.
  - reflexivity.
  - reflexivity.
  - lia.
  - apply (DATEDIF_m_IZR _ _ 6). vm_compute. reflexivity.
  - apply two_rates_row2.
  - intros i Hi. destruct i as [|[|i]]; [reflexivity | reflexivity | lia].
  - lra.
Defined.

(** C4 counterexample: a constant variable rate of -200% with fixed
    rate 0 makes the growth factor 0.  After six months the claimed value
    is round(1000 * 0^1, 2) = 0, a number; the formula yields the empty
    text. *)
Lemma C4_counterexample :
  let rates := two_rates (-2) (-2) in
  let r := bond (date 2024 5 1) (Num 1000) (Num 0) 12 in
  Inventory.MonthsHeld (date 2024 11 1) r = Num (IZR (6 * 1))
  /\ cell (Rates.B rates) 2 = Num (-2)
  /\ cell (Rates.B rates) 3 = Num (-2)
  /\ round_half_away (1000 * (1 + (0 + -2 + 0 * -2) / 2) ^ Z.to_nat 1) 2 = 0
  /\ Inventory.CurrentValue rates (date 2024 11 1) r = empty_text.
Proof.
  cbv zeta. repeat split.
  - unfold Inventory.MonthsHeld, bond. cbn [Inventory.IssueDate].
    rewrite (DATEDIF_m_IZR _ _ 6) by (vm_compute; reflexivity). reflexivity.
  - replace (1000 * (1 + (0 + -2 + 0 * -2) / 2) ^ Z.to_nat 1)
      with (IZR 0 / 100) by (simpl; lra).
    rewrite round_half_away_cents. lra.
  - apply (CurrentValue_nonpositive_factor _ _ _ (IZR (date 2024 5 1)) 1000 0 6 2
             (fun _ => -2)); try reflexivity.
    + apply (DATEDIF_m_IZR _ _ 6). vm_compute. reflexivity.
    + lia.
    + apply two_rates_row2.
    + intros i Hi. change (6 / 6)%Z with 1%Z in Hi.
      destruct i as [|[|i]]; [reflexivity | reflexivity | lia].
    + exists 0%nat. split; [reflexivity|].
      unfold periodGrowth, compositeRate. lra.
Qed.

(** C10: column H multiplies the full periods' growth factors as
    EXP(SUM(LN(factor))).  That is the product of the factors exactly when
    every factor is positive, and then the formula is the one a direct
    product would give; when a full period's factor is 0 or negative the
    logarithm faults and CurrentValue is the empty text. *)
Theorem C10_exp_sum_ln_product rates today r issue p f m s v :
  Inventory.IssueDate r = Num issue ->
  Inventory.PurchaseAmount r = Num p ->
  Inventory.FixedRate r = Num f ->
  DATEDIF_m (Num issue) (TODAY today) = Num (IZR m) ->
  (6 <= m)%Z ->
  MATCH (Num issue) (Rates.A rates) = Num (IZR s) ->
  (forall i : nat, (Z.of_nat i <= m / 6)%Z ->
     as_number (cell (Rates.B rates) (s + Z.of_nat i)) = inr (v i)) ->
  let k := Z.to_nat (m / 6) in
  let factors := map (fun i => periodGrowth f (v i)) (seq 0 k) in
  (EXP (SUM (lift1 LN (Array (map Num factors)))) = Num (prod_list factors)
   <-> Forall (fun g => 0 < g) factors)
  /\ (Forall (fun g => 0 < g) factors ->
      Inventory.CurrentValue rates today r
      = formula_value
          (IFERROR
             (ROUND (Num p * Num (prod_list factors)
                     * POWER (Num (periodGrowth f (v k)))
                             (Num (IZR (m mod 6)) / Num 6))%xl 2)
             empty_text))
  /\ (Exists (fun g => g <= 0) factors ->
      Inventory.CurrentValue rates today r = empty_text).
Proof.
  intros HC HD HE Hm Hm6 Hs Hv k factors.
  assert (Hk : (1 <= m / 6)%Z).
  { change 1%Z with (6 / 6)%Z. apply Z.div_le_mono; lia. }
  assert (Hnum : Inventory.CurrentValue rates today r
                 = formula_value (IFERROR (accrued p f v m) empty_text)).
  { apply (CurrentValue_numeric rates today r issue p f m s v);
      assumption || lia. }
  split; [split|split].
  - intros Heq.
    destruct (Forall_Exists_dec (fun g => 0 < g) (fun g => Rlt_dec 0 g) factors)
      as [Hall|Hex]; [assumption|].
    exfalso. rewrite EXP_SUM_LN_fault in Heq; [discriminate|].
    apply Exists_exists in Hex as (g & Hin & Hg).
    apply Exists_exists. exists g. split; [assumption | lra].
  - apply EXP_SUM_LN_positive.
  - intros Hall. rewrite Hnum. unfold accrued. cbv zeta.
    destruct (Z.eqb_spec (m / 6) 0) as [Hz|_]; [lia|].
    fold k. fold factors. now rewrite EXP_SUM_LN_positive.
  - intros Hex. rewrite Hnum. unfold accrued. cbv zeta.
    destruct (Z.eqb_spec (m / 6) 0) as [Hz|_]; [lia|].
    fold k. fold factors. now rewrite EXP_SUM_LN_fault.
Qed.

(** C10 witness: six months held, first with a 4% rate, where the
    formula agrees with the direct product. *)
Lemma C10_exp_sum_ln_product_witness :
  let rates := two_rates (4 / 100) (4 / 100) in
  let r := bond (date 2024 5 1) (Num 1000) (Num (9 / 1000)) 12 in
  let factors := map (fun _ : nat => periodGrowth (9 / 1000) (4 / 100))
                     (seq 0 (Z.to_nat (6 / 6))) in
  (EXP (SUM (lift1 LN (Array (map Num factors)))) = Num (prod_list factors)
   <-> Forall (fun g => 0 < g) factors)
  /\ (Exists (fun g => g <= 0) factors ->
      Inventory.CurrentValue rates (date 2024 11 1) r = empty_text).
Proof.
  cbv zeta.
  pose proof (C10_exp_sum_ln_product (two_rates (4 / 100) (4 / 100))
                (date 2024 11 1)
                (bond (date 2024 5 1) (Num 1000) (Num (9 / 1000)) 12)
                (IZR (date 2024 5 1)) 1000 (9 / 1000) 6 2 (fun _ => 4 / 100)
                eq_refl eq_refl eq_refl) as H.
  cbv zeta in H. destruct H as (H1 & _ & H3).
  - apply (DATEDIF_m_IZR _ _ 6). vm_compute. reflexivity.
  - lia.
  - apply two_rates_row2.
  - intros i Hi. change (6 / 6)%Z with 1%Z in Hi.
    destruct i as [|[|i]]; [reflexivity | reflexivity | lia].
  - split; [exact H1 | exact H3].
Defined.

(* ================================================================== *)
(** ** C5: blank inputs *)

(** Between two dates in order, [DATEDIF] finds a month count. *)
Lemma datedif_m_in_order (d t : Z) :
  (0 <= d <= t)%Z -> (t <= max_serial)%Z ->
  exists m : Z, datedif_m d t = inr m /\ (0 <= m)%Z.
Proof.
  intros Hd Ht.
  assert (He : exists m : Z, datedif_m d t = inr m).
  { unfold datedif_m, valid_serial.
    destruct (Z.leb_spec 0 d); [|lia]. destruct (Z.leb_spec d max_serial); [|lia].
    destruct (Z.leb_spec 0 t); [|lia]. destruct (Z.leb_spec t max_serial); [|lia].
    cbn [andb negb]. destruct (Z.ltb_spec t d); [lia|].
    rewrite (surjective_pairing (month_day d)), (surjective_pairing (month_day t)).
    eexists. reflexivity. }
  destruct He as [m Hm]. exists m. split; [exact Hm|].
  now apply (datedif_m_nonneg d t).
Qed.

(** C5 (as the code has it): when issueDate, purchaseAmount or fixedRate
    is blank (and none of the three holds an error value), CurrentValue
    is the empty text.  MonthsHeld reads the issue date only, so an empty
    purchaseAmount or fixedRate does not blank it: in such a row with an
    issue date not after the evaluation day it is the whole number of
    complete months between the two. *)
Theorem C5_blank_inputs rates today r :
  is_error (Inventory.IssueDate r) = false ->
  is_error (Inventory.PurchaseAmount r) = false ->
  is_error (Inventory.FixedRate r) = false ->
  is_blank (Inventory.IssueDate r) || is_blank (Inventory.PurchaseAmount r)
    || is_blank (Inventory.FixedRate r) = true ->
  Inventory.CurrentValue rates today r = empty_text
  /\ (forall d : Z,
        Inventory.IssueDate r = Num (IZR d) ->
        (0 <= d <= today)%Z -> (today <= max_serial)%Z ->
        exists m : Z,
          (0 <= m)%Z
          /\ datedif_m d today = inr m
          /\ Inventory.MonthsHeld today r = Num (IZR m)).
Proof.
  intros HC HD HE Hb. split.
  - now apply CurrentValue_blank_input.
  - intros d Hd Hdt Ht.
    destruct (datedif_m_in_order d today Hdt Ht) as (m & Hm & Hm0).
    exists m. split; [exact Hm0|]. split; [exact Hm|].
    unfold Inventory.MonthsHeld. rewrite Hd.
    now rewrite (DATEDIF_m_IZR d today m Hm).
Qed.

(** C5 witness: a row with its purchase amount left empty, issued
    2024-01-15 and read on 2024-07-20: CurrentValue is the empty text and
    MonthsHeld is 6. *)
Lemma C5_blank_inputs_witness :
  Inventory.CurrentValue Rates.build_rates (date 2024 7 20)
    (bond (date 2024 1 15) Blank (Num (9 / 1000)) 12)
  = empty_text
  /\ Inventory.MonthsHeld (date 2024 7 20)
       (bond (date 2024 1 15) Blank (Num (9 / 1000)) 12)
     = Num (IZR 6).
Proof.
  destruct (C5_blank_inputs Rates.build_rates (date 2024 7 20)
              (bond (date 2024 1 15) Blank (Num (9 / 1000)) 12)
              eq_refl eq_refl eq_refl eq_refl) as [Hcv Hmh].
  split; [exact Hcv|].
  destruct (Hmh (date 2024 1 15) eq_refl) as (m & _ & Hm & Hheld).
  - vm_compute. split; discriminate.
  - vm_compute. discriminate.
  - assert (H6 : datedif_m (date 2024 1 15) (date 2024 7 20) = inr 6%Z)
      by (vm_compute; reflexivity).
    rewrite H6 in Hm. injection Hm as <-. exact Hheld.
Defined.

(** C5 counterexample: the same row, purchase amount empty, issued
    2024-01-15 and read on 2024-07-20: MonthsHeld is 6, not blank. *)
Lemma C5_counterexample :
  let r := bond (date 2024 1 15) Blank (Num (9 / 1000)) 12 in
  is_blank (Inventory.PurchaseAmount r) = true
  /\ Inventory.MonthsHeld (date 2024 7 20) r = Num 6
  /\ is_blank (Inventory.MonthsHeld (date 2024 7 20) r) = false.
Proof.
  cbv zeta.
  assert (H : Inventory.MonthsHeld (date 2024 7 20)
                (bond (date 2024 1 15) Blank (Num (9 / 1000)) 12) = Num 6).
  { unfold Inventory.MonthsHeld, bond. cbn [Inventory.IssueDate].
    rewrite (DATEDIF_m_IZR _ _ 6) by (vm_compute; reflexivity). reflexivity. }
  rewrite H. repeat split.
Qed.

(* ================================================================== *)
(** ** C6: a bond issued before every effective date *)

(** C6 (the code at the failing input): the workbook as generated, with
    its example bond EX-0001 (issued 2024-01-15, before the first rate
    row) selected on BondSchedule.  The rate lookup fails; the Inventory
    formula turns that into the empty text, but all 121 rows of the
    schedule's VariableRate and Value columns show #N/A. *)
Theorem C6_schedule_shows_lookup_error :
  let view := BondSchedule.build_bond_schedule Rates.build_rates
                Inventory.build_inventory (Str "EX-0001") in
  BondSchedule.IssueDate_cell view = Num (IZR (date 2024 1 15))
  /\ MATCH (BondSchedule.IssueDate_cell view) (Rates.A Rates.build_rates)
     = Err ErrNA
  /\ (forall today : Z,
        Inventory.CurrentValue Rates.build_rates today Inventory.example_row
        = empty_text)
  /\ BondSchedule.VariableRate view = Array (repeat (Err ErrNA) 121)
  /\ BondSchedule.Value view = Array (repeat (Err ErrNA) 121).
Proof.
  cbv zeta. unfold BondSchedule.build_bond_schedule.
  cbn [BondSchedule.IssueDate_cell BondSchedule.VariableRate BondSchedule.Value].
  change (BondSchedule.B3 _ _) with (Num (IZR (date 2024 1 15))).
  change (BondSchedule.B4 _ _) with (Num 1000).
  change (BondSchedule.B5 _ _) with (Num (9 / 1000)).
  change (BondSchedule.B6 _ _) with (Num (IZR 120)).
  assert (Hrep : map (fun _ : nat => Err ErrNA) (offsets 120)
                 = repeat (Err ErrNA) 121) by reflexivity.
  repeat split.
  - apply shipped_rates_miss.
  - intros today.
    apply (CurrentValue_lookup_miss _ _ _ (IZR (date 2024 1 15)) 1000 (9 / 1000)
             ErrNA); try reflexivity.
    apply shipped_rates_miss.
  - rewrite (C9_lookup_miss _ _ 120 ErrNA) by (lia || apply shipped_rates_miss).
    now rewrite Hrep.
  - rewrite (E9_lookup_miss _ _ _ _ 120 ErrNA) by (lia || apply shipped_rates_miss).
    now rewrite Hrep.
Qed.

(* ================================================================== *)
(** ** C7: monotonicity *)

Lemma composite_nonneg_growth (f v : R) :
  0 <= compositeRate f v -> 1 <= periodGrowth f v.
Proof. unfold periodGrowth. lra. Qed.

(** X15: in the Inventory, for a bond with a purchase amount that is not
    negative and a rate table whose looked-up composite rates are all
    >= 0, CurrentValue read at m1 months held is at most CurrentValue
    read at m2 months held, for m1 <= m2. *)
Theorem X15_inventory_value_nondecreasing rates today1 today2 r issue p f m1 m2 s v :
  Inventory.IssueDate r = Num issue ->
  Inventory.PurchaseAmount r = Num p ->
  Inventory.FixedRate r = Num f ->
  0 <= p ->
  DATEDIF_m (Num issue) (TODAY today1) = Num (IZR m1) ->
  DATEDIF_m (Num issue) (TODAY today2) = Num (IZR m2) ->
  (0 <= m1 <= m2)%Z ->
  MATCH (Num issue) (Rates.A rates) = Num (IZR s) ->
  (forall i : nat, (Z.of_nat i <= m2 / 6)%Z ->
     as_number (cell (Rates.B rates) (s + Z.of_nat i)) = inr (v i)) ->
  (forall i : nat, (Z.of_nat i <= m2 / 6)%Z -> 0 <= compositeRate f (v i)) ->
  exists x1 x2 : R,
    Inventory.CurrentValue rates today1 r = Num x1
    /\ Inventory.CurrentValue rates today2 r = Num x2
    /\ x1 <= x2.
Proof.
  intros HC HD HE Hp Hd1 Hd2 Hm Hs Hv Hc.
  assert (Hq : (m1 / 6 <= m2 / 6)%Z) by (apply Z.div_le_mono; lia).
  assert (Hg : forall i : nat, (Z.of_nat i <= m2 / 6)%Z ->
                               1 <= periodGrowth f (v i)).
  { intros i Hi. apply composite_nonneg_growth. now apply Hc. }
  eexists. eexists. split; [|split].
  - apply (CurrentValue_accrual rates today1 r issue p f m1 s v);
      try assumption; try lia.
    + intros i Hi. apply Hv. lia.
    + intros i Hi. specialize (Hg i ltac:(lia)). lra.
  - apply (CurrentValue_accrual rates today2 r issue p f m2 s v);
      try assumption; try lia.
    intros i Hi. specialize (Hg i Hi). lra.
  - apply round_half_away_mono.
    pose proof (growth_at_mono f v m1 m2 Hm Hg) as Hmono.
    unfold growth_at in Hmono. rewrite !Rmult_assoc.
    now apply Rmult_le_compat_l.
Qed.

(** X15 witness: 1000.00 at 0.90% fixed and 4% variable, read at issue
    and six months later. *)
Lemma X15_inventory_value_nondecreasing_witness :
  exists x1 x2 : R,
    Inventory.CurrentValue (two_rates (4 / 100) (4 / 100)) (date 2024 5 1)
      (bond (date 2024 5 1) (Num 1000) (Num (9 / 1000)) 12) = Num x1
    /\ Inventory.CurrentValue (two_rates (4 / 100) (4 / 100)) (date 2024 11 1)
         (bond (date 2024 5 1) (Num 1000) (Num (9 / 1000)) 12) = Num x2
    /\ x1 <= x2.
Proof.
  apply (X15_inventory_value_nondecreasing (two_rates (4 / 100) (4 / 100))
           (date 2024 5 1) (date 2024 11 1)
           (bond (date 2024 5 1) (Num 1000) (Num (9 / 1000)) 12)
           (IZR (date 2024 5 1)) 1000 (9 / 1000) 0 6 2 (fun _ => 4 / 100)).
  - reflexivity.
  - reflexivity.
  - reflexivity.
  - lra.
  - apply (DATEDIF_m_IZR _ _ 0). vm_compute. reflexivity.
  - apply (DATEDIF_m_IZR _ _ 6). vm_compute. reflexivity.
  - lia.
  - apply two_rates_row2.
  - intros i Hi. change (6 / 6)%Z with 1%Z in Hi.
    destruct i as [|[|i]]; [reflexivity | reflexivity | lia].
  - intros i _. unfold compositeRate. lra.
Defined.

(** The amount must not be negative for that: with -1000, fixed rate 0
    and a 10% variable rate, the value is -1000.00 at issue and -1050.00
    six months later. *)
Lemma negative_amount_value_decreases :
  let rates := two_rates (1 / 10) (1 / 10) in
  let r := bond (date 2024 5 1) (Num (-1000)) (Num 0) 12 in
  0 <= compositeRate 0 (1 / 10)
  /\ Inventory.MonthsHeld (date 2024 5 1) r = Num 0
  /\ Inventory.MonthsHeld (date 2024 11 1) r = Num 6
  /\ Inventory.CurrentValue rates (date 2024 5 1) r = Num (-1000)
  /\ Inventory.CurrentValue rates (date 2024 11 1) r = Num (-1050)
  /\ -1050 < -1000.
Proof.
  cbv zeta.
  assert (Hg : 0 < periodGrowth 0 (1 / 10))
    by (unfold periodGrowth, compositeRate; lra).
  assert (Hrates : forall m : Z, (m / 6 <= 1)%Z -> forall i : nat,
            (Z.of_nat i <= m / 6)%Z ->
            as_number (cell (Rates.B (two_rates (1 / 10) (1 / 10)))
                            (2 + Z.of_nat i))
            = inr ((fun _ => 1 / 10) i)).
  { intros m Hm i Hi. destruct i as [|[|i]]; [reflexivity | reflexivity | lia]. }
  split; [unfold compositeRate; lra|].
  split; [|split].
  - unfold Inventory.MonthsHeld, bond. cbn [Inventory.IssueDate].
    rewrite (DATEDIF_m_IZR _ _ 0) by (vm_compute; reflexivity). reflexivity.
  - unfold Inventory.MonthsHeld, bond. cbn [Inventory.IssueDate].
    rewrite (DATEDIF_m_IZR _ _ 6) by (vm_compute; reflexivity). reflexivity.
  - split; [|split; [|lra]].
    + rewrite (CurrentValue_accrual _ _ _ (IZR (date 2024 5 1)) (-1000) 0 0 2
                 (fun _ => 1 / 10)); try reflexivity.
      * change (0 / 6)%Z with 0%Z. change (0 mod 6)%Z with 0%Z.
        cbn [Z.to_nat]. replace (0 / 6) with 0 by lra.
        rewrite Rpower_O by exact Hg.
        replace (-1000 * fullPeriodProduct 0 (fun _ => 1 / 10) 0 * 1)
          with (IZR (-100000) / 100)
          by (unfold fullPeriodProduct, prod_list; simpl; lra).
        rewrite round_half_away_cents. f_equal. lra.
      * apply (DATEDIF_m_IZR _ _ 0). vm_compute. reflexivity.
      * apply two_rates_row2.
      * apply Hrates. vm_compute. discriminate.
      * intros i _. exact Hg.
    + rewrite (CurrentValue_accrual _ _ _ (IZR (date 2024 5 1)) (-1000) 0 6 2
                 (fun _ => 1 / 10)); try reflexivity.
      * change (6 / 6)%Z with 1%Z. change (6 mod 6)%Z with 0%Z.
        replace (0 / 6) with 0 by lra.
        rewrite Rpower_O by exact Hg.
        replace (-1000 * fullPeriodProduct 0 (fun _ => 1 / 10) (Z.to_nat 1) * 1)
          with (IZR (-105000) / 100)
          by (unfold fullPeriodProduct, prod_list, periodGrowth, compositeRate;
              simpl; lra).
        rewrite round_half_away_cents. f_equal. lra.
      * apply (DATEDIF_m_IZR _ _ 6). vm_compute. reflexivity.
      * lia.
      * apply two_rates_row2.
      * apply Hrates. vm_compute. discriminate.
      * intros i _. exact Hg.
Qed.

Lemma ln_lower_bound (x : R) : 0 < x -> 1 - / x <= ln x.
Proof.
  intros Hx. pose proof (exp_ineq1_le (- ln x)) as H.
  rewrite exp_Ropp, exp_ln in H by assumption. lra.
Qed.

Lemma Rpower_lower_bound (x y : R) :
  0 < x -> 0 <= y -> 1 + y * (1 - / x) <= Rpower x y.
Proof.
  intros Hx Hy. unfold Rpower.
  pose proof (exp_ineq1_le (y * ln x)) as H.
  pose proof (ln_lower_bound x Hx) as Hl.
  assert (y * (1 - / x) <= y * ln x) by now apply Rmult_le_compat_l.
  lra.
Qed.

(** C7 (the code at the failing input): a 1000.00 bond at fixed rate 0,
    issued 2024-05-01, against a 20% variable rate followed by 0% (both
    composite rates >= 0).  In the schedule's Value column month 5 shows
    more than 1150.00 and month 6 shows 1100.00: the value drops where
    the period ends. *)
Theorem C7_schedule_value_drops :
  let rates := two_rates (2 / 10) 0 in
  let b := bond (date 2024 5 1) (Num 1000) (Num 0) 12 in
  let view := BondSchedule.build_bond_schedule rates [b] (Str "B-0001") in
  0 <= compositeRate 0 (2 / 10)
  /\ 0 <= compositeRate 0 0
  /\ exists x5 : R,
       nth 5 (BondSchedule.rows (BondSchedule.Value view)) Blank = Num x5
       /\ nth 6 (BondSchedule.rows (BondSchedule.Value view)) Blank = Num 1100
       /\ 1150 <= x5
       /\ 1100 < x5.
Proof.
  cbv zeta.
  split; [unfold compositeRate; lra|]. split; [unfold compositeRate; lra|].
  set (v := fun i : nat => match i with O => 2 / 10 | S _ => 0 end).
  assert (Hg0 : periodGrowth 0 (v 0%nat) = 11 / 10)
    by (unfold periodGrowth, compositeRate; simpl; lra).
  assert (Hg1 : periodGrowth 0 (v 1%nat) = 1)
    by (unfold periodGrowth, compositeRate; simpl; lra).
  assert (HE : BondSchedule.Value
                 (BondSchedule.build_bond_schedule (two_rates (2 / 10) 0)
                    [bond (date 2024 5 1) (Num 1000) (Num 0) 12]
                    (Str "B-0001"))
               = Array (map (fun i =>
                   Num (round_half_away
                          (1000 * (fullPeriodProduct 0 v (Z.to_nat (Z.of_nat i / 6))
                                   * periodGrowth 0 (v (Z.to_nat (Z.of_nat i / 6))))
                           * Rpower (periodGrowth 0 (v (Z.to_nat (Z.of_nat i / 6))))
                                    (IZR (Z.of_nat i mod 6) / 6))
                          2))
                  (offsets 12))).
  { unfold BondSchedule.build_bond_schedule. cbn [BondSchedule.Value].
    change (BondSchedule.B3 _ _) with (Num (IZR (date 2024 5 1))).
    change (BondSchedule.B4 _ _) with (Num 1000).
    change (BondSchedule.B5 _ _) with (Num 0).
    change (BondSchedule.B6 _ _) with (Num (IZR 12)).
    apply (E9_rows_accrual _ _ _ _ 12 2 v).
    - lia.
    - apply two_rates_row2.
    - intros i Hi. change (12 / 6)%Z with 2%Z in Hi.
      destruct i as [|[|[|i]]]; try reflexivity. lia.
    - intros i _. destruct i as [|i]; unfold periodGrowth, compositeRate;
        simpl; lra. }
  rewrite HE. cbn [BondSchedule.rows]. unfold offsets.
  rewrite !nth_map_seq by (vm_compute; lia).
  change (Z.of_nat 5 / 6)%Z with 0%Z. change (Z.of_nat 5 mod 6)%Z with 5%Z.
  change (Z.of_nat 6 / 6)%Z with 1%Z. change (Z.of_nat 6 mod 6)%Z with 0%Z.
  change (Z.to_nat 0) with 0%nat. change (Z.to_nat 1) with 1%nat.
  rewrite Hg0, Hg1.
  assert (HP0 : fullPeriodProduct 0 v 0 = 1) by reflexivity.
  assert (HP1 : fullPeriodProduct 0 v 1 = 11 / 10).
  { rewrite fullPeriodProduct_S, HP0, Hg0. lra. }
  rewrite HP0, HP1.
  eexists. split; [reflexivity|].
  assert (H6 : round_half_away (1000 * (11 / 10 * 1) * Rpower 1 (0 / 6)) 2 = 1100).
  { replace (0 / 6) with 0 by lra. rewrite Rpower_O by lra.
    replace (1000 * (11 / 10 * 1) * 1) with (IZR 110000 / 100) by lra.
    rewrite round_half_away_cents. lra. }
  assert (H5 : 1150 <= round_half_away
                         (1000 * (1 * (11 / 10)) * Rpower (11 / 10) (5 / 6)) 2).
  { replace 1150 with (round_half_away (IZR 115000 / 100) 2)
      by (rewrite round_half_away_cents; lra).
    apply round_half_away_mono.
    pose proof (Rpower_lower_bound (11 / 10) (5 / 6) ltac:(lra) ltac:(lra)) as Hp.
    replace (/ (11 / 10)) with (10 / 11) in Hp by (field_simplify; lra).
    lra. }
  split; [now rewrite H6|]. split; [exact H5 | lra].
Qed.

(* ================================================================== *)
(** ** C8: the rows of the schedule *)

Section MonthsOn.
Local Open Scope Z_scope.

(** [edate] succeeds on every date whose target stays in the calendar,
    and returns that serial. *)
Lemma edate_months_on (d : Z) (k : nat) :
  1 <= d <= max_serial ->
  months_on d k <= max_serial ->
  edate d (Z.of_nat k) = inr (months_on d k).
Proof.
  intros Hd Ht. unfold months_on in *. cbv zeta in *.
  destruct (month_day_spec d ltac:(lia)) as [Hm Hday].
  unfold edate, valid_serial.
  destruct (Z.leb_spec 0 d); [|lia]. destruct (Z.leb_spec d max_serial); [|lia].
  cbn [andb negb]. rewrite (surjective_pairing (month_day d)).
  set (n := fst (month_day d)) in *. set (dd := snd (month_day d)) in *.
  destruct (Z.ltb_spec (Z.of_nat n + Z.of_nat k) 0); [lia|].
  replace (Z.to_nat (Z.of_nat n + Z.of_nat k)) with (n + k)%nat by lia.
  replace (Z.of_nat n + Z.of_nat k) with (Z.of_nat (n + k)) by lia.
  pose proof (days_in_month_bounds (Z.of_nat (n + k))) as Hb.
  pose proof (month_start_pos (n + k)) as Hp.
  destruct (Z.leb_spec 0 (month_start (n + k)
                          + Z.min dd (days_in_month (Z.of_nat (n + k))) - 1));
    [|lia].
  destruct (Z.leb_spec (month_start (n + k)
                        + Z.min dd (days_in_month (Z.of_nat (n + k))) - 1)
                       max_serial); [|lia].
  reflexivity.
Qed.

(** That serial lies in the month [k] months on, on the day of [d] or on
    that month's last day. *)
Lemma month_day_months_on (d : Z) (k : nat) :
  1 <= d ->
  month_day (months_on d k)
  = ((fst (month_day d) + k)%nat,
     Z.min (snd (month_day d))
           (days_in_month (Z.of_nat (fst (month_day d) + k)))).
Proof.
  intros Hd. unfold months_on. cbv zeta.
  destruct (month_day_spec d Hd) as [Hm Hday].
  set (n := fst (month_day d)) in *. set (dd := snd (month_day d)) in *.
  pose proof (days_in_month_bounds (Z.of_nat (n + k))) as Hb.
  rewrite (month_day_unique _ (n + k)%nat).
  - f_equal. lia.
  - rewrite month_start_S. lia.
Qed.

End MonthsOn.

(** C8: for a resolved bond (the IssueDate cell is not blank) with
    monthsToProject = n >= 0, the MonthIndex column holds exactly the
    n + 1 values 0, 1, ..., n in that order, and the Month column holds,
    row for row, EDATE of the issue date by that many months.  For a
    dated bond, row i of Month is the serial of the day i months after
    the issue date: in the i-th month after the issue month, on the
    issue day of the month, or on that month's last day when it is
    shorter (as long as that day is not past 9999-12-31). *)
Theorem C8_schedule_rows rates inv B1 (n : Z) :
  let view := BondSchedule.build_bond_schedule rates inv B1 in
  eq_op (BondSchedule.IssueDate_cell view) empty_text = Bool false ->
  BondSchedule.MonthsToProject_cell view = Num (IZR n) ->
  (0 <= n)%Z ->
  BondSchedule.rows (BondSchedule.MonthIndex view)
  = map (fun i => Num (IZR (Z.of_nat i))) (seq 0 (Z.to_nat n + 1))
  /\ List.length (BondSchedule.rows (BondSchedule.MonthIndex view))
     = (Z.to_nat n + 1)%nat
  /\ BondSchedule.rows (BondSchedule.Month view)
     = map (fun i => EDATE (BondSchedule.IssueDate_cell view)
                           (Num (IZR (Z.of_nat i))))
           (seq 0 (Z.to_nat n + 1))
  /\ (forall (d : Z) (i : nat),
        BondSchedule.IssueDate_cell view = Num (IZR d) ->
        (1 <= d <= max_serial)%Z -> (Z.of_nat i <= n)%Z ->
        (months_on d i <= max_serial)%Z ->
        nth i (BondSchedule.rows (BondSchedule.Month view)) Blank
        = Num (IZR (months_on d i))
        /\ month_day (months_on d i)
           = ((fst (month_day d) + i)%nat,
              Z.min (snd (month_day d))
                    (days_in_month (Z.of_nat (fst (month_day d) + i))))).
Proof.
  cbv zeta. unfold BondSchedule.build_bond_schedule.
  cbn [BondSchedule.IssueDate_cell BondSchedule.MonthsToProject_cell
       BondSchedule.MonthIndex BondSchedule.Month].
  intros Hb3 Hb6 Hn. rewrite Hb6.
  rewrite B9_offsets, A9_offsets by assumption.
  cbn [BondSchedule.rows]. unfold offsets.
  replace (Z.to_nat (n + 1)) with (Z.to_nat n + 1)%nat by lia.
  split; [reflexivity|]. split; [now rewrite length_map, length_seq|].
  split; [reflexivity|].
  intros d i Hd Hd1 Hi Ht. split.
  - rewrite nth_map_seq by lia. rewrite Hd.
    apply EDATE_IZR. now apply edate_months_on.
  - apply month_day_months_on. lia.
Qed.

(** C8 witness: the generated workbook with its example bond selected
    (issued 2024-01-15, 120 months to project): 121 rows; row 3 of
    Month is 2024-04-15 and row 13 is 2025-02-15. *)
Lemma C8_schedule_rows_witness :
  let view := BondSchedule.build_bond_schedule Rates.build_rates
                Inventory.build_inventory (Str "EX-0001") in
  BondSchedule.rows (BondSchedule.MonthIndex view)
  = map (fun i => Num (IZR (Z.of_nat i))) (seq 0 (Z.to_nat 120 + 1))
  /\ List.length (BondSchedule.rows (BondSchedule.MonthIndex view))
     = (Z.to_nat 120 + 1)%nat
  /\ nth 3 (BondSchedule.rows (BondSchedule.Month view)) Blank
     = Num (IZR (date 2024 4 15))
  /\ nth 13 (BondSchedule.rows (BondSchedule.Month view)) Blank
     = Num (IZR (date 2025 2 15)).
Proof.
  cbv zeta.
  pose proof (C8_schedule_rows Rates.build_rates Inventory.build_inventory
                (Str "EX-0001") 120 eq_refl eq_refl ltac:(lia)) as H.
  cbv zeta in H. destruct H as (H1 & H2 & _ & H4).
  split; [exact H1|]. split; [exact H2|].
  assert (Hd : (1 <= date 2024 1 15 <= max_serial)%Z)
    by (vm_compute; split; discriminate).
  assert (E3 : date 2024 4 15 = months_on (date 2024 1 15) 3)
    by (vm_compute; reflexivity).
  assert (E13 : date 2025 2 15 = months_on (date 2024 1 15) 13)
    by (vm_compute; reflexivity).
  split.
  - rewrite E3.
    apply (H4 (date 2024 1 15) 3%nat eq_refl Hd); [lia|].
    vm_compute. discriminate.
  - rewrite E13.
    apply (H4 (date 2024 1 15) 13%nat eq_refl Hd); [lia|].
    vm_compute. discriminate.
Defined.

(* ================================================================== *)
(** ** C9: a selection that matches no bond *)

Lemma xlookup_first_none (k : value) (keys vals : list value) :
  Forall (fun c => same_key k c = false) keys ->
  xlookup_first k keys vals = None.
Proof.
  intros H. revert vals.
  induction H as [|c keys Hc _ IH]; intros vals; [reflexivity|].
  destruct vals as [|v vals]; [reflexivity|].
  cbn [xlookup_first]. rewrite Hc. apply IH.
Qed.

Lemma XLOOKUP_no_match (k alt : value) (keys vals : list value) :
  Forall (fun c => same_key k c = false) keys ->
  IFERROR (XLOOKUP k keys vals) alt = alt.
Proof.
  intros H. unfold XLOOKUP. rewrite xlookup_first_none by assumption.
  now destruct k.
Qed.

(** C9: when the selected bondID matches none of the 100 BondID cells,
    the IssueDate, PurchaseAmount and FixedRate cells are the empty text,
    MonthsToProject is 0, and each of the five schedule columns is the
    single empty text: no row is produced. *)
Theorem C9_unknown_bond rates inv B1 :
  Forall (fun c => same_key B1 c = false)
         (Inventory.range Inventory.BondID inv) ->
  let view := BondSchedule.build_bond_schedule rates inv B1 in
  BondSchedule.IssueDate_cell view = empty_text
  /\ BondSchedule.PurchaseAmount_cell view = empty_text
  /\ BondSchedule.FixedRate_cell view = empty_text
  /\ BondSchedule.MonthsToProject_cell view = Num 0
  /\ BondSchedule.Month view = Scalar empty_text
  /\ BondSchedule.MonthIndex view = Scalar empty_text
  /\ BondSchedule.VariableRate view = Scalar empty_text
  /\ BondSchedule.CompositeRate view = Scalar empty_text
  /\ BondSchedule.Value view = Scalar empty_text
  /\ BondSchedule.rows (BondSchedule.Month view) = []
  /\ BondSchedule.rows (BondSchedule.MonthIndex view) = []
  /\ BondSchedule.rows (BondSchedule.VariableRate view) = []
  /\ BondSchedule.rows (BondSchedule.CompositeRate view) = []
  /\ BondSchedule.rows (BondSchedule.Value view) = [].
Proof.
  intros Hno. cbv zeta. unfold BondSchedule.build_bond_schedule.
  cbn [BondSchedule.IssueDate_cell BondSchedule.PurchaseAmount_cell
       BondSchedule.FixedRate_cell BondSchedule.MonthsToProject_cell
       BondSchedule.Month BondSchedule.MonthIndex BondSchedule.VariableRate
       BondSchedule.CompositeRate BondSchedule.Value].
  unfold BondSchedule.B3, BondSchedule.B4, BondSchedule.B5, BondSchedule.B6.
  rewrite !XLOOKUP_no_match by assumption.
  repeat split.
Qed.

(** C9 witness: the generated workbook, with an identifier that is not
    in its Inventory. *)
Lemma C9_unknown_bond_witness :
  let view := BondSchedule.build_bond_schedule Rates.build_rates
                Inventory.build_inventory (Str "ZZ-9999") in
  BondSchedule.IssueDate_cell view = empty_text
  /\ BondSchedule.MonthsToProject_cell view = Num 0
  /\ BondSchedule.rows (BondSchedule.Value view) = [].
Proof.
  cbv zeta.
  assert (Hno : Forall (fun c => same_key (Str "ZZ-9999") c = false)
                       (Inventory.range Inventory.BondID
                          Inventory.build_inventory)).
  { apply Forall_forall. intros c Hc.
    unfold Inventory.range, Inventory.build_inventory in Hc.
    cbn [firstn map List.length Inventory.BondID Inventory.example_row app]
      in Hc.
    destruct Hc as [<-|Hc]; [reflexivity|].
    apply repeat_spec in Hc. now subst c. }
  pose proof (C9_unknown_bond Rates.build_rates Inventory.build_inventory
                (Str "ZZ-9999") Hno) as H.
  cbv zeta in H.
  destruct H as (H1 & _ & _ & H4 & _ & _ & _ & _ & _ & _ & _ & _ & _ & H14).
  split; [exact H1 | split; [exact H4 | exact H14]].
Defined.

(* ================================================================== *)
(** ** Further properties of the formulas *)

(** X1: on numeric inputs, with a rate row found for the issue date,
    numeric or empty rate cells and positive growth factors, column H is
    the accrual model: P times the growth factors of the k = m div 6 full
    periods times the current factor to the power (m mod 6)/6, rounded
    to cents. *)
Theorem X1_inventory_accrual rates today r issue p f m s v :
  Inventory.IssueDate r = Num issue ->
  Inventory.PurchaseAmount r = Num p ->
  Inventory.FixedRate r = Num f ->
  DATEDIF_m (Num issue) (TODAY today) = Num (IZR m) ->
  (0 <= m)%Z ->
  MATCH (Num issue) (Rates.A rates) = Num (IZR s) ->
  (forall i : nat, (Z.of_nat i <= m / 6)%Z ->
     as_number (cell (Rates.B rates) (s + Z.of_nat i)) = inr (v i)) ->
  (forall i : nat, (Z.of_nat i <= m / 6)%Z -> 0 < periodGrowth f (v i)) ->
  Inventory.CurrentValue rates today r
  = Num (round_half_away
           (p * fullPeriodProduct f v (Z.to_nat (m / 6))
            * Rpower (periodGrowth f (v (Z.to_nat (m / 6)))) (IZR (m mod 6) / 6))
           2).
Proof. exact (CurrentValue_accrual rates today r issue p f m s v). Qed.

(** X1 witness: seven months held at 4%. *)
Lemma X1_inventory_accrual_witness :
  Inventory.CurrentValue (two_rates (4 / 100) (4 / 100)) (date 2024 12 10)
    (bond (date 2024 5 1) (Num 1000) (Num (9 / 1000)) 12)
  = Num (round_half_away
           (1000 * fullPeriodProduct (9 / 1000) (fun _ => 4 / 100)
                     (Z.to_nat (7 / 6))
            * Rpower (periodGrowth (9 / 1000) (4 / 100)) (IZR (7 mod 6) / 6))
           2).
Proof.
  apply (X1_inventory_accrual (two_rates (4 / 100) (4 / 100)) (date 2024 12 10)
           (bond (date 2024 5 1) (Num 1000) (Num (9 / 1000)) 12)
           (IZR (date 2024 5 1)) 1000 (9 / 1000) 7 2 (fun _ => 4 / 100)).
  - reflexivity.
  - reflexivity.
  - reflexivity.
  - apply (DATEDIF_m_IZR _ _ 7). vm_compute. reflexivity.
  - lia.
  - apply two_rates_row2.
  - intros i Hi. change (7 / 6)%Z with 1%Z in Hi.
    destruct i as [|[|i]]; [reflexivity | reflexivity | lia].
  - intros i _. unfold periodGrowth, compositeRate. lra.
Defined.

(** X2: on the same kind of inputs, row m of the schedule's Value column
    is P times the growth factors of periods 0 .. m div 6, the current
    period included, times the current factor to the power (m mod 6)/6,
    rounded to cents. *)
Theorem X2_schedule_value_rows (rates : Rates.sheet) (issue p f : R) (n s : Z)
  (v : nat -> R) :
  (0 <= n)%Z ->
  MATCH (Num issue) (Rates.A rates) = Num (IZR s) ->
  (forall i : nat, (Z.of_nat i <= n / 6)%Z ->
     as_number (cell (Rates.B rates) (s + Z.of_nat i)) = inr (v i)) ->
  (forall i : nat, (Z.of_nat i <= n / 6)%Z -> 0 < periodGrowth f (v i)) ->
  BondSchedule.E9 rates (Num issue) (Num p) (Num f) (Num (IZR n))
  = Array (map (fun i =>
             Num (round_half_away
                    (p * (fullPeriodProduct f v (Z.to_nat (Z.of_nat i / 6))
                          * periodGrowth f (v (Z.to_nat (Z.of_nat i / 6))))
                     * Rpower (periodGrowth f (v (Z.to_nat (Z.of_nat i / 6))))
                              (IZR (Z.of_nat i mod 6) / 6))
                    2))
            (offsets n)).
Proof. exact (E9_rows_accrual rates issue p f n s v). Qed.

(** X2 witness: twelve months projected against the shipped rate rows. *)
Lemma X2_schedule_value_rows_witness :
  BondSchedule.E9 Rates.build_rates (Num (IZR (date 2024 5 1))) (Num 1000)
    (Num (9 / 1000)) (Num (IZR 12))
  = Array (map (fun i =>
             Num (round_half_away
                    (1000 * (fullPeriodProduct (9 / 1000) (fun _ => 0)
                               (Z.to_nat (Z.of_nat i / 6))
                             * periodGrowth (9 / 1000) 0)
                     * Rpower (periodGrowth (9 / 1000) 0)
                              (IZR (Z.of_nat i mod 6) / 6))
                    2))
            (offsets 12)).
Proof.
  apply (X2_schedule_value_rows Rates.build_rates (IZR (date 2024 5 1)) 1000
           (9 / 1000) 12 2 (fun _ => 0)).
  - lia.
  - apply shipped_rates_row2.
  - intros i Hi. change (12 / 6)%Z with 2%Z in Hi.
    destruct i as [|[|[|i]]]; try reflexivity. lia.
  - intros i _. unfold periodGrowth, compositeRate. lra.
Defined.

Lemma add_not_blank (a b : value) : formula_value (a + b)%xl = (a + b)%xl.
Proof.
  unfold add, num2. destruct (as_number a); [reflexivity|].
  now destruct (as_number b).
Qed.

Lemma as_number_formula_value (c : value) :
  as_number (formula_value c) = as_number c.
Proof. now destruct c. Qed.

(** Column D row by row, from the cells column C shows. *)
Lemma D9_rows (rates : Rates.sheet) (issue : R) (b5 : value) (n s : Z) :
  (0 <= n)%Z ->
  MATCH (Num issue) (Rates.A rates) = Num (IZR s) ->
  BondSchedule.D9 rates (Num issue) b5 (Num (IZR n))
  = Array (map (fun i =>
                  let var := formula_value
                               (cell (Rates.B rates) (s + Z.of_nat i / 6)) in
                  (b5 + var + b5 * var)%xl)
               (offsets n)).
Proof.
  intros Hn Hs. unfold BondSchedule.D9. rewrite eq_op_Num_empty.
  cbv beta iota delta [IF_arr as_bool]. cbv zeta.
  rewrite (C9_rows rates issue n s) by assumption.
  rewrite lift2_scalar_map, lift2_scalar_map, lift2_map_map.
  unfold BondSchedule.spill. rewrite lift1_map.
  f_equal. apply map_ext. intros i. apply add_not_blank.
Qed.

(** X3: for a dated bond with a numeric fixed rate f, a rate row found
    and numeric or empty rate cells, row m of the CompositeRate column
    is f + v + f v for the rate v of period m div 6. *)
Theorem X3_composite_rate_rows (rates : Rates.sheet) (issue f : R) (n s : Z)
  (v : nat -> R) :
  (0 <= n)%Z ->
  MATCH (Num issue) (Rates.A rates) = Num (IZR s) ->
  (forall i : nat, (Z.of_nat i <= n / 6)%Z ->
     as_number (cell (Rates.B rates) (s + Z.of_nat i)) = inr (v i)) ->
  BondSchedule.D9 rates (Num issue) (Num f) (Num (IZR n))
  = Array (map (fun i => Num (compositeRate f (v (Z.to_nat (Z.of_nat i / 6)))))
               (offsets n)).
Proof.
  intros Hn Hs Hv. rewrite (D9_rows rates issue (Num f) n s) by assumption.
  f_equal. apply map_ext_in. intros i Hi. apply in_seq in Hi.
  unfold offsets in Hi. cbv zeta.
  assert (Hi6 : (0 <= Z.of_nat i / 6 <= n / 6)%Z).
  { split; [apply Z.div_pos; lia | apply Z.div_le_mono; lia]. }
  specialize (Hv (Z.to_nat (Z.of_nat i / 6)) ltac:(lia)).
  rewrite Z2Nat.id in Hv by lia.
  unfold add, mul, num2. cbn [as_number].
  rewrite as_number_formula_value, Hv. reflexivity.
Qed.

(** X3 witness: the shipped rate rows, all 0: the composite rate is the
    fixed rate plus nothing. *)
Lemma X3_composite_rate_rows_witness :
  BondSchedule.D9 Rates.build_rates (Num (IZR (date 2024 5 1)))
    (Num (9 / 1000)) (Num (IZR 12))
  = Array (map (fun i => Num (compositeRate (9 / 1000) 0)) (offsets 12)).
Proof.
  apply (X3_composite_rate_rows Rates.build_rates (IZR (date 2024 5 1))
           (9 / 1000) 12 2 (fun _ => 0)).
  - lia.
  - apply shipped_rates_row2.
  - intros i Hi. change (12 / 6)%Z with 2%Z in Hi.
    destruct i as [|[|[|i]]]; try reflexivity. lia.
Defined.

Lemma cell_below_column (col : column) (row : Z) :
  (Z.of_nat (List.length col) < row)%Z -> cell col row = Blank.
Proof.
  intros H. unfold cell. apply nth_overflow. lia.
Qed.

(** X4: once the projection reaches a period whose row lies below the
    last cell of the VariableRate column, the schedule shows a variable
    rate of 0 and a composite rate equal to the fixed rate: the formulas
    read the empty cell as 0 and raise nothing. *)
Theorem X4_rates_run_out (rates : Rates.sheet) (issue f : R) (n s m : Z) :
  (0 <= m <= n)%Z ->
  MATCH (Num issue) (Rates.A rates) = Num (IZR s) ->
  (Z.of_nat (List.length (Rates.B rates)) < s + m / 6)%Z ->
  nth (Z.to_nat m)
      (BondSchedule.rows (BondSchedule.C9 rates (Num issue) (Num (IZR n))))
      Blank
  = Num 0
  /\ nth (Z.to_nat m)
         (BondSchedule.rows
            (BondSchedule.D9 rates (Num issue) (Num f) (Num (IZR n))))
         Blank
     = Num f.
Proof.
  intros Hm Hs Hlen.
  rewrite (C9_rows rates issue n s), (D9_rows rates issue (Num f) n s)
    by (assumption || lia).
  cbn [BondSchedule.rows]. unfold offsets.
  rewrite !nth_map_seq by lia. cbv zeta.
  rewrite Z2Nat.id by lia.
  rewrite cell_below_column by assumption.
  split; [reflexivity|].
  unfold add, mul, num2. simpl. f_equal. lra.
Qed.

(** X4 witness: the shipped table has three rate rows (sheet rows 2 to
    4); month 18 of a bond issued 2024-05-01 falls in the fourth period. *)
Lemma X4_rates_run_out_witness :
  nth (Z.to_nat 18)
      (BondSchedule.rows
         (BondSchedule.C9 Rates.build_rates (Num (IZR (date 2024 5 1)))
            (Num (IZR 24))))
      Blank
  = Num 0
  /\ nth (Z.to_nat 18)
         (BondSchedule.rows
            (BondSchedule.D9 Rates.build_rates (Num (IZR (date 2024 5 1)))
               (Num (9 / 1000)) (Num (IZR 24))))
         Blank
     = Num (9 / 1000).
Proof.
  apply (X4_rates_run_out Rates.build_rates (IZR (date 2024 5 1)) (9 / 1000)
           24 2 18).
  - lia.
  - apply shipped_rates_row2.
  - vm_compute. reflexivity.
Defined.

(* ================================================================== *)
(** ** The schedule is rectangular *)

Lemma zip_pad_length (f : value -> value -> value) (l1 l2 : list value) :
  List.length (zip_pad f l1 l2) = Nat.max (List.length l1) (List.length l2).
Proof.
  revert l2. induction l1 as [|x l1 IH]; intros l2.
  - simpl. now rewrite length_map.
  - destruct l2 as [|y l2]; simpl.
    + now rewrite length_map.
    + now rewrite IH.
Qed.

Lemma height_lift1 (f : value -> value) (a : result) (n : nat) :
  height a n -> height (lift1 f a) n.
Proof.
  intros (l & -> & Hl). exists (map f l). split; [reflexivity|].
  now rewrite length_map.
Qed.

Lemma height_lift2_left (f : value -> value -> value) (x : value)
  (b : result) (n : nat) :
  height b n -> height (lift2 f (Scalar x) b) n.
Proof.
  intros (l & -> & Hl). exists (map (f x) l). split; [reflexivity|].
  now rewrite length_map.
Qed.

Lemma height_lift2_right (f : value -> value -> value) (a : result)
  (y : value) (n : nat) :
  height a n -> height (lift2 f a (Scalar y)) n.
Proof.
  intros (l & -> & Hl). exists (map (fun x => f x y) l).
  split; [reflexivity|]. now rewrite length_map.
Qed.

Lemma height_lift2 (f : value -> value -> value) (a b : result) (n : nat) :
  height a n -> height b n -> height (lift2 f a b) n.
Proof.
  intros (l1 & -> & H1) (l2 & -> & H2).
  destruct l1 as [|x [|x' l1]]; destruct l2 as [|y [|y' l2]];
    cbn [lift2]; eexists; (split; [reflexivity|]);
    rewrite ?length_map, ?zip_pad_length; simpl in *; lia.
Qed.

Lemma height_SEQUENCE (k : Z) (start step : R) :
  (0 < k)%Z ->
  height (SEQUENCE (Num (IZR k)) (Num start) (Num step)) (Z.to_nat k).
Proof.
  intros Hk. unfold SEQUENCE. rewrite as_integer_IZR.
  destruct (Z.ltb_spec k 0); [lia|]. destruct (Z.eqb_spec k 0); [lia|].
  cbn [as_number]. eexists. split; [reflexivity|].
  now rewrite length_map, length_seq.
Qed.

Lemma scan_from_length (f : value -> value -> value) (l : list value) :
  forall acc, List.length (scan_from f acc l) = List.length l.
Proof.
  induction l as [|x l IH]; intros acc; simpl; [reflexivity|].
  now rewrite IH.
Qed.

Lemma height_SCAN (init : value) (a : result)
  (f : value -> value -> value) (n : nat) :
  height a n -> height (SCAN init a f) n.
Proof.
  intros (l & -> & Hl). exists (scan_from f init l).
  split; [reflexivity|]. now rewrite scan_from_length.
Qed.

Lemma height_rows (a : result) (n : nat) :
  height a n -> List.length (BondSchedule.rows a) = n.
Proof. now intros (l & -> & Hl). Qed.

Lemma height_B9 (b3 : value) (n : Z) :
  eq_op b3 empty_text = Bool false -> (0 <= n)%Z ->
  height (BondSchedule.B9 b3 (Num (IZR n))) (Z.to_nat n + 1).
Proof.
  intros Hb Hn. rewrite B9_offsets by assumption.
  eexists. split; [reflexivity|].
  rewrite length_map. unfold offsets. rewrite length_seq. lia.
Qed.

(** X5: for a resolved bond and a whole monthsToProject = n >= 0, the
    five schedule columns all spill exactly n + 1 rows, whatever the
    purchase amount and fixed rate cells hold, whatever the Rates sheet
    holds, and whether or not the rate lookup succeeds: the table is
    always rectangular. *)
Theorem X5_schedule_is_rectangular (rates : Rates.sheet) (b3 b4 b5 : value)
  (n : Z) :
  eq_op b3 empty_text = Bool false ->
  (0 <= n)%Z ->
  let rows_of a := List.length (BondSchedule.rows a) in
  rows_of (BondSchedule.A9 b3 (Num (IZR n))) = (Z.to_nat n + 1)%nat
  /\ rows_of (BondSchedule.B9 b3 (Num (IZR n))) = (Z.to_nat n + 1)%nat
  /\ rows_of (BondSchedule.C9 rates b3 (Num (IZR n))) = (Z.to_nat n + 1)%nat
  /\ rows_of (BondSchedule.D9 rates b3 b5 (Num (IZR n))) = (Z.to_nat n + 1)%nat
  /\ rows_of (BondSchedule.E9 rates b3 b4 b5 (Num (IZR n)))
     = (Z.to_nat n + 1)%nat.
Proof.
  intros Hb Hn. cbv zeta.
  pose proof (height_B9 b3 n Hb Hn) as HB.
  assert (HC : height (BondSchedule.C9 rates b3 (Num (IZR n)))
                      (Z.to_nat n + 1)).
  { unfold BondSchedule.C9. rewrite Hb.
    cbv beta iota delta [IF_arr as_bool]. cbv zeta.
    apply height_lift1, height_lift1, height_lift2_left, height_lift1,
      height_lift2_right, HB. }
  repeat split; apply height_rows.
  - rewrite A9_offsets by assumption. eexists. split; [reflexivity|].
    rewrite length_map. unfold offsets. rewrite length_seq. lia.
  - exact HB.
  - exact HC.
  - unfold BondSchedule.D9. rewrite Hb.
    cbv beta iota delta [IF_arr as_bool]. cbv zeta.
    apply height_lift1, height_lift2.
    + apply height_lift2_left, HC.
    + apply height_lift2_left, HC.
  - unfold BondSchedule.E9. rewrite Hb.
    cbv beta iota delta [IF_arr as_bool]. cbv zeta.
    apply height_lift1, height_lift1, height_lift2.
    + apply height_lift2_left, height_lift1, height_lift2_right,
        height_lift1, height_lift2_right, HB.
    + apply height_lift2.
      * apply height_lift1, height_lift2_right, height_lift1,
          height_lift2_right, HB.
      * apply height_lift2_right, height_lift2_right, HB.
Qed.

(** X5 witness: a text issue date and text amounts still give 13 rows in
    every column. *)
Lemma X5_schedule_is_rectangular_witness :
  List.length (BondSchedule.rows
                 (BondSchedule.E9 Rates.build_rates (Str "soon") (Str "much")
                    (Str "high") (Num (IZR 12))))
  = (Z.to_nat 12 + 1)%nat.
Proof.
  pose proof (X5_schedule_is_rectangular Rates.build_rates (Str "soon")
                (Str "much") (Str "high") 12 eq_refl ltac:(lia)) as H.
  cbv zeta in H. exact (proj2 (proj2 (proj2 (proj2 H)))).
Defined.

(* ================================================================== *)
(** ** What the Inventory columns can show *)

Lemma IFERROR_ROUND_kind (v : value) :
  (exists x : R, IFERROR (ROUND v 2) empty_text = Num x)
  \/ IFERROR (ROUND v 2) empty_text = empty_text.
Proof.
  unfold ROUND, num1. destruct (as_number v); [right | left; eexists];
    reflexivity.
Qed.

(** X6: whatever the Rates sheet, the day and the other cells hold, as
    long as the issueDate, purchaseAmount and fixedRate cells hold no
    error value, CurrentValue is a number or the empty text: never an
    error code. *)
Theorem X6_current_value_number_or_empty rates today r :
  is_error (Inventory.IssueDate r) = false ->
  is_error (Inventory.PurchaseAmount r) = false ->
  is_error (Inventory.FixedRate r) = false ->
  (exists x : R, Inventory.CurrentValue rates today r = Num x)
  \/ Inventory.CurrentValue rates today r = empty_text.
Proof.
  intros HC HD HE. unfold Inventory.CurrentValue.
  rewrite !eq_op_empty by assumption. cbv zeta.
  unfold OR. cbn [OR_from as_bool]. cbn [orb].
  destruct (is_blank (Inventory.IssueDate r)
            || is_blank (Inventory.PurchaseAmount r)
            || is_blank (Inventory.FixedRate r)).
  - right. reflexivity.
  - cbv beta iota delta [IF as_bool].
    rewrite formula_value_IFERROR_ROUND. apply IFERROR_ROUND_kind.
Qed.

(** X6 witness: a text issue date. *)
Lemma X6_current_value_number_or_empty_witness :
  (exists x : R,
     Inventory.CurrentValue Rates.build_rates (date 2024 7 20)
       {| Inventory.BondID := Str "T"; Inventory.Owner := Blank;
          Inventory.IssueDate := Str "May"; Inventory.PurchaseAmount := Num 50;
          Inventory.FixedRate := Num 0; Inventory.MonthsToProject := Blank |}
     = Num x)
  \/ Inventory.CurrentValue Rates.build_rates (date 2024 7 20)
       {| Inventory.BondID := Str "T"; Inventory.Owner := Blank;
          Inventory.IssueDate := Str "May"; Inventory.PurchaseAmount := Num 50;
          Inventory.FixedRate := Num 0; Inventory.MonthsToProject := Blank |}
     = empty_text.
Proof.
  apply (X6_current_value_number_or_empty Rates.build_rates (date 2024 7 20));
    reflexivity.
Defined.


(** X7: whatever the issueDate cell holds, MonthsHeld is the empty text
    or a whole number of months that is not negative: never an error
    code, never a fraction. *)
Theorem X7_months_held_whole_or_empty (today : Z) (r : Inventory.row) :
  Inventory.MonthsHeld today r = empty_text
  \/ exists m : Z, (0 <= m)%Z /\ Inventory.MonthsHeld today r = Num (IZR m).
Proof.
  unfold Inventory.MonthsHeld, DATEDIF_m.
  destruct (as_integer (Inventory.IssueDate r)) as [e|s]; [now left|].
  destruct (as_integer (TODAY today)) as [e|t]; [now left|].
  destruct (datedif_m s t) as [e|m] eqn:Hm; [now left|].
  right. exists m. split; [|reflexivity].
  now apply (datedif_m_nonneg s t).
Qed.

(* ================================================================== *)
(** ** The lookup cells of BondSchedule *)

Lemma xlookup_first_hit (k : value) :
  forall (keys vals : list value) (j : nat) (c v : value),
    nth_error keys j = Some c ->
    nth_error vals j = Some v ->
    same_key k c = true ->
    (forall i c', (i < j)%nat -> nth_error keys i = Some c' ->
                  same_key k c' = false) ->
    xlookup_first k keys vals = Some v.
Proof.
  induction keys as [|c0 keys IH]; intros vals j c v Hk Hv Hc Hbefore.
  - destruct j; discriminate.
  - destruct vals as [|v0 vals]; [destruct j; discriminate|].
    destruct j as [|j]; cbn [xlookup_first].
    + injection Hk as ->. injection Hv as ->. now rewrite Hc.
    + rewrite (Hbefore 0%nat c0 ltac:(lia) eq_refl).
      apply (IH vals j c v Hk Hv Hc).
      intros i c' Hi Hi'. apply (Hbefore (S i) c'); [lia | exact Hi'].
Qed.

Lemma range_nth_error (f : Inventory.row -> value) (inv : Inventory.sheet)
  (j : nat) (r : Inventory.row) :
  (j < 100)%nat -> nth_error inv j = Some r ->
  nth_error (Inventory.range f inv) j = Some (f r).
Proof.
  intros Hj Hr. unfold Inventory.range.
  assert (Hlen : (j < List.length inv)%nat).
  { apply nth_error_Some. congruence. }
  rewrite nth_error_app1
    by (rewrite length_map, length_firstn; lia).
  rewrite nth_error_map, nth_error_firstn.
  destruct (Nat.ltb_spec j 100); [|lia]. now rewrite Hr.
Qed.

Lemma XLOOKUP_hit (f : Inventory.row -> value) (inv : Inventory.sheet)
  (B1 : value) (j : nat) (r : Inventory.row) :
  (j < 100)%nat ->
  nth_error inv j = Some r ->
  same_key B1 (Inventory.BondID r) = true ->
  (forall i r', (i < j)%nat -> nth_error inv i = Some r' ->
                same_key B1 (Inventory.BondID r') = false) ->
  XLOOKUP B1 (Inventory.range Inventory.BondID inv) (Inventory.range f inv)
  = f r.
Proof.
  intros Hj Hr Hkey Hbefore. unfold XLOOKUP.
  rewrite (xlookup_first_hit B1 _ _ j (Inventory.BondID r) (f r)).
  - destruct B1; try reflexivity. discriminate Hkey.
  - now apply range_nth_error.
  - now apply range_nth_error.
  - exact Hkey.
  - intros i c' Hi Hc'.
    assert (Hlen : (j < List.length inv)%nat).
    { apply nth_error_Some. congruence. }
    destruct (nth_error inv i) as [r'|] eqn:Er'.
    + rewrite (range_nth_error Inventory.BondID inv i r' ltac:(lia) Er') in Hc'.
      injection Hc' as <-. now apply (Hbefore i r').
    + apply nth_error_None in Er'. lia.
Qed.

(** X8: when the selected id equals the BondID of one of the first 100
    Inventory rows and of no row above it, the four lookup cells hold
    that row's IssueDate, PurchaseAmount, FixedRate and MonthsToProject:
    an empty cell comes out as 0, an error value as the empty text (as 0
    for MonthsToProject). *)
Theorem X8_lookup_resolves_first_match (inv : Inventory.sheet) (B1 : value)
  (j : nat) (r : Inventory.row) :
  (j < 100)%nat ->
  nth_error inv j = Some r ->
  same_key B1 (Inventory.BondID r) = true ->
  (forall i r', (i < j)%nat -> nth_error inv i = Some r' ->
                same_key B1 (Inventory.BondID r') = false) ->
  BondSchedule.B3 inv B1
  = formula_value (IFERROR (Inventory.IssueDate r) empty_text)
  /\ BondSchedule.B4 inv B1
     = formula_value (IFERROR (Inventory.PurchaseAmount r) empty_text)
  /\ BondSchedule.B5 inv B1
     = formula_value (IFERROR (Inventory.FixedRate r) empty_text)
  /\ BondSchedule.B6 inv B1
     = formula_value (IFERROR (Inventory.MonthsToProject r) (Num 0)).
Proof.
  intros Hj Hr Hkey Hbefore.
  unfold BondSchedule.B3, BondSchedule.B4, BondSchedule.B5, BondSchedule.B6.
  rewrite !(XLOOKUP_hit _ inv B1 j r Hj Hr Hkey Hbefore).
  repeat split.
Qed.

(** X8 witness: two bonds with the same id; the upper one is resolved. *)
Lemma X8_lookup_resolves_first_match_witness :
  let inv := [Inventory.example_row;
              bond (date 2024 5 1) (Num 500) (Num 0) 6;
              bond (date 2025 5 1) (Num 700) (Num 0) 9] in
  BondSchedule.B3 inv (Str "B-0001") = Num (IZR (date 2024 5 1))
  /\ BondSchedule.B4 inv (Str "B-0001") = Num 500.
Proof.
  cbv zeta.
  pose proof (X8_lookup_resolves_first_match
                [Inventory.example_row;
                 bond (date 2024 5 1) (Num 500) (Num 0) 6;
                 bond (date 2025 5 1) (Num 700) (Num 0) 9]
                (Str "B-0001") 1
                (bond (date 2024 5 1) (Num 500) (Num 0) 6)
                ltac:(lia) eq_refl eq_refl) as H.
  destruct H as (H3 & H4 & _).
  - intros i r' Hi Hr'. destruct i as [|i]; [|lia].
    injection Hr' as <-. reflexivity.
  - split; [exact H3 | exact H4].
Defined.

(** X9: the lookup reads rows 2 to 101 only.  A bond entered below the
    100th data row is not found, even when its id is the selected one:
    the lookup cells resolve as for an unknown id. *)
Theorem X9_rows_below_the_table_are_not_read (inv : Inventory.sheet)
  (B1 : value) :
  (100 <= List.length inv)%nat ->
  Forall (fun r => same_key B1 (Inventory.BondID r) = false) (firstn 100 inv) ->
  BondSchedule.B3 inv B1 = empty_text
  /\ BondSchedule.B4 inv B1 = empty_text
  /\ BondSchedule.B5 inv B1 = empty_text
  /\ BondSchedule.B6 inv B1 = Num 0.
Proof.
  intros Hlen Hno.
  assert (Hkeys : Forall (fun c => same_key B1 c = false)
                         (Inventory.range Inventory.BondID inv)).
  { unfold Inventory.range.
    replace (100 - List.length inv)%nat with 0%nat by lia.
    cbn [repeat]. rewrite app_nil_r. now apply Forall_map. }
  unfold BondSchedule.B3, BondSchedule.B4, BondSchedule.B5, BondSchedule.B6.
  rewrite !XLOOKUP_no_match by assumption.
  repeat split.
Qed.

(** X9 witness: 100 empty rows, then the bond B-0001 in sheet row 102. *)
Lemma X9_rows_below_the_table_are_not_read_witness :
  let inv := repeat Inventory.empty_row 100
             ++ [bond (date 2024 5 1) (Num 500) (Num 0) 6] in
  same_key (Str "B-0001") (Inventory.BondID (nth 100 inv Inventory.empty_row))
  = true
  /\ BondSchedule.B3 inv (Str "B-0001") = empty_text
  /\ BondSchedule.B6 inv (Str "B-0001") = Num 0.
Proof.
  cbv zeta. split; [reflexivity|].
  pose proof (X9_rows_below_the_table_are_not_read
                (repeat Inventory.empty_row 100
                 ++ [bond (date 2024 5 1) (Num 500) (Num 0) 6])
                (Str "B-0001")) as H.
  destruct H as (H3 & _ & _ & H6).
  - rewrite length_app, repeat_length. simpl. lia.
  - rewrite firstn_app, repeat_length, Nat.sub_diag, firstn_O, app_nil_r.
    rewrite firstn_all2 by now rewrite repeat_length.
    apply Forall_forall. intros r Hr.
    apply repeat_spec in Hr. now subst r.
  - split; [exact H3 | exact H6].
Defined.

(* ================================================================== *)
(** ** Dates: bonds dated after today, and the schedule's months *)

Lemma datedif_m_future (d t : Z) : (t < d)%Z -> datedif_m d t = inl ErrNUM.
Proof.
  intros H. unfold datedif_m.
  destruct (negb (valid_serial d && valid_serial t)); [reflexivity|].
  destruct (Z.ltb_spec t d); [reflexivity | lia].
Qed.

(** Column H from the month count its own [IFERROR] settles on. *)
Lemma CurrentValue_months rates today r issue p f m s v :
  Inventory.IssueDate r = Num issue ->
  Inventory.PurchaseAmount r = Num p ->
  Inventory.FixedRate r = Num f ->
  IFERROR (DATEDIF_m (Num issue) (TODAY today)) (Num 0) = Num (IZR m) ->
  (0 <= m)%Z ->
  MATCH (Num issue) (Rates.A rates) = Num (IZR s) ->
  (forall i : nat, (Z.of_nat i <= m / 6)%Z ->
     as_number (cell (Rates.B rates) (s + Z.of_nat i)) = inr (v i)) ->
  Inventory.CurrentValue rates today r
  = formula_value (IFERROR (accrued p f v m) empty_text).
Proof.
  intros HC HD HE Hm Hm0 Hs Hv.
  pose proof (MATCH_pos _ _ _ Hs) as Hs1.
  assert (Hk0 : (0 <= m / 6)%Z) by (apply Z.div_pos; lia).
  unfold Inventory.CurrentValue. rewrite HC, HD, HE.
  change (OR [eq_op (Num issue) empty_text; eq_op (Num p) empty_text;
              eq_op (Num f) empty_text]) with (Bool false).
  cbv beta iota delta [IF as_bool]. cbv zeta.
  rewrite Hm, Hs.
  rewrite INT_div6, MOD_6, eq_op_zero.
  do 2 f_equal. unfold accrued. cbv zeta.
  f_equal. f_equal; [f_equal|].
  - destruct (Z.eqb_spec (m / 6) 0) as [Hz|Hz]; [reflexivity|].
    cbv beta iota delta [IF_arr as_bool].
    rewrite SEQUENCE_IZR by lia.
    rewrite lift1_map.
    rewrite lift2_scalar_map, lift2_scalar_map, lift2_map_map,
      lift2_map_scalar, lift2_scalar_map.
    rewrite map_map.
    erewrite map_ext_in; [reflexivity|]. intros i Hi. cbv beta.
    apply in_seq in Hi.
    rewrite INDEX_ref_IZR by lia.
    apply half_factor_number. apply Hv. lia.
  - f_equal.
    assert (Hadd : (Num (IZR s) + Num (IZR (m / 6)))%xl
                   = Num (IZR (s + Z.of_nat (Z.to_nat (m / 6))))).
    { unfold add, num2; simpl. now rewrite Z2Nat.id, plus_IZR by lia. }
    rewrite Hadd, INDEX_ref_IZR by lia.
    apply half_factor_number. apply Hv. lia.
Qed.

(** X10: a bond whose issue date lies after the evaluation day shows an
    empty MonthsHeld, yet CurrentValue treats it as held 0 months: with a
    rate row found for the issue date and a growth factor other than 0
    it is the purchase amount rounded to cents. *)
Theorem X10_bond_dated_after_today rates today r (d : Z) p f s v0 :
  Inventory.IssueDate r = Num (IZR d) ->
  Inventory.PurchaseAmount r = Num p ->
  Inventory.FixedRate r = Num f ->
  (today < d)%Z ->
  MATCH (Num (IZR d)) (Rates.A rates) = Num (IZR s) ->
  as_number (cell (Rates.B rates) s) = inr v0 ->
  periodGrowth f v0 <> 0 ->
  Inventory.MonthsHeld today r = empty_text
  /\ Inventory.CurrentValue rates today r = Num (round_half_away p 2).
Proof.
  intros HC HD HE Hlt Hs Hv Hg.
  assert (Hdd : DATEDIF_m (Num (IZR d)) (TODAY today) = Err ErrNUM).
  { unfold DATEDIF_m, TODAY. rewrite !as_integer_IZR.
    now rewrite datedif_m_future. }
  split.
  - unfold Inventory.MonthsHeld. rewrite HC, Hdd. reflexivity.
  - rewrite (CurrentValue_months rates today r (IZR d) p f 0 s (fun _ => v0));
      try assumption.
    + unfold accrued. cbv zeta. change (0 / 6)%Z with 0%Z.
      change (0 mod 6)%Z with 0%Z. cbn [Z.eqb Z.to_nat].
      rewrite div_IZR_6, POWER_zero_exponent by assumption.
      unfold ROUND, mul, num1, num2. simpl.
      do 2 f_equal. lra.
    + now rewrite Hdd.
    + lia.
    + intros i Hi. change (0 / 6)%Z with 0%Z in Hi.
      replace (s + Z.of_nat i)%Z with s by lia. assumption.
Qed.

(** X10 witness: a bond dated 2025-05-01 read on 2024-12-10 against the
    shipped rate rows. *)
Lemma X10_bond_dated_after_today_witness :
  Inventory.MonthsHeld (date 2024 12 10)
    (bond (date 2025 5 1) (Num 1000) (Num (9 / 1000)) 12)
  = empty_text
  /\ Inventory.CurrentValue Rates.build_rates (date 2024 12 10)
       (bond (date 2025 5 1) (Num 1000) (Num (9 / 1000)) 12)
     = Num (round_half_away 1000 2).
Proof.
  apply (X10_bond_dated_after_today Rates.build_rates (date 2024 12 10)
           (bond (date 2025 5 1) (Num 1000) (Num (9 / 1000)) 12)
           (date 2025 5 1) 1000 (9 / 1000) 4 0).
  - reflexivity.
  - reflexivity.
  - reflexivity.
  - vm_compute. reflexivity.
  - unfold Rates.build_rates, Rates.example_rows. cbn [Rates.A map fst].
    lookup_dates. reflexivity.
  - reflexivity.
  - unfold periodGrowth, compositeRate. lra.
Defined.

Section ScheduleMonths.
Local Open Scope Z_scope.

Lemma edate_valid (s k r : Z) :
  edate s k = inr r -> valid_serial s = true /\ valid_serial r = true.
Proof.
  unfold edate. destruct (valid_serial s); [|discriminate]. cbn [negb].
  rewrite (surjective_pairing (month_day s)).
  destruct (Z.of_nat (fst (month_day s)) + k <? 0); [discriminate|].
  destruct (valid_serial _) eqn:Hv; [|discriminate].
  intros [= <-]. now split.
Qed.

(** The complete months from a date to that date moved on by [j] months:
    [j], or [j - 1] when the day had to be cut back to the month's end. *)
Lemma datedif_m_edate (d t : Z) (j : nat) :
  1 <= d ->
  edate d (Z.of_nat j) = inr t ->
  datedif_m d t
  = inr (Z.of_nat j
         - (if days_in_month (Z.of_nat (fst (month_day d) + j))
               <? snd (month_day d)
            then 1 else 0)).
Proof.
  intros Hd He.
  destruct (edate_valid _ _ _ He) as [Hvd Hvt].
  destruct (edate_spec d (Z.of_nat j) t Hd ltac:(lia) He) as [Ht Hmd].
  cbv zeta in Ht, Hmd. rewrite Nat2Z.id in Ht, Hmd.
  destruct (month_day_spec d Hd) as [Hm Hday].
  set (n := fst (month_day d)) in *. set (dd := snd (month_day d)) in *.
  pose proof (days_in_month_bounds (Z.of_nat (n + j))) as Hb.
  assert (Hdt : d <= t).
  { destruct j as [|j].
    - rewrite Nat.add_0_r in Ht. rewrite month_start_S in Hm. lia.
    - pose proof (month_start_le (S n) (n + S j) ltac:(lia)). lia. }
  unfold datedif_m. rewrite Hvd, Hvt. cbn [andb negb].
  destruct (Z.ltb_spec t d); [lia|].
  rewrite Hmd, (surjective_pairing (month_day d)). fold n dd.
  f_equal.
  destruct (Z.ltb_spec (days_in_month (Z.of_nat (n + j))) dd);
    destruct (Z.ltb_spec (Z.min dd (days_in_month (Z.of_nat (n + j)))) dd);
    lia.
Qed.

End ScheduleMonths.

(** X11: the schedule's Month column and the Inventory's MonthsHeld
    agree.  Read on the date shown in row j of the Month column, the
    bond's MonthsHeld is j; the one exception is a month-end issue day
    that the target month does not have (the 31st, or the 29th/30th
    against February), where EDATE cuts the day back and MonthsHeld
    is j - 1. *)
Theorem X11_months_held_on_schedule_date (r : Inventory.row) (d t n : Z)
  (j : nat) :
  Inventory.IssueDate r = Num (IZR d) ->
  (1 <= d)%Z ->
  (Z.of_nat j <= n)%Z ->
  edate d (Z.of_nat j) = inr t ->
  nth j (BondSchedule.rows (BondSchedule.A9 (Num (IZR d)) (Num (IZR n)))) Blank
  = TODAY t
  /\ Inventory.MonthsHeld t r
     = Num (IZR (Z.of_nat j
                 - (if (days_in_month (Z.of_nat (fst (month_day d) + j))
                        <? snd (month_day d))%Z
                    then 1 else 0)))
  /\ ((snd (month_day d) <= 28)%Z -> Inventory.MonthsHeld t r = Num (IZR (Z.of_nat j))).
Proof.
  intros HC Hd Hj He.
  assert (HM : Inventory.MonthsHeld t r
               = Num (IZR (Z.of_nat j
                 - (if (days_in_month (Z.of_nat (fst (month_day d) + j))
                        <? snd (month_day d))%Z
                    then 1 else 0)))).
  { unfold Inventory.MonthsHeld. rewrite HC.
    rewrite (DATEDIF_m_IZR d t _ (datedif_m_edate d t j Hd He)). reflexivity. }
  split; [|split].
  - rewrite A9_offsets by (reflexivity || lia).
    cbn [BondSchedule.rows]. unfold offsets.
    rewrite nth_map_seq by lia. now apply EDATE_IZR.
  - exact HM.
  - intros H28. rewrite HM.
    pose proof (days_in_month_bounds (Z.of_nat (fst (month_day d) + j))).
    destruct (Z.ltb_spec (days_in_month (Z.of_nat (fst (month_day d) + j)))
                         (snd (month_day d))); [lia|].
    now rewrite Z.sub_0_r.
Qed.

(** X11 witness: issued 2024-01-31; row 1 of the schedule is 2024-02-29
    and counts as 0 complete months. *)
Lemma X11_months_held_on_schedule_date_witness :
  nth 1 (BondSchedule.rows
           (BondSchedule.A9 (Num (IZR (date 2024 1 31))) (Num (IZR 12)))) Blank
  = TODAY (date 2024 2 29)
  /\ Inventory.MonthsHeld (date 2024 2 29)
       (bond (date 2024 1 31) (Num 1000) (Num 0) 12)
     = Num (IZR (Z.of_nat 1
                 - (if (days_in_month
                          (Z.of_nat (fst (month_day (date 2024 1 31)) + 1))
                        <? snd (month_day (date 2024 1 31)))%Z
                    then 1 else 0))).
Proof.
  pose proof (X11_months_held_on_schedule_date
                (bond (date 2024 1 31) (Num 1000) (Num 0) 12)
                (date 2024 1 31) (date 2024 2 29) 12 1 eq_refl) as H.
  destruct H as (H1 & H2 & _).
  - vm_compute. discriminate.
  - vm_compute. discriminate.
  - vm_compute. reflexivity.
  - split; [exact H1 | exact H2].
Defined.

(* ================================================================== *)
(** ** Headers and column widths *)

Section Headers.
Context {V : Type}.

Lemma set_header_from_elsewhere (row : nat) (headers : list V) :
  forall (ws : Sheet.worksheet V) (col r k : nat),
    r <> row \/ (k < col)%nat \/ (col + List.length headers <= k)%nat ->
    Sheet.set_header_from ws row col headers r k = ws r k.
Proof.
  induction headers as [|title rest IH]; intros ws col r k Hout;
    [reflexivity|].
  cbn [Sheet.set_header_from]. rewrite IH by (cbn [List.length] in Hout; lia).
  unfold Sheet.write.
  destruct (Nat.eqb_spec r row) as [Hr|Hr]; [|reflexivity].
  destruct (Nat.eqb_spec k col) as [Hk|Hk]; [|reflexivity].
  cbn [List.length] in Hout. lia.
Qed.

Lemma set_header_from_at (row : nat) (headers : list V) :
  forall (ws : Sheet.worksheet V) (col i : nat) (title : V),
    nth_error headers i = Some title ->
    Sheet.set_header_from ws row col headers row (col + i)%nat
    = {| Sheet.content := Some title; Sheet.look := Sheet.header_style |}.
Proof.
  induction headers as [|t rest IH]; intros ws col i title Hi.
  - destruct i; discriminate.
  - cbn [Sheet.set_header_from]. destruct i as [|i].
    + injection Hi as ->. rewrite Nat.add_0_r.
      rewrite set_header_from_elsewhere by lia.
      unfold Sheet.write. now rewrite !Nat.eqb_refl.
    + replace (col + S i)%nat with (S col + i)%nat by lia.
      now apply IH.
Qed.

End Headers.

(** X12: after [set_header ws row headers], the cell of [row] in column
    i + 1 holds the i-th title in the header style (bold, centred,
    filled, bordered), for every title; every cell of another row, and
    every cell of [row] right of the last title, is as it was. *)
Theorem X12_set_header_writes_one_row (V : Type) (ws : Sheet.worksheet V)
  (row : nat) (headers : list V) :
  (forall (i : nat) (title : V),
      nth_error headers i = Some title ->
      Sheet.set_header ws row headers row (S i)
      = {| Sheet.content := Some title; Sheet.look := Sheet.header_style |})
  /\ (forall r k : nat,
        r <> row \/ k = 0%nat \/ (List.length headers < k)%nat ->
        Sheet.set_header ws row headers r k = ws r k).
Proof.
  unfold Sheet.set_header. split.
  - intros i title Hi.
    apply (set_header_from_at row headers ws 1 i title Hi).
  - intros r k Hout. apply set_header_from_elsewhere. lia.
Qed.

Section Widths.
Context {V : Type} (str : V -> option string).

Let len (c : option V) : nat := String.length (Sheet.cell_text str c).

Let step (length : nat) (c : option V) : nat :=
  let val := Sheet.cell_text str c in
  if (length <? String.length val)%nat then String.length val else length.

Lemma longest_from_ge (cells : list (option V)) :
  forall a, (a <= fold_left step cells a)%nat
            /\ (forall c, In c cells -> (len c <= fold_left step cells a)%nat).
Proof.
  induction cells as [|c0 cells IH]; intros a; cbn [fold_left].
  - split; [lia | intros c []].
  - destruct (IH (step a c0)) as [Ha Hc].
    assert (Hs : (a <= step a c0 /\ len c0 <= step a c0)%nat).
    { unfold step, len. cbv zeta.
      destruct (Nat.ltb_spec a (String.length (Sheet.cell_text str c0))); lia. }
    split; [lia|].
    intros c [<-|Hin]; [lia | now apply Hc].
Qed.

Lemma longest_from_le (cells : list (option V)) (b : nat) :
  (forall c, In c cells -> (len c <= b)%nat) ->
  forall a, (a <= b)%nat -> (fold_left step cells a <= b)%nat.
Proof.
  induction cells as [|c0 cells IH]; intros Hb a Ha; cbn [fold_left];
    [assumption|].
  apply IH.
  - intros c Hc. apply Hb. now right.
  - unfold step. cbv zeta. specialize (Hb c0 (or_introl eq_refl)).
    unfold len in Hb.
    destruct (Nat.ltb_spec a (String.length (Sheet.cell_text str c0))); lia.
Qed.

Lemma longest_ge (cells : list (option V)) (c : option V) :
  In c cells -> (len c <= Sheet.longest str cells)%nat.
Proof. intros Hc. now apply (longest_from_ge cells 0). Qed.

Lemma longest_le (cells : list (option V)) (b : nat) :
  (forall c, In c cells -> (len c <= b)%nat) ->
  (Sheet.longest str cells <= b)%nat.
Proof. intros Hb. apply (longest_from_le cells b Hb). lia. Qed.

End Widths.

(** X13: the width [autosize] gives a column is never below 10 nor above
    60; every cell whose text has at most 58 characters gets its length
    plus 2; and a column whose texts have at most 8 characters, an empty
    column included, gets exactly 10. *)
Theorem X13_column_width_bounds (V : Type) (str : V -> option string)
  (cells : list (option V)) :
  (10 <= Sheet.column_width str cells <= 60)%nat
  /\ (forall c : option V,
        In c cells ->
        (Nat.min (String.length (Sheet.cell_text str c) + 2) 60
         <= Sheet.column_width str cells)%nat)
  /\ ((forall c : option V,
         In c cells -> (String.length (Sheet.cell_text str c) <= 8)%nat) ->
      Sheet.column_width str cells = 10%nat).
Proof.
  unfold Sheet.column_width. split; [lia|]. split.
  - intros c Hc. pose proof (longest_ge str cells c Hc). lia.
  - intros Hshort. pose proof (longest_le str cells 8 Hshort). lia.
Qed.

(* ================================================================== *)
(** ** The Rates sheet, cell by cell *)

Section RatesCells.
Import Sheet RatesSheet.

Lemma write_rows_elsewhere (rows : list (Z * R)) :
  forall (ws : worksheet value) (idx r k : nat),
    (r < idx)%nat \/ (idx + List.length rows <= r)%nat
    \/ (k <> 1 /\ k <> 2)%nat ->
    write_rows ws idx rows r k = ws r k.
Proof.
  induction rows as [|[eff var] rest IH]; intros ws idx r k Hout;
    [reflexivity|].
  cbn [write_rows]. rewrite IH by (cbn [List.length] in Hout; lia).
  unfold set_value, write. cbn [List.length] in Hout.
  destruct (Nat.eqb_spec r idx) as [Hr|Hr]; cbn [andb]; [|reflexivity].
  destruct (Nat.eqb_spec k 2) as [Hk|Hk]; [lia|].
  destruct (Nat.eqb_spec k 1) as [Hk1|Hk1]; [lia | reflexivity].
Qed.

Lemma write_rows_column (rows : list (Z * R)) :
  forall (ws : worksheet value) (idx : nat),
    map (fun r => cell_value (write_rows ws idx rows r 1%nat))
        (seq idx (List.length rows))
    = map (fun row => Num (IZR (fst row))) rows
    /\ map (fun r => cell_value (write_rows ws idx rows r 2%nat))
           (seq idx (List.length rows))
       = map (fun row => Num (snd row)) rows.
Proof.
  induction rows as [|[eff var] rest IH]; intros ws idx; [now split|].
  cbn [write_rows List.length seq map fst snd].
  destruct (IH (set_value (set_value ws idx 1 (Num (IZR eff))) idx 2 (Num var))
               (S idx)) as [IH1 IH2].
  rewrite IH1, IH2, !write_rows_elsewhere by lia.
  unfold set_value, write, cell_value. rewrite !Nat.eqb_refl. cbn.
  now split.
Qed.

End RatesCells.

(** X14: [build_rates] on any worksheet, for any list of example rows:
    read top-down, column A is the title EffDate followed by the rows'
    effective dates and column B the title VariableRate followed by
    their rates; the table A1:B{last_row} reaches at least row 100 and
    past every example row; rows below the example rows are left as they
    were.  For the rows in the script these are the columns the formulas
    above are evaluated on. *)
Theorem X14_build_rates_cells (example_rows : list (Z * R))
  (ws : Sheet.worksheet value) :
  let b := RatesSheet.build_rates_with example_rows ws in
  let n := List.length example_rows in
  RatesSheet.column_of (RatesSheet.cells b) 1 (1 + n)
  = Str "EffDate" :: map (fun row => Num (IZR (fst row))) example_rows
  /\ RatesSheet.column_of (RatesSheet.cells b) 2 (1 + n)
     = Str "VariableRate" :: map (fun row => Num (snd row)) example_rows
  /\ (100 <= RatesSheet.last_row b)%nat
  /\ (1 + n < RatesSheet.last_row b)%nat
  /\ (forall r k : nat, (1 + n < r)%nat -> RatesSheet.cells b r k = ws r k)
  /\ RatesSheet.column_of
       (RatesSheet.cells (RatesSheet.build_rates RatesSheet.new_sheet)) 1 4
     = Rates.A Rates.build_rates
  /\ RatesSheet.column_of
       (RatesSheet.cells (RatesSheet.build_rates RatesSheet.new_sheet)) 2 4
     = Rates.B Rates.build_rates.
Proof.
  cbv zeta.
  assert (Hcols : forall rows ws0,
    RatesSheet.column_of
      (RatesSheet.cells (RatesSheet.build_rates_with rows ws0)) 1
      (1 + List.length rows)
    = Str "EffDate" :: map (fun row => Num (IZR (fst row))) rows
    /\ RatesSheet.column_of
         (RatesSheet.cells (RatesSheet.build_rates_with rows ws0)) 2
         (1 + List.length rows)
       = Str "VariableRate" :: map (fun row => Num (snd row)) rows).
  { intros rows ws0.
    unfold RatesSheet.column_of, RatesSheet.build_rates_with.
    cbn [RatesSheet.cells]. cbn [Nat.add seq map].
    destruct (write_rows_column rows
                (Sheet.set_header ws0 1 [Str "EffDate"; Str "VariableRate"]) 2)
      as [H1 H2].
    rewrite H1, H2, !write_rows_elsewhere by lia.
    split; reflexivity. }
  destruct (Hcols example_rows ws) as [HA HB].
  split; [exact HA|]. split; [exact HB|].
  unfold RatesSheet.build_rates_with. cbn [RatesSheet.last_row RatesSheet.cells].
  split; [lia|]. split; [lia|]. split.
  - intros r k Hr. rewrite write_rows_elsewhere by lia.
    unfold Sheet.set_header.
    apply set_header_from_elsewhere. lia.
  - destruct (Hcols Rates.example_rows RatesSheet.new_sheet) as [HA' HB'].
    split; [exact HA' | exact HB'].
Qed.
